(** * CrossWindow: a shallow embedding of the window-manager backends

    The library drives three native windowing systems (Win32, X11/EWMH and
    the macOS window list + Accessibility layer) behind one interface,
    [WindowManagerImplBase].  Every method of a backend is a short
    sequential program that reads and writes the fields of the backend
    object ([m_initialized], [m_lastError], and for X11 the display and the
    atom cache) and talks to the operating system through native calls.

    The embedding keeps both sides apart:
    - the fields of the backend object are an explicit record that is
      threaded through every method (a state monad);
    - a native call is a node of a program tree ([Vis]) that names the call
      and its arguments and continues with the answer of the operating
      system.  A method is thereby independent of any particular desktop:
      a [Handler] supplies the answers, and [run] executes a method against
      a handler, returning the result, the final desktop and the log of
      native calls that were issued, in order, with their answers.

    Conventions.  Integers of the source are [Z]; handles, atoms, pids and
    pointers are [Z] with [0] for the null pointer.  [float] is IEEE-754
    binary32 (round to nearest even) from the Standard Library's
    [SpecFloat]; [unsigned long] is 64 bits wide (LP64), as on the
    platforms the X11 backend is built for.  Calls that only release
    memory ([XFree], [CFRelease], [CFRetain]) are not recorded.

    Under [run] a native call always answers.  Under Xlib that is not so:
    a request that names a window that no longer exists is answered with
    a protocol error, Xlib hands the error to the installed error
    handler, and the default handler ends the process.  [Xlib.run]
    follows the installed handler through the log of a method and stops
    where a failing [XGetWindowAttributes] meets a handler that ends the
    process; [run] is what [Xlib.run] does as long as every handler
    returns. *)

From Stdlib Require Import ZArith List String Ascii Bool Lia.
From Stdlib Require Import Floats.SpecFloat.
From Stdlib Require Import DecimalString.
Import ListNotations.

Local Open Scope Z_scope.

(* ================================================================== *)
(** * Data model (CrossWindow.h) *)
(* ================================================================== *)

(** [NativeHandle]: [void*] on Win32 and macOS, [unsigned long] on X11. *)
Definition NativeHandle := Z.

Record Rect := mkRect { x : Z; y : Z; width : Z; height : Z }.

(** [Rect{}]: every member has the default initialiser [0]. *)
Definition Rect_default : Rect := mkRect 0 0 0 0.

(** [enum class WindowState : uint32_t], used as a bit set. *)
Definition WindowState := Z.

Module WindowState.
Definition Normal : WindowState := 0.
Definition Minimized : WindowState := Z.shiftl 1 0.
Definition Maximized : WindowState := Z.shiftl 1 1.
Definition Fullscreen : WindowState := Z.shiftl 1 2.
Definition Hidden : WindowState := Z.shiftl 1 3.
Definition Focused : WindowState := Z.shiftl 1 4.
Definition AlwaysOnTop : WindowState := Z.shiftl 1 5.
End WindowState.

(** [operator|] and [operator&] on [WindowState], and [HasFlag]. *)
Definition WindowState_or (a b : WindowState) : WindowState := Z.lor a b.
Definition WindowState_and (a b : WindowState) : WindowState := Z.land a b.
Definition HasFlag (state flag : WindowState) : bool :=
  negb (Z.land state flag =? 0).

Record WindowInfo := mkWindowInfo {
  handle : NativeHandle;
  title : string;
  className : string;
  rect : Rect;
  state : WindowState;
  processId : Z;
  processName : string;
  isVisible : bool
}.

(** [WindowInfo{}] as its default member initialisers make it. *)
Definition WindowInfo_default : WindowInfo :=
  mkWindowInfo 0 EmptyString EmptyString Rect_default WindowState.Normal 0
               EmptyString false.

Inductive ErrorCode :=
| Success
| InvalidHandle
| AccessDenied
| WindowNotFound
| OperationFailed
| NotSupported
| NotInitialized.

Definition ErrorCode_eqb (a b : ErrorCode) : bool :=
  match a, b with
  | Success, Success | InvalidHandle, InvalidHandle
  | AccessDenied, AccessDenied | WindowNotFound, WindowNotFound
  | OperationFailed, OperationFailed | NotSupported, NotSupported
  | NotInitialized, NotInitialized => true
  | _, _ => false
  end.

Record Result (T : Type) := mkResult {
  value : T;
  error : ErrorCode;
  errorMessage : string
}.
Arguments mkResult {T} value error errorMessage.
Arguments value {T} r.
Arguments error {T} r.
Arguments errorMessage {T} r.

(** [Result<T> result;]: [error] starts as [Success] and the message
    empty.  [value] is default-initialised: a string is empty, a [Rect]
    and a [WindowInfo] take their member initialisers, and a scalar
    ([WindowState], [uint32_t], [bool]) is left unwritten.  The
    embedding has to put a number there and puts [0]; that number stands
    for whatever the member holds, and no statement about a query that
    failed says what the scalar [value] is. *)
Definition Result_default {T} (v : T) : Result T :=
  mkResult v Success EmptyString.

Definition ok {T} (r : Result T) : bool := ErrorCode_eqb (error r) Success.

Definition set_value {T} (r : Result T) (v : T) : Result T :=
  mkResult v (error r) (errorMessage r).
Definition set_error {T} (r : Result T) (e : ErrorCode) : Result T :=
  mkResult (value r) e (errorMessage r).
Definition set_errorMessage {T} (r : Result T) (m : string) : Result T :=
  mkResult (value r) (error r) m.

(** Field updates of a [WindowInfo] under construction. *)
Definition with_handle (i : WindowInfo) v :=
  mkWindowInfo v (title i) (className i) (rect i) (state i) (processId i)
               (processName i) (isVisible i).
Definition with_title (i : WindowInfo) v :=
  mkWindowInfo (handle i) v (className i) (rect i) (state i) (processId i)
               (processName i) (isVisible i).
Definition with_className (i : WindowInfo) v :=
  mkWindowInfo (handle i) (title i) v (rect i) (state i) (processId i)
               (processName i) (isVisible i).
Definition with_rect (i : WindowInfo) v :=
  mkWindowInfo (handle i) (title i) (className i) v (state i) (processId i)
               (processName i) (isVisible i).
Definition with_state (i : WindowInfo) v :=
  mkWindowInfo (handle i) (title i) (className i) (rect i) v (processId i)
               (processName i) (isVisible i).
Definition with_processId (i : WindowInfo) v :=
  mkWindowInfo (handle i) (title i) (className i) (rect i) (state i) v
               (processName i) (isVisible i).
Definition with_processName (i : WindowInfo) v :=
  mkWindowInfo (handle i) (title i) (className i) (rect i) (state i)
               (processId i) v (isVisible i).
Definition with_isVisible (i : WindowInfo) v :=
  mkWindowInfo (handle i) (title i) (className i) (rect i) (state i)
               (processId i) (processName i) v.

(* ================================================================== *)
(** * Strings: [::tolower], [std::string::find] *)
(* ================================================================== *)

(** [::tolower] in the "C" locale, the locale of a program that never
    calls [setlocale]: the 26 upper-case ASCII letters are mapped, every
    other byte is returned as it is. *)
Definition tolower (c : ascii) : ascii :=
  let n := N_of_ascii c in
  if ((65 <=? n) && (n <=? 90))%N then ascii_of_N (n + 32) else c.

(** [std::transform(s.begin(), s.end(), s.begin(), ::tolower)]. *)
Fixpoint transform_tolower (s : string) : string :=
  match s with
  | EmptyString => EmptyString
  | String c s' => String (tolower c) (transform_tolower s')
  end.

(** [s] starts with [p]. *)
Fixpoint starts_with (p s : string) : bool :=
  match p, s with
  | EmptyString, _ => true
  | String _ _, EmptyString => false
  | String a p', String b s' => Ascii.eqb a b && starts_with p' s'
  end.

(** [s.find(p)], searching from position [pos] of the original string:
    the first position at which [p] occurs, [None] for [npos]. *)
Fixpoint find_from (pos : nat) (s p : string) : option nat :=
  if starts_with p s then Some pos
  else match s with
       | EmptyString => None
       | String _ s' => find_from (S pos) s' p
       end.

Definition find (s p : string) : option nat := find_from 0 s p.

(** [s.find(p) != std::string::npos]. *)
Definition found (s p : string) : bool :=
  match find s p with Some _ => true | None => false end.

(** [ToLowerCompare], the same private helper in all three backends. *)
Definition ToLowerCompare (str pattern : string) : bool :=
  let lowerStr := transform_tolower str in
  let lowerPattern := transform_tolower pattern in
  found lowerStr lowerPattern.

(** The title test of [FindWindowsByTitle]. *)
Definition title_matches (caseSensitive : bool) (ttl titlePattern : string)
  : bool :=
  if caseSensitive then found ttl titlePattern
  else ToLowerCompare ttl titlePattern.

(* ================================================================== *)
(** * binary32 arithmetic *)
(* ================================================================== *)

Definition float := spec_float.

Module Float.
Definition prec : Z := 24.
Definition emax : Z := 128.

(** Conversion of an integer constant or value to [float]. *)
Definition of_Z (n : Z) : float := binary_normalize prec emax n 0 false.

Definition mul (a b : float) : float := SFmul prec emax a b.
Definition ltb (a b : float) : bool := SFltb a b.
Definition leb (a b : float) : bool := SFleb a b.

(** [std::min(a, b)] is [(b < a) ? b : a]; [std::max(a, b)] is
    [(a < b) ? b : a]. *)
Definition min (a b : float) : float := if ltb b a then b else a.
Definition max (a b : float) : float := if ltb a b then b else a.

(** Float to integer conversion truncates toward zero.  It is defined
    only when the truncated value fits the target type; [None] stands
    for NaN and the infinities. *)
Definition trunc (f : float) : option Z :=
  match f with
  | S754_zero _ => Some 0
  | S754_finite s m e =>
      let a := if 0 <=? e then Zpos m * 2 ^ e else Zpos m / 2 ^ (- e) in
      Some (if s then - a else a)
  | S754_infinity _ | S754_nan => None
  end.

Definition zero : float := S754_zero false.
Definition one : float := of_Z 1.
Definition two : float := of_Z 2.
Definition minus_one : float := of_Z (-1).
Definition half : float := S754_finite false 8388608 (-24).
End Float.

(** [static_cast<T>(f)] for an unsigned integer type of [bits] bits:
    the truncated value when it is representable.  Outside the range the
    conversion is undefined; the embedding keeps the truncated value so
    that callers can observe that it left the range. *)
Definition static_cast_unsigned (f : float) : Z :=
  match Float.trunc f with Some z => z | None => 0 end.

(** The clamp of [SetWindowOpacity]:
    [std::max(0.0f, std::min(1.0f, opacity))]. *)
Definition clamp_opacity (opacity : float) : float :=
  Float.max Float.zero (Float.min Float.one opacity).

(* ================================================================== *)
(** * Programs over native calls *)
(* ================================================================== *)

Section Programs.
(** The native calls of one platform and the type of each answer. *)
Variable Call : Type.
Variable Answer : Call -> Type.

Inductive Prog (R : Type) : Type :=
| Ret (r : R)
| Vis (c : Call) (k : Answer c -> Prog R).
Arguments Ret {R} r.
Arguments Vis {R} c k.

Fixpoint bind {A B} (p : Prog A) (f : A -> Prog B) : Prog B :=
  match p with
  | Ret a => f a
  | Vis c k => Vis c (fun a => bind (k a) f)
  end.

(** One issued call together with what the system answered. *)
Record Entry := entry { call : Call; answer : Answer call }.

(** The operating system: it answers a call in a desktop state [W] and
    moves to the next desktop state. *)
Definition Handler (W : Type) := forall c : Call, W -> Answer c * W.

Record Outcome (R W : Type) := mkOutcome {
  result : R;
  world : W;
  log : list Entry
}.
Arguments mkOutcome {R W} result world log.
Arguments result {R W} o.
Arguments world {R W} o.
Arguments log {R W} o.

Fixpoint run {R W} (h : Handler W) (p : Prog R) (w : W) : Outcome R W :=
  match p with
  | Ret r => mkOutcome r w []
  | Vis c k =>
      let aw := h c w in
      let o := run h (k (fst aw)) (snd aw) in
      mkOutcome (result o) (world o) (entry c (fst aw) :: log o)
  end.

(** The calls of a log, without the answers. *)
Definition calls (l : list Entry) : list Call := map call l.

(** ** Methods: programs that also thread the backend object *)
Variable St : Type.

Definition M (A : Type) := St -> Prog (A * St).

Definition ret {A} (a : A) : M A := fun s => Ret (a, s).

Definition mbind {A B} (m : M A) (f : A -> M B) : M B :=
  fun s => bind (m s) (fun as' => f (fst as') (snd as')).

(** Issue one native call. *)
Definition native (c : Call) : M (Answer c) :=
  fun s => Vis c (fun a => Ret (a, s)).

Definition get : M St := fun s => Ret (s, s).
Definition put (s' : St) : M unit := fun _ => Ret (tt, s').

(** Value and final backend object of a method run. *)
Definition returned {A W} (o : Outcome (A * St) W) : A := fst (result o).
Definition object {A W} (o : Outcome (A * St) W) : St := snd (result o).

(** ** Methods that only ask *)

(** [Q] singles out the calls that ask the system something without
    changing the desktop.  A program is [asking] from the object [s] when
    all its calls are in [Q] and it hands the object back as it was. *)
Variable Q : Call -> Prop.

Inductive asking {A} (s : St) : Prog (A * St) -> Prop :=
| asking_ret (a : A) : asking s (Ret (a, s))
| asking_vis (c : Call) (k : Answer c -> Prog (A * St)) :
    Q c -> (forall a, asking s (k a)) -> asking s (Vis c k).

Definition reader {A} (m : M A) : Prop := forall s, asking s (m s).

(** The desktop [w] is frozen under [h]: no call of [Q] changes it. *)
Definition frozen {W} (h : Handler W) (w : W) : Prop :=
  forall c, Q c -> snd (h c w) = w.
End Programs.

Arguments Ret {Call Answer R} r.
Arguments Vis {Call Answer R} c k.
Arguments bind {Call Answer A B} p f.
Arguments entry {Call Answer} call answer.
Arguments call {Call Answer} e.
Arguments answer {Call Answer} e.
Arguments mkOutcome {Call Answer R W} result world log.
Arguments result {Call Answer R W} o.
Arguments world {Call Answer R W} o.
Arguments log {Call Answer R W} o.
Arguments run {Call Answer R W} h p w.
Arguments calls {Call Answer} l.
Arguments ret {Call Answer St A} a.
Arguments mbind {Call Answer St A B} m f.
Arguments native {Call Answer St} c.
Arguments get {Call Answer St}.
Arguments put {Call Answer St} s'.
Arguments returned {Call Answer St A W} o.
Arguments object {Call Answer St A W} o.
Arguments asking {Call Answer St} Q {A} s p.
Arguments asking_ret {Call Answer St} Q {A} s a.
Arguments asking_vis {Call Answer St} Q {A} s c k.
Arguments reader {Call Answer St} Q {A} m.
Arguments frozen {Call Answer} Q {W} h w.

Declare Scope method_scope.
Delimit Scope method_scope with method.
Notation "x <- m ;; k" := (mbind m (fun x => k))
  (at level 61, m at next level, right associativity) : method_scope.
Notation "m ;;; k" := (mbind m (fun _ => k))
  (at level 61, right associativity) : method_scope.

Local Open Scope method_scope.
Local Open Scope string_scope.
Local Open Scope Z_scope.

(** [std::string::resize(n)] / construction with [n] NUL bytes followed by
    a write of [written] at the front: the first [n] bytes of [written],
    padded with NUL. *)
Fixpoint string_resize (n : nat) (written : string) : string :=
  match n with
  | O => EmptyString
  | S n' =>
      match written with
      | EmptyString => String zero (string_resize n' EmptyString)
      | String c rest => String c (string_resize n' rest)
      end
  end.

(** The operations that take a handle and return a [Result] or an
    [ErrorCode], with their further arguments. *)
Inductive HandleOp :=
| OpGetWindowInfo
| OpGetWindowTitle
| OpGetWindowRect
| OpGetWindowState
| OpGetWindowProcessId
| OpCloseWindow
| OpForceCloseWindow
| OpMinimizeWindow
| OpMaximizeWindow
| OpRestoreWindow
| OpShowWindow
| OpHideWindow
| OpFocusWindow
| OpSetAlwaysOnTop (topmost : bool)
| OpSetWindowRect (r : Rect)
| OpMoveWindow (px py : Z)
| OpResizeWindow (w h : Z)
| OpSetWindowTitle (t : string)
| OpSetWindowOpacity (opacity : float).

(** The members of [WindowManagerImplBase]. *)
Record ImplBase := mkImplBase {
  m_initialized : bool;
  m_lastError : string
}.

(** A freshly constructed backend object. *)
Definition ImplBase_new : ImplBase := mkImplBase false "".

(** The reference walk of a visitor over a list of windows: the visitor
    carries its own state [V]; the walk stops after the first invocation
    that answers [false].  It returns the final visitor state and the
    windows the visitor was invoked on, in order. *)
Fixpoint walk {V} (visit : V -> WindowInfo -> bool * V) (v : V)
         (l : list WindowInfo) : V * list WindowInfo :=
  match l with
  | [] => (v, [])
  | i :: l' =>
      let (continue, v') := visit v i in
      if continue then
        let (v'', seen) := walk visit v' l' in (v'', i :: seen)
      else (v', [i])
  end.

(* ================================================================== *)
(** * Win32 backend (WindowManagerWindows.cpp) *)
(* ================================================================== *)

Module Win32.
Definition HWND := Z.
(** [std::wstring] and [wchar_t] buffers: UTF-16 code units. *)
Definition wstring := list Z.
Record RECT := mkRECT { left : Z; top : Z; right : Z; bottom : Z }.

(** Constants of the Windows SDK headers. *)
Definition GW_OWNER : Z := 4.
Definition GWL_EXSTYLE : Z := -20.
Definition WS_EX_TOPMOST : Z := 8.
Definition WS_EX_LAYERED : Z := 524288.
Definition SW_HIDE : Z := 0.
Definition SW_MAXIMIZE : Z := 3.
Definition SW_SHOW : Z := 5.
Definition SW_MINIMIZE : Z := 6.
Definition SW_RESTORE : Z := 9.
Definition WM_CLOSE : Z := 16.
Definition HWND_TOPMOST : Z := -1.
Definition HWND_NOTOPMOST : Z := -2.
Definition SWP_NOSIZE : Z := 1.
Definition SWP_NOMOVE : Z := 2.
Definition SWP_NOZORDER : Z := 4.
Definition LWA_ALPHA : Z := 2.
Definition PROCESS_TERMINATE : Z := 1.
Definition PROCESS_QUERY_LIMITED_INFORMATION : Z := 4096.
Definition CP_UTF8 : Z := 65001.
Definition MAX_PATH : Z := 260.

(** The native calls of the Win32 backend.  [EnumWindows] stands for the
    list of top-level windows that [::EnumWindows] presents to its
    callback, in presentation order.  Where the source calls
    [IsWindowVisible(hwnd)] in [EnumWindowsProc] and
    [GetWindowRect(hwnd, &rect)] in [GetWindowInfo] without the [::]
    qualifier, the native functions of these names are meant. *)
Module Api.
Inductive Call :=
| IsWindow (hwnd : HWND)
| IsWindowVisible (hwnd : HWND)
| GetWindow (hwnd : HWND) (uCmd : Z)
| GetWindowTextLengthW (hwnd : HWND)
| GetWindowTextW (hwnd : HWND) (nMaxCount : Z)
| WideCharToMultiByte (codePage : Z) (wide : wstring) (cbMultiByte : Z)
| MultiByteToWideChar (codePage : Z) (s : string) (cchWideChar : Z)
| GetClassNameW (hwnd : HWND) (nMaxCount : Z)
| GetWindowThreadProcessId (hwnd : HWND)
| OpenProcess (access : Z) (pid : Z)
| QueryFullProcessImageNameW (hProcess : Z) (size : Z)
| CloseHandle (h : Z)
| TerminateProcess (h : Z) (exitCode : Z)
| GetWindowRect (hwnd : HWND)
| IsIconic (hwnd : HWND)
| IsZoomed (hwnd : HWND)
| GetWindowLongW (hwnd : HWND) (nIndex : Z)
| SetWindowLongW (hwnd : HWND) (nIndex : Z) (newLong : Z)
| GetForegroundWindow
| EnumWindows
| PostMessage (hwnd : HWND) (msg wParam lParam : Z)
| ShowWindow (hwnd : HWND) (nCmdShow : Z)
| SetForegroundWindow (hwnd : HWND)
| SetFocus (hwnd : HWND)
| SetWindowPos (hwnd insertAfter : HWND) (px py cx cy flags : Z)
| MoveWindow (hwnd : HWND) (px py w h : Z) (repaint : bool)
| SetWindowTextW (hwnd : HWND) (text : wstring)
| SetLayeredWindowAttributes (hwnd : HWND) (crKey bAlpha dwFlags : Z).

Definition Answer (c : Call) : Type :=
  match c with
  | IsWindow _ | IsWindowVisible _ | IsIconic _ | IsZoomed _ => bool
  | GetWindow _ _ | GetForegroundWindow => HWND
  | GetWindowTextLengthW _ => Z
  | GetWindowTextW _ _ => wstring
  | WideCharToMultiByte _ _ _ => Z * string
  | MultiByteToWideChar _ _ _ => Z * wstring
  | GetClassNameW _ _ => Z * wstring
  | GetWindowThreadProcessId _ => Z
  | OpenProcess _ _ => Z
  | QueryFullProcessImageNameW _ _ => bool * wstring
  | GetWindowRect _ => option RECT
  | GetWindowLongW _ _ => Z
  | EnumWindows => list HWND
  | CloseHandle _ | TerminateProcess _ _ | SetWindowLongW _ _ _
  | PostMessage _ _ _ _ | ShowWindow _ _ | SetForegroundWindow _
  | SetFocus _ | SetWindowPos _ _ _ _ _ _ _ | MoveWindow _ _ _ _ _ _
  | SetWindowTextW _ _ | SetLayeredWindowAttributes _ _ _ _ => unit
  end.
End Api.

Definition St := ImplBase.
Definition M := M Api.Call Api.Answer St.
Definition call (c : Api.Call) : M (Api.Answer c) := native c.

Definition SetLastError (error : string) : M unit :=
  fun s => Ret (tt, mkImplBase (m_initialized s) error).

Definition GetLastError : M string :=
  fun s => Ret (m_lastError s, s).

Definition Initialize : M bool :=
  fun s => Ret (true, mkImplBase true (m_lastError s)).

Definition IsInitialized : M bool :=
  fun s => Ret (m_initialized s, s).

Definition Shutdown : M unit :=
  fun s => Ret (tt, mkImplBase false (m_lastError s)).

(** [std::wstring::resize(n)] after a write of [written]. *)
Definition wresize (n : nat) (written : wstring) : wstring :=
  firstn n (written ++ repeat 0 n)%list.

Definition GetWindowTitleInternal (hwnd : HWND) : M string :=
  length <- call (Api.GetWindowTextLengthW hwnd) ;;
  if length =? 0 then ret ""
  else
    written <- call (Api.GetWindowTextW hwnd (length + 1)) ;;
    let wideTitle := wresize (Z.to_nat length) written in
    sz <- call (Api.WideCharToMultiByte CP_UTF8 wideTitle 0) ;;
    let size := fst sz in
    if size <=? 0 then ret ""
    else
      conv <- call (Api.WideCharToMultiByte CP_UTF8 wideTitle size) ;;
      ret (string_resize (Z.to_nat (size - 1)) (snd conv)).

Definition GetWindowClassInternal (hwnd : HWND) : M string :=
  cls <- call (Api.GetClassNameW hwnd 256) ;;
  if fst cls =? 0 then ret ""
  else
    let className := snd cls in
    sz <- call (Api.WideCharToMultiByte CP_UTF8 className 0) ;;
    let size := fst sz in
    if size <=? 0 then ret ""
    else
      conv <- call (Api.WideCharToMultiByte CP_UTF8 className size) ;;
      ret (string_resize (Z.to_nat (size - 1)) (snd conv)).

(** [wcsrchr(path, L'\\')] and the choice of the file name after it:
    [acc] is the candidate found so far. *)
Fixpoint after_last_backslash (path acc : wstring) : wstring :=
  match path with
  | [] => acc
  | c :: rest =>
      if c =? 92 then after_last_backslash rest rest
      else after_last_backslash rest acc
  end.

Definition GetProcessNameFromPid (pid : Z) : M string :=
  hProcess <- call (Api.OpenProcess PROCESS_QUERY_LIMITED_INFORMATION pid) ;;
  if hProcess =? 0 then ret ""
  else
    q <- call (Api.QueryFullProcessImageNameW hProcess MAX_PATH) ;;
    name <- (if fst q then
               let processName := snd q in
               let fileName := after_last_backslash processName processName in
               sz <- call (Api.WideCharToMultiByte CP_UTF8 fileName 0) ;;
               let sizeNeeded := fst sz in
               if 0 <? sizeNeeded then
                 conv <- call (Api.WideCharToMultiByte CP_UTF8 fileName
                                                       sizeNeeded) ;;
                 ret (string_resize (Z.to_nat (sizeNeeded - 1)) (snd conv))
               else ret ""
             else ret "") ;;
    call (Api.CloseHandle hProcess) ;;;
    ret name.

Definition not_initialized {T} (result : Result T) : Result T :=
  set_errorMessage (set_error result NotInitialized)
                   "WindowManager not initialized".

Definition invalid_handle {T} (result : Result T) : Result T :=
  set_errorMessage (set_error result InvalidHandle) "Invalid window handle".

(** The state bits shared by [GetWindowInfo] and [GetWindowState] after
    the visibility bit: always-on-top and focus. *)
Definition add_flag (cond : bool) (flag st : WindowState) : WindowState :=
  if cond then WindowState_or st flag else st.

Definition GetWindowInfo (handle : NativeHandle) : M (Result WindowInfo) :=
  let result := Result_default WindowInfo_default in
  let hwnd := handle in
  s <- get ;;
  if negb (m_initialized s) then ret (not_initialized result)
  else
    valid <- call (Api.IsWindow hwnd) ;;
    if negb valid then ret (invalid_handle result)
    else
      let v := with_handle (value result) handle in
      ttl <- GetWindowTitleInternal hwnd ;;
      let v := with_title v ttl in
      cls <- GetWindowClassInternal hwnd ;;
      let v := with_className v cls in
      pid <- call (Api.GetWindowThreadProcessId hwnd) ;;
      let v := with_processId v pid in
      pname <- GetProcessNameFromPid pid ;;
      let v := with_processName v pname in
      r <- call (Api.GetWindowRect hwnd) ;;
      let v := match r with
               | Some rc =>
                   with_rect v (mkRect (left rc) (top rc)
                                       (right rc - left rc)
                                       (bottom rc - top rc))
               | None => v
               end in
      let v := with_state v WindowState.Normal in
      vis <- call (Api.IsWindowVisible hwnd) ;;
      let v := with_isVisible v vis in
      iconic <- call (Api.IsIconic hwnd) ;;
      let v := with_state v (add_flag iconic WindowState.Minimized (state v)) in
      zoomed <- call (Api.IsZoomed hwnd) ;;
      let v := with_state v (add_flag zoomed WindowState.Maximized (state v)) in
      let v := with_state v (add_flag (negb (isVisible v))
                                      WindowState.Hidden (state v)) in
      exStyle <- call (Api.GetWindowLongW hwnd GWL_EXSTYLE) ;;
      let v := with_state v (add_flag (negb (Z.land exStyle WS_EX_TOPMOST =? 0))
                                      WindowState.AlwaysOnTop (state v)) in
      fg <- call Api.GetForegroundWindow ;;
      let v := with_state v (add_flag (fg =? hwnd)
                                      WindowState.Focused (state v)) in
      ret (set_error (set_value result v) Success).

Definition GetWindowTitle (handle : NativeHandle) : M (Result string) :=
  let result := Result_default "" in
  let hwnd := handle in
  s <- get ;;
  if negb (m_initialized s) then ret (not_initialized result)
  else
    valid <- call (Api.IsWindow hwnd) ;;
    if negb valid then ret (invalid_handle result)
    else
      ttl <- GetWindowTitleInternal hwnd ;;
      ret (set_error (set_value result ttl) Success).

Definition GetWindowRect (handle : NativeHandle) : M (Result Rect) :=
  let result := Result_default Rect_default in
  let hwnd := handle in
  s <- get ;;
  if negb (m_initialized s) then ret (not_initialized result)
  else
    valid <- call (Api.IsWindow hwnd) ;;
    if negb valid then ret (invalid_handle result)
    else
      r <- call (Api.GetWindowRect hwnd) ;;
      match r with
      | Some rc =>
          ret (set_error
                 (set_value result (mkRect (left rc) (top rc)
                                           (right rc - left rc)
                                           (bottom rc - top rc)))
                 Success)
      | None =>
          ret (set_errorMessage (set_error result OperationFailed)
                                "Failed to get window rect")
      end.

Definition GetWindowState (handle : NativeHandle) : M (Result WindowState) :=
  let result := Result_default 0 in
  let hwnd := handle in
  s <- get ;;
  if negb (m_initialized s) then ret (not_initialized result)
  else
    valid <- call (Api.IsWindow hwnd) ;;
    if negb valid then ret (invalid_handle result)
    else
      let v := WindowState.Normal in
      iconic <- call (Api.IsIconic hwnd) ;;
      let v := add_flag iconic WindowState.Minimized v in
      zoomed <- call (Api.IsZoomed hwnd) ;;
      let v := add_flag zoomed WindowState.Maximized v in
      vis <- call (Api.IsWindowVisible hwnd) ;;
      let v := add_flag (negb vis) WindowState.Hidden v in
      exStyle <- call (Api.GetWindowLongW hwnd GWL_EXSTYLE) ;;
      let v := add_flag (negb (Z.land exStyle WS_EX_TOPMOST =? 0))
                        WindowState.AlwaysOnTop v in
      fg <- call Api.GetForegroundWindow ;;
      let v := add_flag (fg =? hwnd) WindowState.Focused v in
      ret (set_error (set_value result v) Success).

Definition GetWindowProcessId (handle : NativeHandle) : M (Result Z) :=
  let result := Result_default 0 in
  let hwnd := handle in
  s <- get ;;
  if negb (m_initialized s) then ret (not_initialized result)
  else
    valid <- call (Api.IsWindow hwnd) ;;
    if negb valid then ret (invalid_handle result)
    else
      pid <- call (Api.GetWindowThreadProcessId hwnd) ;;
      ret (set_error (set_value result pid) Success).

Definition IsWindowVisible (handle : NativeHandle) : M bool :=
  s <- get ;;
  if negb (m_initialized s) then ret false
  else
    vis <- call (Api.IsWindowVisible handle) ;;
    ret vis.

Definition IsValidWindow (handle : NativeHandle) : M bool :=
  s <- get ;;
  if negb (m_initialized s) then ret false
  else
    valid <- call (Api.IsWindow handle) ;;
    ret valid.

Definition GetFocusedWindow : M NativeHandle :=
  s <- get ;;
  if negb (m_initialized s) then ret 0
  else
    fg <- call Api.GetForegroundWindow ;;
    ret fg.

Definition GetFocusedWindowInfo : M (Result WindowInfo) :=
  focused <- GetFocusedWindow ;;
  if focused =? 0 then
    ret (set_errorMessage
           (set_error (Result_default WindowInfo_default) WindowNotFound)
           "No focused window found")
  else GetWindowInfo focused.

(** [struct EnumWindowsData].  A null [windows] or [callback] pointer is
    [None].  The visitor is a function with its own state; [visitor] is
    that state and [visited] records, for the statements below, the
    windows the callback has been invoked on. *)
Record EnumWindowsData (V : Type) := mkEnumWindowsData {
  windows : option (list WindowInfo);
  callback : option (V -> WindowInfo -> bool * V);
  continueEnum : bool;
  visitor : V;
  visited : list WindowInfo
}.
Arguments mkEnumWindowsData {V} windows callback continueEnum visitor visited.
Arguments windows {V} e.
Arguments callback {V} e.
Arguments continueEnum {V} e.
Arguments visitor {V} e.
Arguments visited {V} e.

Definition EnumWindowsProc {V} (hwnd : HWND) (data : EnumWindowsData V)
  : M (bool * EnumWindowsData V) :=
  vis <- call (Api.IsWindowVisible hwnd) ;;
  if negb vis then ret (true, data)
  else
    owner <- call (Api.GetWindow hwnd GW_OWNER) ;;
    if negb (owner =? 0) then ret (true, data)
    else
      length <- call (Api.GetWindowTextLengthW hwnd) ;;
      if length =? 0 then ret (true, data)
      else
        infoResult <- GetWindowInfo hwnd ;;
        if ok infoResult then
          let data :=
            match windows data with
            | Some ws =>
                mkEnumWindowsData (Some (ws ++ [value infoResult])%list)
                                  (callback data) (continueEnum data)
                                  (visitor data) (visited data)
            | None => data
            end in
          match callback data with
          | Some cb =>
              let (continue, v') := cb (visitor data) (value infoResult) in
              let seen := (visited data ++ [value infoResult])%list in
              if negb continue then
                ret (false, mkEnumWindowsData (windows data) (callback data)
                                              false v' seen)
              else
                ret (true, mkEnumWindowsData (windows data) (callback data)
                                             (continueEnum data) v' seen)
          | None => ret (true, data)
          end
        else ret (true, data).

(** [::EnumWindows(EnumWindowsProc, lParam)]: the system passes each
    top-level window in turn to the callback and stops after the last one
    or as soon as the callback returns [FALSE]. *)
Fixpoint EnumWindows_from {V} (hwnds : list HWND) (data : EnumWindowsData V)
  : M (EnumWindowsData V) :=
  match hwnds with
  | [] => ret data
  | hwnd :: rest =>
      r <- EnumWindowsProc hwnd data ;;
      if fst r then EnumWindows_from rest (snd r) else ret (snd r)
  end.

Definition EnumWindows {V} (data : EnumWindowsData V)
  : M (EnumWindowsData V) :=
  hwnds <- call Api.EnumWindows ;;
  EnumWindows_from hwnds data.

Definition GetAllWindows : M (list WindowInfo) :=
  s <- get ;;
  if negb (m_initialized s) then
    SetLastError "WindowManager not initialized" ;;;
    ret []
  else
    let data := mkEnumWindowsData (Some []) None true tt [] in
    data <- EnumWindows data ;;
    ret (match windows data with Some ws => ws | None => [] end).

(** [EnumerateWindows(callback)]; the returned pair is the visitor's final
    state and the windows it was invoked on. *)
Definition EnumerateWindows {V} (cb : V -> WindowInfo -> bool * V) (v : V)
  : M (V * list WindowInfo) :=
  s <- get ;;
  if negb (m_initialized s) then ret (v, [])
  else
    let data := mkEnumWindowsData None (Some cb) true v [] in
    data <- EnumWindows data ;;
    ret (visitor data, visited data).

Definition FindWindowsByTitle (titlePattern : string) (caseSensitive : bool)
  : M (list WindowInfo) :=
  s <- get ;;
  if negb (m_initialized s) then ret []
  else
    allWindows <- GetAllWindows ;;
    ret (filter (fun info => title_matches caseSensitive (title info)
                                           titlePattern)
                allWindows).

Definition FindWindowsByProcess (processName' : string)
  : M (list WindowInfo) :=
  s <- get ;;
  if negb (m_initialized s) then ret []
  else
    allWindows <- GetAllWindows ;;
    ret (filter (fun info => ToLowerCompare (processName info) processName')
                allWindows).

(** The common opening of every mutation: the initialisation test, then
    [IsWindow]; [body] is what follows for a live window. *)
Definition guarded (handle : NativeHandle) (body : M ErrorCode)
  : M ErrorCode :=
  s <- get ;;
  if negb (m_initialized s) then ret NotInitialized
  else
    valid <- call (Api.IsWindow handle) ;;
    if negb valid then ret InvalidHandle
    else body.

Definition CloseWindow (handle : NativeHandle) : M ErrorCode :=
  guarded handle
    (call (Api.PostMessage handle WM_CLOSE 0 0) ;;;
     ret Success).

Definition ForceCloseWindow (handle : NativeHandle) : M ErrorCode :=
  guarded handle
    (pid <- call (Api.GetWindowThreadProcessId handle) ;;
     hProcess <- call (Api.OpenProcess PROCESS_TERMINATE pid) ;;
     if negb (hProcess =? 0) then
       call (Api.TerminateProcess hProcess 1) ;;;
       call (Api.CloseHandle hProcess) ;;;
       ret Success
     else ret AccessDenied).

Definition MinimizeWindow (handle : NativeHandle) : M ErrorCode :=
  guarded handle (call (Api.ShowWindow handle SW_MINIMIZE) ;;; ret Success).

Definition MaximizeWindow (handle : NativeHandle) : M ErrorCode :=
  guarded handle (call (Api.ShowWindow handle SW_MAXIMIZE) ;;; ret Success).

Definition RestoreWindow (handle : NativeHandle) : M ErrorCode :=
  guarded handle (call (Api.ShowWindow handle SW_RESTORE) ;;; ret Success).

Definition ShowWindow (handle : NativeHandle) : M ErrorCode :=
  guarded handle (call (Api.ShowWindow handle SW_SHOW) ;;; ret Success).

Definition HideWindow (handle : NativeHandle) : M ErrorCode :=
  guarded handle (call (Api.ShowWindow handle SW_HIDE) ;;; ret Success).

Definition FocusWindow (handle : NativeHandle) : M ErrorCode :=
  guarded handle
    (iconic <- call (Api.IsIconic handle) ;;
     (if iconic then call (Api.ShowWindow handle SW_RESTORE)
      else ret tt) ;;;
     call (Api.SetForegroundWindow handle) ;;;
     call (Api.SetFocus handle) ;;;
     ret Success).

Definition SetAlwaysOnTop (handle : NativeHandle) (topmost : bool)
  : M ErrorCode :=
  guarded handle
    (let insertAfter := if topmost then HWND_TOPMOST else HWND_NOTOPMOST in
     call (Api.SetWindowPos handle insertAfter 0 0 0 0
                            (Z.lor SWP_NOMOVE SWP_NOSIZE)) ;;;
     ret Success).

Definition SetWindowRect (handle : NativeHandle) (r : Rect) : M ErrorCode :=
  guarded handle
    (call (Api.MoveWindow handle (x r) (y r) (width r) (height r) true) ;;;
     ret Success).

Definition MoveWindow (handle : NativeHandle) (px py : Z) : M ErrorCode :=
  guarded handle
    (call (Api.SetWindowPos handle 0 px py 0 0
                            (Z.lor SWP_NOSIZE SWP_NOZORDER)) ;;;
     ret Success).

Definition ResizeWindow (handle : NativeHandle) (w h : Z) : M ErrorCode :=
  guarded handle
    (call (Api.SetWindowPos handle 0 0 0 w h
                            (Z.lor SWP_NOMOVE SWP_NOZORDER)) ;;;
     ret Success).

Definition SetWindowTitle (handle : NativeHandle) (ttl : string)
  : M ErrorCode :=
  guarded handle
    (sz <- call (Api.MultiByteToWideChar CP_UTF8 ttl 0) ;;
     let wideSize := fst sz in
     if wideSize <=? 0 then ret OperationFailed
     else
       conv <- call (Api.MultiByteToWideChar CP_UTF8 ttl wideSize) ;;
       let wideTitle := wresize (Z.to_nat wideSize) (snd conv) in
       call (Api.SetWindowTextW handle wideTitle) ;;;
       ret Success).

(** [static_cast<BYTE>(opacity * 255)]: the [int] constant is converted
    to [float], the product is a [float]. *)
Definition alpha_of (opacity : float) : Z :=
  static_cast_unsigned (Float.mul opacity (Float.of_Z 255)).

Definition SetWindowOpacity (handle : NativeHandle) (opacity : float)
  : M ErrorCode :=
  guarded handle
    (let opacity := clamp_opacity opacity in
     exStyle <- call (Api.GetWindowLongW handle GWL_EXSTYLE) ;;
     call (Api.SetWindowLongW handle GWL_EXSTYLE
                              (Z.lor exStyle WS_EX_LAYERED)) ;;;
     let alpha := alpha_of opacity in
     call (Api.SetLayeredWindowAttributes handle 0 alpha LWA_ALPHA) ;;;
     ret Success).

Definition code {T} (m : M (Result T)) : M ErrorCode :=
  r <- m ;; ret (error r).

(** Dispatch of a handle operation; for a [Result] the error code. *)
Definition perform (op : HandleOp) (handle : NativeHandle) : M ErrorCode :=
  match op with
  | OpGetWindowInfo => code (GetWindowInfo handle)
  | OpGetWindowTitle => code (GetWindowTitle handle)
  | OpGetWindowRect => code (GetWindowRect handle)
  | OpGetWindowState => code (GetWindowState handle)
  | OpGetWindowProcessId => code (GetWindowProcessId handle)
  | OpCloseWindow => CloseWindow handle
  | OpForceCloseWindow => ForceCloseWindow handle
  | OpMinimizeWindow => MinimizeWindow handle
  | OpMaximizeWindow => MaximizeWindow handle
  | OpRestoreWindow => RestoreWindow handle
  | OpShowWindow => ShowWindow handle
  | OpHideWindow => HideWindow handle
  | OpFocusWindow => FocusWindow handle
  | OpSetAlwaysOnTop topmost => SetAlwaysOnTop handle topmost
  | OpSetWindowRect r => SetWindowRect handle r
  | OpMoveWindow px py => MoveWindow handle px py
  | OpResizeWindow w h => ResizeWindow handle w h
  | OpSetWindowTitle t => SetWindowTitle handle t
  | OpSetWindowOpacity o => SetWindowOpacity handle o
  end.
End Win32.

(* ================================================================== *)
(** * X11 backend (WindowManagerLinux.cpp) *)
(* ================================================================== *)

Module X11.
Definition Window := Z.
Definition Atom := Z.
Definition Display := Z.

(** Constants of the Xlib headers. *)
Definition X11Success : Z := 0.
Definition XA_ATOM : Atom := 4.
Definition XA_CARDINAL : Atom := 6.
Definition XA_WINDOW : Atom := 33.
Definition IsViewable : Z := 2.
Definition ClientMessage : Z := 33.
Definition SubstructureNotifyMask : Z := Z.shiftl 1 19.
Definition SubstructureRedirectMask : Z := Z.shiftl 1 20.
Definition PropModeReplace : Z := 0.
Definition CurrentTime : Z := 0.
(** [~0L]. *)
Definition all_ones : Z := -1.

(** Conversion of an [int] argument to an [unsigned int] parameter. *)
Definition to_unsigned_int (n : Z) : Z := n mod 2 ^ 32.

Record XWindowAttributes := mkXWindowAttributes {
  attr_x : Z;
  attr_y : Z;
  attr_width : Z;
  attr_height : Z;
  map_state : Z
}.

(** The client message built by [SendClientMessage]. *)
Record XClientMessageEvent := mkXClientMessageEvent {
  ev_type : Z;
  ev_serial : Z;
  ev_send_event : bool;
  ev_message_type : Atom;
  ev_window : Window;
  ev_format : Z;
  ev_data : list Z
}.

(** An error handler: the lambda of [IsValidWindow] that swallows the
    error, or a handler that an earlier [XSetErrorHandler] returned. *)
Inductive XErrorHandler :=
| SwallowError
| Installed (token : Z).

(** The native calls of the X11 backend.  A property reply carries the
    status and the data pointer ([None] when null) as the list of its
    [nitems] items.  [ifstream_getline path] opens [path] and reads its
    first line; [None] when the file cannot be opened or read. *)
Module Api.
Inductive Call :=
| XOpenDisplay
| XCloseDisplay (d : Display)
| DefaultRootWindow (d : Display)
| DefaultScreen (d : Display)
| XInternAtom (d : Display) (name : string) (only_if_exists : bool)
| XGetWindowProperty (d : Display) (w : Window) (property : Atom)
                     (long_offset long_length : Z) (delete : bool)
                     (req_type : Atom)
| XFetchName (d : Display) (w : Window)
| XGetClassHint (d : Display) (w : Window)
| ifstream_getline (path : string)
| XSendEvent (d : Display) (w : Window) (propagate : bool) (mask : Z)
             (event : XClientMessageEvent)
| XFlush (d : Display)
| XSetErrorHandler (handler : XErrorHandler)
| XGetWindowAttributes (d : Display) (w : Window)
| XTranslateCoordinates (d : Display) (src dst : Window) (sx sy : Z)
| XKillClient (d : Display) (w : Window)
| XIconifyWindow (d : Display) (w : Window) (screen : Z)
| XMapWindow (d : Display) (w : Window)
| XUnmapWindow (d : Display) (w : Window)
| XMoveResizeWindow (d : Display) (w : Window) (px py uw uh : Z)
| XMoveWindow (d : Display) (w : Window) (px py : Z)
| XResizeWindow (d : Display) (w : Window) (uw uh : Z)
| XStoreName (d : Display) (w : Window) (name : string)
| XChangeProperty (d : Display) (w : Window) (property type : Atom)
                  (format mode : Z) (data : list Z) (nelements : Z).

Definition Answer (c : Call) : Type :=
  match c with
  | XOpenDisplay => Display
  | DefaultRootWindow _ => Window
  | DefaultScreen _ => Z
  | XInternAtom _ _ _ => Atom
  | XGetWindowProperty _ _ _ _ _ _ _ => Z * option (list Z)
  | XFetchName _ _ => Z * option string
  | XGetClassHint _ _ => Z * (option string * option string)
  | ifstream_getline _ => option string
  | XSetErrorHandler _ => XErrorHandler
  | XGetWindowAttributes _ _ => option XWindowAttributes
  | XTranslateCoordinates _ _ _ _ _ => Z * Z * Window
  | XCloseDisplay _ | XSendEvent _ _ _ _ _ | XFlush _ | XKillClient _ _
  | XIconifyWindow _ _ _ | XMapWindow _ _ | XUnmapWindow _ _
  | XMoveResizeWindow _ _ _ _ _ _ | XMoveWindow _ _ _ _
  | XResizeWindow _ _ _ _ | XStoreName _ _ _
  | XChangeProperty _ _ _ _ _ _ _ _ => unit
  end.
End Api.

(** The atom cache of [WindowManagerLinux]. *)
Record Atoms := mkAtoms {
  m_atomNetClientList : Atom;
  m_atomNetActiveWindow : Atom;
  m_atomNetWmName : Atom;
  m_atomNetWmPid : Atom;
  m_atomNetWmState : Atom;
  m_atomNetWmStateHidden : Atom;
  m_atomNetWmStateMaximizedVert : Atom;
  m_atomNetWmStateMaximizedHorz : Atom;
  m_atomNetWmStateFullscreen : Atom;
  m_atomNetWmStateAbove : Atom;
  m_atomNetCloseWindow : Atom;
  m_atomWmState : Atom;
  m_atomWmChangeState : Atom;
  m_atomUtf8String : Atom;
  m_atomWmName : Atom;
  m_atomWmClass : Atom;
  m_atomNetWmWindowOpacity : Atom
}.

(** The [WindowManagerLinux] object: the base members, the display
    connection ([0] for [nullptr]), the root window and the atoms. *)
Record St := mkSt {
  base : ImplBase;
  m_display : Display;
  m_rootWindow : Window;
  atoms : Atoms
}.

Definition Atoms_zero : Atoms :=
  mkAtoms 0 0 0 0 0 0 0 0 0 0 0 0 0 0 0 0 0.

Definition St_new : St := mkSt ImplBase_new 0 0 Atoms_zero.

Definition M := M Api.Call Api.Answer St.
Definition call (c : Api.Call) : M (Api.Answer c) := native c.

Definition initialized (s : St) : bool := m_initialized (base s).

Definition SetLastError (error : string) : M unit :=
  fun s => Ret (tt, mkSt (mkImplBase (initialized s) error)
                         (m_display s) (m_rootWindow s) (atoms s)).

Definition GetLastError : M string :=
  fun s => Ret (m_lastError (base s), s).

Definition InitializeAtoms : M unit :=
  s <- get ;;
  let d := m_display s in
  a1 <- call (Api.XInternAtom d "_NET_CLIENT_LIST" false) ;;
  a2 <- call (Api.XInternAtom d "_NET_ACTIVE_WINDOW" false) ;;
  a3 <- call (Api.XInternAtom d "_NET_WM_NAME" false) ;;
  a4 <- call (Api.XInternAtom d "_NET_WM_PID" false) ;;
  a5 <- call (Api.XInternAtom d "_NET_WM_STATE" false) ;;
  a6 <- call (Api.XInternAtom d "_NET_WM_STATE_HIDDEN" false) ;;
  a7 <- call (Api.XInternAtom d "_NET_WM_STATE_MAXIMIZED_VERT" false) ;;
  a8 <- call (Api.XInternAtom d "_NET_WM_STATE_MAXIMIZED_HORZ" false) ;;
  a9 <- call (Api.XInternAtom d "_NET_WM_STATE_FULLSCREEN" false) ;;
  a10 <- call (Api.XInternAtom d "_NET_WM_STATE_ABOVE" false) ;;
  a11 <- call (Api.XInternAtom d "_NET_CLOSE_WINDOW" false) ;;
  a12 <- call (Api.XInternAtom d "WM_STATE" false) ;;
  a13 <- call (Api.XInternAtom d "WM_CHANGE_STATE" false) ;;
  a14 <- call (Api.XInternAtom d "UTF8_STRING" false) ;;
  a15 <- call (Api.XInternAtom d "WM_NAME" false) ;;
  a16 <- call (Api.XInternAtom d "WM_CLASS" false) ;;
  a17 <- call (Api.XInternAtom d "_NET_WM_WINDOW_OPACITY" false) ;;
  put (mkSt (base s) (m_display s) (m_rootWindow s)
            (mkAtoms a1 a2 a3 a4 a5 a6 a7 a8 a9 a10 a11 a12 a13 a14 a15
                     a16 a17)).

Definition Initialize : M bool :=
  s <- get ;;
  if initialized s then ret true
  else
    d <- call Api.XOpenDisplay ;;
    put (mkSt (base s) d (m_rootWindow s) (atoms s)) ;;;
    if d =? 0 then
      SetLastError "Failed to open X11 display" ;;;
      ret false
    else
      root <- call (Api.DefaultRootWindow d) ;;
      s <- get ;;
      put (mkSt (base s) (m_display s) root (atoms s)) ;;;
      InitializeAtoms ;;;
      s <- get ;;
      put (mkSt (mkImplBase true (m_lastError (base s)))
                (m_display s) (m_rootWindow s) (atoms s)) ;;;
      ret true.

Definition IsInitialized : M bool :=
  fun s => Ret (initialized s, s).

Definition Shutdown : M unit :=
  s <- get ;;
  (if negb (m_display s =? 0) then
     call (Api.XCloseDisplay (m_display s)) ;;;
     put (mkSt (base s) 0 (m_rootWindow s) (atoms s))
   else ret tt) ;;;
  s <- get ;;
  put (mkSt (mkImplBase false (m_lastError (base s)))
            (m_display s) (m_rootWindow s) (atoms s)).

(** A property read as the backend issues it: the reply's status, data
    pointer and item count. *)
Definition numItems (data : option (list Z)) : Z :=
  match data with
  | Some items => Z.of_nat (List.length items)
  | None => 0
  end.

Definition GetClientList : M (list Window) :=
  s <- get ;;
  reply <- call (Api.XGetWindowProperty (m_display s) (m_rootWindow s)
                   (m_atomNetClientList (atoms s)) 0 all_ones false
                   XA_WINDOW) ;;
  match snd reply with
  | Some windowList =>
      if fst reply =? X11Success then ret windowList else ret []
  | None => ret []
  end.

(** [std::string(reinterpret_cast<char *>(data), numItems)]. *)
Fixpoint string_of_bytes (items : list Z) : string :=
  match items with
  | [] => EmptyString
  | b :: rest =>
      String (ascii_of_N (Z.to_N (b mod 256))) (string_of_bytes rest)
  end.

Definition GetWindowTitleInternal (window : Window) : M string :=
  s <- get ;;
  reply <- call (Api.XGetWindowProperty (m_display s) window
                   (m_atomNetWmName (atoms s)) 0 all_ones false
                   (m_atomUtf8String (atoms s))) ;;
  let data := snd reply in
  match data with
  | Some items =>
      if (fst reply =? X11Success) && (0 <? numItems data) then
        ret (string_of_bytes items)
      else
        fetched <- call (Api.XFetchName (m_display s) window) ;;
        match snd fetched with
        | Some name => if negb (fst fetched =? 0) then ret name else ret ""
        | None => ret ""
        end
  | None =>
      fetched <- call (Api.XFetchName (m_display s) window) ;;
      match snd fetched with
      | Some name => if negb (fst fetched =? 0) then ret name else ret ""
      | None => ret ""
      end
  end.

Definition GetWindowClassInternal (window : Window) : M string :=
  s <- get ;;
  hint <- call (Api.XGetClassHint (m_display s) window) ;;
  if negb (fst hint =? 0) then
    ret (match snd (snd hint) with
         | Some res_class => res_class
         | None => ""
         end)
  else ret "".

(** [*reinterpret_cast<uint32_t *>(data)]: the low 32 bits of the first
    item. *)
Definition GetWindowPidInternal (window : Window) : M Z :=
  s <- get ;;
  reply <- call (Api.XGetWindowProperty (m_display s) window
                   (m_atomNetWmPid (atoms s)) 0 1 false XA_CARDINAL) ;;
  let data := snd reply in
  ret (match data with
       | Some (item :: _) =>
           if (fst reply =? X11Success) && (0 <? numItems data)
           then item mod 2 ^ 32 else 0
       | _ => 0
       end).

(** [std::to_string(pid)]. *)
Definition to_string (n : Z) : string :=
  NilZero.string_of_uint (N.to_uint (Z.to_N n)).

(** Removal of one trailing newline. *)
Fixpoint pop_back_newline (name : string) : string :=
  match name with
  | EmptyString => EmptyString
  | String c EmptyString =>
      if Ascii.eqb c (ascii_of_N 10) then EmptyString else name
  | String c rest => String c (pop_back_newline rest)
  end.

Definition GetProcessNameFromPid (pid : Z) : M string :=
  if pid =? 0 then ret ""
  else
    let path := ("/proc/" ++ to_string pid ++ "/comm")%string in
    line <- call (Api.ifstream_getline path) ;;
    match line with
    | Some name => ret (pop_back_newline name)
    | None => ret ""
    end.

Definition HasWmState (window : Window) (state' : Atom) : M bool :=
  s <- get ;;
  reply <- call (Api.XGetWindowProperty (m_display s) window
                   (m_atomNetWmState (atoms s)) 0 all_ones false XA_ATOM) ;;
  ret (match snd reply with
       | Some atoms' =>
           (fst reply =? X11Success) && existsb (fun a => a =? state') atoms'
       | None => false
       end).

Definition SendClientMessage (window : Window) (messageType : Atom)
           (data0 data1 data2 data3 data4 : Z) : M unit :=
  s <- get ;;
  let event := mkXClientMessageEvent ClientMessage 0 true messageType window
                 32 [data0; data1; data2; data3; data4] in
  call (Api.XSendEvent (m_display s) (m_rootWindow s) false
          (Z.lor SubstructureRedirectMask SubstructureNotifyMask) event) ;;;
  call (Api.XFlush (m_display s)).

Definition SetWmState (window : Window) (add : bool) (state1 state2 : Atom)
  : M unit :=
  s <- get ;;
  SendClientMessage window (m_atomNetWmState (atoms s))
                    (if add then 1 else 0) state1 state2 1 0.

Definition not_initialized {T} (result : Result T) : Result T :=
  set_errorMessage (set_error result NotInitialized)
                   "WindowManager not initialized".

Definition invalid_handle {T} (result : Result T) : Result T :=
  set_errorMessage (set_error result InvalidHandle) "Invalid window handle".

Definition add_flag (cond : bool) (flag st : WindowState) : WindowState :=
  if cond then WindowState_or st flag else st.

(** The liveness probe.  The default Xlib error handler terminates the
    process on [BadWindow]; the probe runs with a handler that swallows
    the error, and the previous handler is put back afterwards. *)
Definition IsValidWindow (handle : NativeHandle) : M bool :=
  s <- get ;;
  if negb (initialized s) then ret false
  else
    let window := handle in
    oldHandler <- call (Api.XSetErrorHandler SwallowError) ;;
    attrs <- call (Api.XGetWindowAttributes (m_display s) window) ;;
    call (Api.XSetErrorHandler oldHandler) ;;;
    ret (match attrs with Some _ => true | None => false end).

Definition GetFocusedWindow : M NativeHandle :=
  s <- get ;;
  if negb (initialized s) then ret 0
  else
    reply <- call (Api.XGetWindowProperty (m_display s) (m_rootWindow s)
                     (m_atomNetActiveWindow (atoms s)) 0 1 false
                     XA_WINDOW) ;;
    let data := snd reply in
    ret (match data with
         | Some (item :: _) =>
             if (fst reply =? X11Success) && (0 <? numItems data)
             then item else 0
         | _ => 0
         end).

(** The state bits, as [GetWindowInfo] and [GetWindowState] both compute
    them; the second maximized atom is looked up only when the first is
    present. *)
Definition query_state (window : Window) : M WindowState :=
  s <- get ;;
  let a := atoms s in
  let v := WindowState.Normal in
  hidden <- HasWmState window (m_atomNetWmStateHidden a) ;;
  let v := add_flag hidden WindowState.Minimized v in
  vert <- HasWmState window (m_atomNetWmStateMaximizedVert a) ;;
  both <- (if vert then HasWmState window (m_atomNetWmStateMaximizedHorz a)
           else ret false) ;;
  let v := add_flag both WindowState.Maximized v in
  full <- HasWmState window (m_atomNetWmStateFullscreen a) ;;
  let v := add_flag full WindowState.Fullscreen v in
  above <- HasWmState window (m_atomNetWmStateAbove a) ;;
  let v := add_flag above WindowState.AlwaysOnTop v in
  focusedWindow <- GetFocusedWindow ;;
  let v := add_flag (focusedWindow =? window) WindowState.Focused v in
  ret v.

(** The geometry query is the second [XGetWindowAttributes] of the
    method; [IsValidWindow] has put the previous error handler back by
    then.  Its [None] branch is the path on which the failing call has
    returned, which is for the handler then installed to allow:
    [Xlib.run], below, says when it does. *)
Definition GetWindowInfo (handle : NativeHandle) : M (Result WindowInfo) :=
  let result := Result_default WindowInfo_default in
  let window := handle in
  s <- get ;;
  if negb (initialized s) then ret (not_initialized result)
  else
    valid <- IsValidWindow handle ;;
    if negb valid then ret (invalid_handle result)
    else
      let v := with_handle (value result) handle in
      ttl <- GetWindowTitleInternal window ;;
      let v := with_title v ttl in
      cls <- GetWindowClassInternal window ;;
      let v := with_className v cls in
      pid <- GetWindowPidInternal window ;;
      let v := with_processId v pid in
      pname <- GetProcessNameFromPid (processId v) ;;
      let v := with_processName v pname in
      attrs <- call (Api.XGetWindowAttributes (m_display s) window) ;;
      v <- match attrs with
           | Some a =>
               abs <- call (Api.XTranslateCoordinates (m_display s) window
                              (m_rootWindow s) 0 0) ;;
               let absX := fst (fst abs) in
               let absY := snd (fst abs) in
               let v := with_rect v (mkRect absX absY (attr_width a)
                                            (attr_height a)) in
               ret (with_isVisible v (map_state a =? IsViewable))
           | None => ret v
           end ;;
      st <- query_state window ;;
      let v := with_state v st in
      ret (set_error (set_value result v) Success).

Definition GetWindowTitle (handle : NativeHandle) : M (Result string) :=
  let result := Result_default "" in
  s <- get ;;
  if negb (initialized s) then ret (not_initialized result)
  else
    valid <- IsValidWindow handle ;;
    if negb valid then ret (invalid_handle result)
    else
      ttl <- GetWindowTitleInternal handle ;;
      ret (set_error (set_value result ttl) Success).

Definition GetWindowRect (handle : NativeHandle) : M (Result Rect) :=
  let result := Result_default Rect_default in
  let window := handle in
  s <- get ;;
  if negb (initialized s) then ret (not_initialized result)
  else
    valid <- IsValidWindow handle ;;
    if negb valid then ret (invalid_handle result)
    else
      attrs <- call (Api.XGetWindowAttributes (m_display s) window) ;;
      match attrs with
      | Some a =>
          abs <- call (Api.XTranslateCoordinates (m_display s) window
                         (m_rootWindow s) 0 0) ;;
          let absX := fst (fst abs) in
          let absY := snd (fst abs) in
          ret (set_error
                 (set_value result (mkRect absX absY (attr_width a)
                                           (attr_height a)))
                 Success)
      | None =>
          ret (set_errorMessage (set_error result OperationFailed)
                                "Failed to get window attributes")
      end.

Definition GetWindowState (handle : NativeHandle) : M (Result WindowState) :=
  let result := Result_default 0 in
  let window := handle in
  s <- get ;;
  if negb (initialized s) then ret (not_initialized result)
  else
    valid <- IsValidWindow handle ;;
    if negb valid then ret (invalid_handle result)
    else
      st <- query_state window ;;
      ret (set_error (set_value result st) Success).

Definition GetWindowProcessId (handle : NativeHandle) : M (Result Z) :=
  let result := Result_default 0 in
  s <- get ;;
  if negb (initialized s) then ret (not_initialized result)
  else
    valid <- IsValidWindow handle ;;
    if negb valid then ret (invalid_handle result)
    else
      pid <- GetWindowPidInternal handle ;;
      ret (set_error (set_value result pid) Success).

Definition IsWindowVisible (handle : NativeHandle) : M bool :=
  s <- get ;;
  if negb (initialized s) then ret false
  else
    valid <- IsValidWindow handle ;;
    if negb valid then ret false
    else
      attrs <- call (Api.XGetWindowAttributes (m_display s) handle) ;;
      ret (match attrs with
           | Some a => map_state a =? IsViewable
           | None => false
           end).

Definition GetFocusedWindowInfo : M (Result WindowInfo) :=
  focused <- GetFocusedWindow ;;
  if focused =? 0 then
    ret (set_errorMessage
           (set_error (Result_default WindowInfo_default) WindowNotFound)
           "No focused window found")
  else GetWindowInfo focused.

(** [for (Window w : windows)] of [GetAllWindows]. *)
Fixpoint collect (windows : list Window) (result : list WindowInfo)
  : M (list WindowInfo) :=
  match windows with
  | [] => ret result
  | w :: rest =>
      info <- GetWindowInfo w ;;
      if ok info then collect rest (result ++ [value info])%list
      else collect rest result
  end.

Definition GetAllWindows : M (list WindowInfo) :=
  s <- get ;;
  if negb (initialized s) then
    SetLastError "WindowManager not initialized" ;;;
    ret []
  else
    windows <- GetClientList ;;
    collect windows [].

(** [for (Window w : windows)] of [EnumerateWindows], with its [break].
    [v] is the visitor's state and [seen] the windows it was invoked
    on. *)
Fixpoint visit_each {V} (cb : V -> WindowInfo -> bool * V)
         (windows : list Window) (v : V) (seen : list WindowInfo)
  : M (V * list WindowInfo) :=
  match windows with
  | [] => ret (v, seen)
  | w :: rest =>
      info <- GetWindowInfo w ;;
      if ok info then
        let (continue, v') := cb v (value info) in
        let seen := (seen ++ [value info])%list in
        if negb continue then ret (v', seen)
        else visit_each cb rest v' seen
      else visit_each cb rest v seen
  end.

Definition EnumerateWindows {V} (cb : V -> WindowInfo -> bool * V) (v : V)
  : M (V * list WindowInfo) :=
  s <- get ;;
  if negb (initialized s) then ret (v, [])
  else
    windows <- GetClientList ;;
    visit_each cb windows v [].

(** [for (Window w : windows)] of [FindWindowsByTitle]. *)
Fixpoint find_by_title (titlePattern : string) (caseSensitive : bool)
         (windows : list Window) (result : list WindowInfo)
  : M (list WindowInfo) :=
  match windows with
  | [] => ret result
  | w :: rest =>
      ttl <- GetWindowTitleInternal w ;;
      let matches := title_matches caseSensitive ttl titlePattern in
      if matches then
        info <- GetWindowInfo w ;;
        if ok info then
          find_by_title titlePattern caseSensitive rest
                        (result ++ [value info])%list
        else find_by_title titlePattern caseSensitive rest result
      else find_by_title titlePattern caseSensitive rest result
  end.

Definition FindWindowsByTitle (titlePattern : string) (caseSensitive : bool)
  : M (list WindowInfo) :=
  s <- get ;;
  if negb (initialized s) then ret []
  else
    windows <- GetClientList ;;
    find_by_title titlePattern caseSensitive windows [].

Fixpoint find_by_process (processName' : string) (windows : list Window)
         (result : list WindowInfo) : M (list WindowInfo) :=
  match windows with
  | [] => ret result
  | w :: rest =>
      pid <- GetWindowPidInternal w ;;
      procName <- GetProcessNameFromPid pid ;;
      if ToLowerCompare procName processName' then
        info <- GetWindowInfo w ;;
        if ok info then
          find_by_process processName' rest (result ++ [value info])%list
        else find_by_process processName' rest result
      else find_by_process processName' rest result
  end.

Definition FindWindowsByProcess (processName' : string)
  : M (list WindowInfo) :=
  s <- get ;;
  if negb (initialized s) then ret []
  else
    windows <- GetClientList ;;
    find_by_process processName' windows [].

(** The common opening of every mutation: the initialisation test, then
    the liveness probe; [body] is what follows for a live window. *)
Definition guarded (handle : NativeHandle) (body : M ErrorCode)
  : M ErrorCode :=
  s <- get ;;
  if negb (initialized s) then ret NotInitialized
  else
    valid <- IsValidWindow handle ;;
    if negb valid then ret InvalidHandle
    else body.

Definition CloseWindow (handle : NativeHandle) : M ErrorCode :=
  guarded handle
    (s <- get ;;
     SendClientMessage handle (m_atomNetCloseWindow (atoms s))
                       CurrentTime 1 0 0 0 ;;;
     ret Success).

Definition ForceCloseWindow (handle : NativeHandle) : M ErrorCode :=
  guarded handle
    (s <- get ;;
     call (Api.XKillClient (m_display s) handle) ;;;
     call (Api.XFlush (m_display s)) ;;;
     ret Success).

Definition MinimizeWindow (handle : NativeHandle) : M ErrorCode :=
  guarded handle
    (s <- get ;;
     screen <- call (Api.DefaultScreen (m_display s)) ;;
     call (Api.XIconifyWindow (m_display s) handle screen) ;;;
     call (Api.XFlush (m_display s)) ;;;
     ret Success).

Definition MaximizeWindow (handle : NativeHandle) : M ErrorCode :=
  guarded handle
    (s <- get ;;
     call (Api.XMapWindow (m_display s) handle) ;;;
     SetWmState handle true (m_atomNetWmStateMaximizedVert (atoms s))
                (m_atomNetWmStateMaximizedHorz (atoms s)) ;;;
     ret Success).

Definition RestoreWindow (handle : NativeHandle) : M ErrorCode :=
  guarded handle
    (s <- get ;;
     call (Api.XMapWindow (m_display s) handle) ;;;
     SetWmState handle false (m_atomNetWmStateMaximizedVert (atoms s))
                (m_atomNetWmStateMaximizedHorz (atoms s)) ;;;
     SetWmState handle false (m_atomNetWmStateFullscreen (atoms s)) 0 ;;;
     ret Success).

Definition ShowWindow (handle : NativeHandle) : M ErrorCode :=
  guarded handle
    (s <- get ;;
     call (Api.XMapWindow (m_display s) handle) ;;;
     call (Api.XFlush (m_display s)) ;;;
     ret Success).

Definition HideWindow (handle : NativeHandle) : M ErrorCode :=
  guarded handle
    (s <- get ;;
     call (Api.XUnmapWindow (m_display s) handle) ;;;
     call (Api.XFlush (m_display s)) ;;;
     ret Success).

Definition FocusWindow (handle : NativeHandle) : M ErrorCode :=
  guarded handle
    (s <- get ;;
     SendClientMessage handle (m_atomNetActiveWindow (atoms s))
                       1 CurrentTime 0 0 0 ;;;
     ret Success).

Definition SetAlwaysOnTop (handle : NativeHandle) (topmost : bool)
  : M ErrorCode :=
  guarded handle
    (s <- get ;;
     SetWmState handle topmost (m_atomNetWmStateAbove (atoms s)) 0 ;;;
     ret Success).

Definition SetWindowRect (handle : NativeHandle) (r : Rect) : M ErrorCode :=
  guarded handle
    (s <- get ;;
     call (Api.XMoveResizeWindow (m_display s) handle (x r) (y r)
             (to_unsigned_int (width r)) (to_unsigned_int (height r))) ;;;
     call (Api.XFlush (m_display s)) ;;;
     ret Success).

Definition MoveWindow (handle : NativeHandle) (px py : Z) : M ErrorCode :=
  guarded handle
    (s <- get ;;
     call (Api.XMoveWindow (m_display s) handle px py) ;;;
     call (Api.XFlush (m_display s)) ;;;
     ret Success).

Definition ResizeWindow (handle : NativeHandle) (w h : Z) : M ErrorCode :=
  guarded handle
    (s <- get ;;
     call (Api.XResizeWindow (m_display s) handle (to_unsigned_int w)
                             (to_unsigned_int h)) ;;;
     call (Api.XFlush (m_display s)) ;;;
     ret Success).

Fixpoint bytes_of_string (t : string) : list Z :=
  match t with
  | EmptyString => []
  | String c rest => Z.of_N (N_of_ascii c) :: bytes_of_string rest
  end.

Definition SetWindowTitle (handle : NativeHandle) (ttl : string)
  : M ErrorCode :=
  guarded handle
    (s <- get ;;
     call (Api.XStoreName (m_display s) handle ttl) ;;;
     call (Api.XChangeProperty (m_display s) handle
             (m_atomNetWmName (atoms s)) (m_atomUtf8String (atoms s))
             8 PropModeReplace (bytes_of_string ttl)
             (Z.of_nat (String.length ttl))) ;;;
     call (Api.XFlush (m_display s)) ;;;
     ret Success).

(** [static_cast<unsigned long>(opacity * 0xFFFFFFFF)]: the constant has
    type [unsigned int]; for the multiplication it is converted to
    [float], and the product is a [float]. *)
Definition opacityValue_of (opacity : float) : Z :=
  static_cast_unsigned (Float.mul opacity (Float.of_Z 4294967295)).

Definition SetWindowOpacity (handle : NativeHandle) (opacity : float)
  : M ErrorCode :=
  guarded handle
    (s <- get ;;
     let opacity := clamp_opacity opacity in
     let opacityValue := opacityValue_of opacity in
     call (Api.XChangeProperty (m_display s) handle
             (m_atomNetWmWindowOpacity (atoms s)) XA_CARDINAL
             32 PropModeReplace [opacityValue] 1) ;;;
     call (Api.XFlush (m_display s)) ;;;
     ret Success).

Definition code {T} (m : M (Result T)) : M ErrorCode :=
  r <- m ;; ret (error r).

Definition perform (op : HandleOp) (handle : NativeHandle) : M ErrorCode :=
  match op with
  | OpGetWindowInfo => code (GetWindowInfo handle)
  | OpGetWindowTitle => code (GetWindowTitle handle)
  | OpGetWindowRect => code (GetWindowRect handle)
  | OpGetWindowState => code (GetWindowState handle)
  | OpGetWindowProcessId => code (GetWindowProcessId handle)
  | OpCloseWindow => CloseWindow handle
  | OpForceCloseWindow => ForceCloseWindow handle
  | OpMinimizeWindow => MinimizeWindow handle
  | OpMaximizeWindow => MaximizeWindow handle
  | OpRestoreWindow => RestoreWindow handle
  | OpShowWindow => ShowWindow handle
  | OpHideWindow => HideWindow handle
  | OpFocusWindow => FocusWindow handle
  | OpSetAlwaysOnTop topmost => SetAlwaysOnTop handle topmost
  | OpSetWindowRect r => SetWindowRect handle r
  | OpMoveWindow px py => MoveWindow handle px py
  | OpResizeWindow w h => ResizeWindow handle w h
  | OpSetWindowTitle t => SetWindowTitle handle t
  | OpSetWindowOpacity o => SetWindowOpacity handle o
  end.
End X11.

(* ================================================================== *)
(** * Xlib: protocol errors and the error handler *)
(* ================================================================== *)

(** [XGetWindowAttributes] returns zero when the server answers its
    request with a protocol error ([BadWindow] for a window that no
    longer exists).  Before the call returns, Xlib hands the error to the
    error handler that is installed at that moment.  The handler that
    [IsValidWindow] installs returns, and the call then returns zero.
    Xlib's default handler prints the error and ends the process: the
    call does not return.

    Other requests can fail in the same way.  Only the failure of
    [XGetWindowAttributes], whose status the backend tests, is followed
    here, so that [Exits] is definite, while [Returns] says no more than
    that no [XGetWindowAttributes] met a handler that ends the process. *)
Module Xlib.
Import X11.Api.

(** The entry records a call that failed with a protocol error. *)
Definition reports_error (e : Entry Call Answer) : bool :=
  match e with
  | entry c a =>
      match c return Answer c -> bool with
      | XGetWindowAttributes _ _ =>
          fun a => match a with Some _ => false | None => true end
      | _ => fun _ => false
      end a
  end.

(** [exits t] tells whether the handler [t], one that was installed
    before the backend was called, ends the process when it is handed an
    error.  The lambda of [IsValidWindow] returns [0]. *)
Definition ends_process (exits : Z -> bool) (handler : X11.XErrorHandler)
  : bool :=
  match handler with
  | X11.SwallowError => false
  | X11.Installed t => exits t
  end.

(** The handler that is installed after the entry, given the one
    before. *)
Definition installs (current : X11.XErrorHandler) (e : Entry Call Answer)
  : X11.XErrorHandler :=
  match e with
  | entry c _ =>
      match c with
      | XSetErrorHandler handler => handler
      | _ => current
      end
  end.

(** A method returns, or the process ends with the calls issued so far,
    the last of them the call that failed. *)
Inductive Fate (R W : Type) :=
| Returns (o : Outcome Call Answer R W)
| Exits (log : list (Entry Call Answer)).
Arguments Returns {R W} o.
Arguments Exits {R W} log.

Fixpoint run {R W} (exits : Z -> bool) (current : X11.XErrorHandler)
         (h : Handler Call Answer W) (p : Prog Call Answer R) (w : W)
  : Fate R W :=
  match p with
  | Ret r => Returns (mkOutcome r w [])
  | Vis c k =>
      let aw := h c w in
      let e := entry c (fst aw) in
      if reports_error e && ends_process exits current then Exits [e]
      else
        match run exits (installs current e) h (k (fst aw)) (snd aw) with
        | Returns o => Returns (mkOutcome (result o) (world o) (e :: log o))
        | Exits l => Exits (e :: l)
        end
  end.

(** The same on a log of [run]: the part of the log up to the call at
    which the process ends, if it does. *)
Fixpoint cut (exits : Z -> bool) (current : X11.XErrorHandler)
         (l : list (Entry Call Answer)) : option (list (Entry Call Answer)) :=
  match l with
  | [] => None
  | e :: l' =>
      if reports_error e && ends_process exits current then Some [e]
      else
        match cut exits (installs current e) l' with
        | Some issued => Some (e :: issued)
        | None => None
        end
  end.

(** The handler that is installed after a log. *)
Definition handler_after (current : X11.XErrorHandler)
           (l : list (Entry Call Answer)) : X11.XErrorHandler :=
  fold_left installs l current.
End Xlib.

(* ================================================================== *)
(** * macOS backend (WindowManagerMacOS.mm) *)
(* ================================================================== *)

Module MacOS.
Definition CGWindowID := Z.
Definition AXUIElementRef := Z.
Definition pid_t := Z.

(** Constants of the CoreGraphics, ApplicationServices and signal
    headers. *)
Definition kCGWindowListOptionOnScreenOnly : Z := 1.
Definition kCGWindowListOptionIncludingWindow : Z := 8.
Definition kCGWindowListExcludeDesktopElements : Z := 16.
Definition kCGNullWindowID : CGWindowID := 0.
Definition kAXErrorSuccess : Z := 0.
Definition SIGKILL : Z := 9.
Definition NSApplicationActivateIgnoringOtherApps : Z := 2.

(** [(CGWindowID)(uintptr_t)handle]: the low 32 bits of the handle. *)
Definition to_CGWindowID (handle : NativeHandle) : CGWindowID :=
  handle mod 2 ^ 32.

(** A [CGRect] whose components are kept as the integers that the
    [(int)] casts of the source extract from them. *)
Record CGRect := mkCGRect {
  origin_x : Z; origin_y : Z; size_width : Z; size_height : Z
}.

(** One dictionary of the window list; an absent key is [None]. *)
Record CGWindowDict := mkCGWindowDict {
  kCGWindowNumber : option Z;
  kCGWindowName : option string;
  kCGWindowOwnerName : option string;
  kCGWindowOwnerPID : option Z;
  kCGWindowBounds : option CGRect;
  kCGWindowIsOnscreen : option bool
}.

(** Messages to [nil] answer zero. *)
Definition unsignedIntValue (n : option Z) : Z :=
  match n with Some v => v mod 2 ^ 32 | None => 0 end.
Definition intValue (n : option Z) : Z :=
  match n with Some v => v | None => 0 end.
Definition boolValue (n : option bool) : bool :=
  match n with Some b => b | None => false end.

Inductive AXValue :=
| kCFBoolean (b : bool)
| AXCGPoint (px py : Z)
| AXCGSize (w h : Z).

(** The native calls of the macOS backend.  Reading an attribute is split
    by the kind of value read: an array of elements ([kAXWindows]) or one
    element (a button); the answer is the [AXError] and the value, null
    as [None] or [0]. *)
Module Api.
Inductive Call :=
| AXIsProcessTrustedWithOptions (prompt : bool)
| CGWindowListCopyWindowInfo (option' : Z) (relativeToWindow : CGWindowID)
| frontmostApplication
| AXUIElementCreateApplication (pid : pid_t)
| AXUIElementCopyAttributeValue_array (element : AXUIElementRef)
                                      (attribute : string)
| AXUIElementCopyAttributeValue_element (element : AXUIElementRef)
                                        (attribute : string)
| AXUIElementPerformAction (element : AXUIElementRef) (action : string)
| AXUIElementSetAttributeValue (element : AXUIElementRef)
                               (attribute : string) (v : AXValue)
| runningApplicationWithProcessIdentifier (pid : pid_t)
| activateWithOptions (app : Z) (options : Z)
| kill (pid : pid_t) (sig : Z).

Definition Answer (c : Call) : Type :=
  match c with
  | AXIsProcessTrustedWithOptions _ => bool
  | CGWindowListCopyWindowInfo _ _ => option (list CGWindowDict)
  | frontmostApplication => option pid_t
  | AXUIElementCreateApplication _ => AXUIElementRef
  | AXUIElementCopyAttributeValue_array _ _ =>
      Z * option (list AXUIElementRef)
  | AXUIElementCopyAttributeValue_element _ _ => Z * AXUIElementRef
  | runningApplicationWithProcessIdentifier _ => option Z
  | AXUIElementPerformAction _ _ | AXUIElementSetAttributeValue _ _ _
  | activateWithOptions _ _ | kill _ _ => unit
  end.
End Api.

Definition St := ImplBase.
Definition M := M Api.Call Api.Answer St.
Definition call (c : Api.Call) : M (Api.Answer c) := native c.

Definition SetLastError (error : string) : M unit :=
  fun s => Ret (tt, mkImplBase (m_initialized s) error).

Definition GetLastError : M string :=
  fun s => Ret (m_lastError s, s).

Definition Initialize : M bool :=
  trusted <- call (Api.AXIsProcessTrustedWithOptions true) ;;
  (if negb trusted then
     SetLastError "Accessibility permissions required. Please grant access in System Preferences."
   else ret tt) ;;;
  s <- get ;;
  put (mkImplBase true (m_lastError s)) ;;;
  ret true.

Definition IsInitialized : M bool :=
  fun s => Ret (m_initialized s, s).

Definition Shutdown : M unit :=
  fun s => Ret (tt, mkImplBase false (m_lastError s)).

(** [std::string = [name UTF8String]]: the assignment from the C string
    that [UTF8String] returns copies the bytes before the first NUL. *)
Fixpoint UTF8String (name : string) : string :=
  match name with
  | EmptyString => EmptyString
  | String c rest =>
      if Ascii.eqb c zero then EmptyString else String c (UTF8String rest)
  end.

(** The fields that [GetAllWindows] and [GetWindowInfo] both read from a
    window dictionary into an info that starts as [info]. *)
Definition read_dict (window : CGWindowDict) (info : WindowInfo)
  : WindowInfo :=
  let info := match kCGWindowName window with
              | Some ttl => with_title info (UTF8String ttl)
              | None => info
              end in
  let info := match kCGWindowOwnerName window with
              | Some ownerName =>
                  with_className
                    (with_processName info (UTF8String ownerName))
                    (UTF8String ownerName)
              | None => info
              end in
  let info := with_processId info
                (unsignedIntValue (kCGWindowOwnerPID window)) in
  let info := match kCGWindowBounds window with
              | Some r =>
                  with_rect info (mkRect (origin_x r) (origin_y r)
                                         (size_width r) (size_height r))
              | None => info
              end in
  with_isVisible info (boolValue (kCGWindowIsOnscreen window)).

Definition is_empty (s : string) : bool :=
  match s with EmptyString => true | _ => false end.

(** [for (NSDictionary *window in windows)] of [GetAllWindows]. *)
Fixpoint collect (windows : list CGWindowDict) (result : list WindowInfo)
  : list WindowInfo :=
  match windows with
  | [] => result
  | window :: rest =>
      let info := with_handle WindowInfo_default
                    (unsignedIntValue (kCGWindowNumber window)) in
      let info := read_dict window info in
      if negb (is_empty (title info)) then collect rest (result ++ [info])%list
      else collect rest result
  end.

Definition GetAllWindows : M (list WindowInfo) :=
  s <- get ;;
  if negb (m_initialized s) then
    SetLastError "WindowManager not initialized" ;;;
    ret []
  else
    windowList <- call (Api.CGWindowListCopyWindowInfo
                          (Z.lor kCGWindowListOptionOnScreenOnly
                                 kCGWindowListExcludeDesktopElements)
                          kCGNullWindowID) ;;
    match windowList with
    | None => ret []
    | Some windows => ret (collect windows [])
    end.

(** [for (const auto &info : windows)] of [EnumerateWindows]. *)
Fixpoint visit_each {V} (cb : V -> WindowInfo -> bool * V)
         (windows : list WindowInfo) (v : V) (seen : list WindowInfo)
  : V * list WindowInfo :=
  match windows with
  | [] => (v, seen)
  | info :: rest =>
      let (continue, v') := cb v info in
      let seen := (seen ++ [info])%list in
      if negb continue then (v', seen)
      else visit_each cb rest v' seen
  end.

Definition EnumerateWindows {V} (cb : V -> WindowInfo -> bool * V) (v : V)
  : M (V * list WindowInfo) :=
  s <- get ;;
  if negb (m_initialized s) then ret (v, [])
  else
    windows <- GetAllWindows ;;
    ret (visit_each cb windows v []).

Definition FindWindowsByTitle (titlePattern : string) (caseSensitive : bool)
  : M (list WindowInfo) :=
  s <- get ;;
  if negb (m_initialized s) then ret []
  else
    windows <- GetAllWindows ;;
    ret (filter (fun info => title_matches caseSensitive (title info)
                                           titlePattern)
                windows).

Definition FindWindowsByProcess (processName' : string)
  : M (list WindowInfo) :=
  s <- get ;;
  if negb (m_initialized s) then ret []
  else
    windows <- GetAllWindows ;;
    ret (filter (fun info => ToLowerCompare (processName info) processName')
                windows).

Definition GetWindowInfo (handle : NativeHandle) : M (Result WindowInfo) :=
  let result := Result_default WindowInfo_default in
  s <- get ;;
  if negb (m_initialized s) then
    ret (set_errorMessage (set_error result NotInitialized)
                          "WindowManager not initialized")
  else
    let windowID := to_CGWindowID handle in
    windowList <- call (Api.CGWindowListCopyWindowInfo
                          kCGWindowListOptionIncludingWindow windowID) ;;
    match windowList with
    | None | Some [] =>
        ret (set_errorMessage (set_error result InvalidHandle)
                              "Invalid window handle")
    | Some (window :: _) =>
        let v := with_handle (value result) handle in
        let v := read_dict window v in
        let v := with_state v WindowState.Normal in
        let v := if negb (isVisible v)
                 then with_state v (WindowState_or (state v)
                                                   WindowState.Hidden)
                 else v in
        ret (set_error (set_value result v) Success)
    end.

(** The four queries that project one field of [GetWindowInfo].
    [default] is what [Result<T> result;] holds in [value]; for the
    state and the process id the source leaves it unwritten (see
    [Result_default]). *)
Definition project {T} (default : T) (field : WindowInfo -> T)
           (handle : NativeHandle) : M (Result T) :=
  let result := Result_default default in
  info <- GetWindowInfo handle ;;
  if negb (ok info) then
    ret (set_errorMessage (set_error result (error info))
                          (errorMessage info))
  else ret (set_error (set_value result (field (value info))) Success).

Definition GetWindowTitle := project "" title.
Definition GetWindowRect := project Rect_default rect.
Definition GetWindowState := project 0 state.
Definition GetWindowProcessId := project 0 processId.

Definition IsWindowVisible (handle : NativeHandle) : M bool :=
  info <- GetWindowInfo handle ;;
  ret (ok info && isVisible (value info)).

Definition IsValidWindow (handle : NativeHandle) : M bool :=
  info <- GetWindowInfo handle ;;
  ret (ok info).

(** The loop of [GetFocusedWindow]: the first titled window of [pid]. *)
Fixpoint first_titled (pid : pid_t) (windows : list CGWindowDict)
  : NativeHandle :=
  match windows with
  | [] => 0
  | window :: rest =>
      if intValue (kCGWindowOwnerPID window) =? pid then
        match kCGWindowName window with
        | Some ttl =>
            if negb (is_empty ttl)
            then unsignedIntValue (kCGWindowNumber window)
            else first_titled pid rest
        | None => first_titled pid rest
        end
      else first_titled pid rest
  end.

Definition GetFocusedWindow : M NativeHandle :=
  s <- get ;;
  if negb (m_initialized s) then ret 0
  else
    frontApp <- call Api.frontmostApplication ;;
    match frontApp with
    | None => ret 0
    | Some pid =>
        windowList <- call (Api.CGWindowListCopyWindowInfo
                              (Z.lor kCGWindowListOptionOnScreenOnly
                                     kCGWindowListExcludeDesktopElements)
                              kCGNullWindowID) ;;
        match windowList with
        | None => ret 0
        | Some windows => ret (first_titled pid windows)
        end
    end.

Definition GetFocusedWindowInfo : M (Result WindowInfo) :=
  focused <- GetFocusedWindow ;;
  if focused =? 0 then
    ret (set_errorMessage
           (set_error (Result_default WindowInfo_default) WindowNotFound)
           "No focused window found")
  else GetWindowInfo focused.

(** [GetAXWindowForPid]: the first accessibility window of the
    application, whatever [targetWindowID] is. *)
Definition GetAXWindowForPid (pid : pid_t) (targetWindowID : CGWindowID)
  : M AXUIElementRef :=
  appElement <- call (Api.AXUIElementCreateApplication pid) ;;
  if appElement =? 0 then ret 0
  else
    r <- call (Api.AXUIElementCopyAttributeValue_array appElement
                 "AXWindows") ;;
    match snd r with
    | Some windows =>
        if negb (fst r =? kAXErrorSuccess) then ret 0
        else ret (match windows with
                  | window :: _ => window
                  | [] => 0
                  end)
    | None => ret 0
    end.

(** The common opening of the supported mutations: the initialisation
    test, then [GetWindowInfo] as the handle check; [body] receives the
    info of the live window. *)
Definition guarded (handle : NativeHandle) (body : WindowInfo -> M ErrorCode)
  : M ErrorCode :=
  s <- get ;;
  if negb (m_initialized s) then ret NotInitialized
  else
    info <- GetWindowInfo handle ;;
    if negb (ok info) then ret (error info)
    else body (value info).

(** The further opening of the mutations that act through the
    accessibility window. *)
Definition with_ax_window (handle : NativeHandle)
           (body : AXUIElementRef -> M unit) : M ErrorCode :=
  guarded handle (fun info =>
    let windowID := to_CGWindowID handle in
    window <- GetAXWindowForPid (processId info) windowID ;;
    if window =? 0 then ret AccessDenied
    else
      body window ;;;
      ret Success).

Definition press_button (window : AXUIElementRef) (attribute : string)
  : M unit :=
  r <- call (Api.AXUIElementCopyAttributeValue_element window attribute) ;;
  if (fst r =? kAXErrorSuccess) && negb (snd r =? 0) then
    call (Api.AXUIElementPerformAction (snd r) "AXPress")
  else ret tt.

Definition CloseWindow (handle : NativeHandle) : M ErrorCode :=
  with_ax_window handle (fun window => press_button window "AXCloseButton").

Definition ForceCloseWindow (handle : NativeHandle) : M ErrorCode :=
  guarded handle (fun info =>
    call (Api.kill (processId info) SIGKILL) ;;;
    ret Success).

Definition MinimizeWindow (handle : NativeHandle) : M ErrorCode :=
  with_ax_window handle (fun window =>
    call (Api.AXUIElementSetAttributeValue window "AXMinimized"
                                           (kCFBoolean true))).

Definition MaximizeWindow (handle : NativeHandle) : M ErrorCode :=
  with_ax_window handle (fun window => press_button window "AXZoomButton").

Definition RestoreWindow (handle : NativeHandle) : M ErrorCode :=
  with_ax_window handle (fun window =>
    call (Api.AXUIElementSetAttributeValue window "AXMinimized"
                                           (kCFBoolean false))).

Definition ShowWindow (handle : NativeHandle) : M ErrorCode :=
  RestoreWindow handle.

Definition HideWindow (handle : NativeHandle) : M ErrorCode :=
  MinimizeWindow handle.

Definition FocusWindow (handle : NativeHandle) : M ErrorCode :=
  guarded handle (fun info =>
    app <- call (Api.runningApplicationWithProcessIdentifier
                   (processId info)) ;;
    match app with
    | Some a =>
        call (Api.activateWithOptions a
                NSApplicationActivateIgnoringOtherApps)
    | None => ret tt
    end ;;;
    let windowID := to_CGWindowID handle in
    window <- GetAXWindowForPid (processId info) windowID ;;
    (if negb (window =? 0) then
       call (Api.AXUIElementPerformAction window "AXRaise")
     else ret tt) ;;;
    ret Success).

Definition SetAlwaysOnTop (handle : NativeHandle) (topmost : bool)
  : M ErrorCode :=
  SetLastError "SetAlwaysOnTop not supported for external windows on macOS" ;;;
  ret NotSupported.

Definition SetWindowRect (handle : NativeHandle) (r : Rect) : M ErrorCode :=
  with_ax_window handle (fun window =>
    call (Api.AXUIElementSetAttributeValue window "AXPosition"
            (AXCGPoint (x r) (y r))) ;;;
    call (Api.AXUIElementSetAttributeValue window "AXSize"
            (AXCGSize (width r) (height r)))).

Definition MoveWindow (handle : NativeHandle) (px py : Z) : M ErrorCode :=
  with_ax_window handle (fun window =>
    call (Api.AXUIElementSetAttributeValue window "AXPosition"
            (AXCGPoint px py))).

Definition ResizeWindow (handle : NativeHandle) (w h : Z) : M ErrorCode :=
  with_ax_window handle (fun window =>
    call (Api.AXUIElementSetAttributeValue window "AXSize"
            (AXCGSize w h))).

Definition SetWindowTitle (handle : NativeHandle) (ttl : string)
  : M ErrorCode :=
  SetLastError "SetWindowTitle not supported for external windows on macOS" ;;;
  ret NotSupported.

Definition SetWindowOpacity (handle : NativeHandle) (opacity : float)
  : M ErrorCode :=
  SetLastError "SetWindowOpacity not supported for external windows on macOS" ;;;
  ret NotSupported.

Definition code {T} (m : M (Result T)) : M ErrorCode :=
  r <- m ;; ret (error r).

Definition perform (op : HandleOp) (handle : NativeHandle) : M ErrorCode :=
  match op with
  | OpGetWindowInfo => code (GetWindowInfo handle)
  | OpGetWindowTitle => code (GetWindowTitle handle)
  | OpGetWindowRect => code (GetWindowRect handle)
  | OpGetWindowState => code (GetWindowState handle)
  | OpGetWindowProcessId => code (GetWindowProcessId handle)
  | OpCloseWindow => CloseWindow handle
  | OpForceCloseWindow => ForceCloseWindow handle
  | OpMinimizeWindow => MinimizeWindow handle
  | OpMaximizeWindow => MaximizeWindow handle
  | OpRestoreWindow => RestoreWindow handle
  | OpShowWindow => ShowWindow handle
  | OpHideWindow => HideWindow handle
  | OpFocusWindow => FocusWindow handle
  | OpSetAlwaysOnTop topmost => SetAlwaysOnTop handle topmost
  | OpSetWindowRect r => SetWindowRect handle r
  | OpMoveWindow px py => MoveWindow handle px py
  | OpResizeWindow w h => ResizeWindow handle w h
  | OpSetWindowTitle t => SetWindowTitle handle t
  | OpSetWindowOpacity o => SetWindowOpacity handle o
  end.

(** The three mutations for which macOS has no primitive. *)
Definition unsupported (op : HandleOp) : bool :=
  match op with
  | OpSetAlwaysOnTop _ | OpSetWindowTitle _ | OpSetWindowOpacity _ => true
  | _ => false
  end.
End MacOS.

(* ================================================================== *)
(** * Inert backend (WindowManagerStub.h) *)
(* ================================================================== *)

Module Stub.
(** The inert backend issues no native call. *)
Module Api.
Inductive Call := .
Definition Answer (c : Call) : Type := match c with end.
End Api.

Definition St := ImplBase.
Definition M := M Api.Call Api.Answer St.

Definition SetLastError (error : string) : M unit :=
  fun s => Ret (tt, mkImplBase (m_initialized s) error).

Definition Initialize : M bool :=
  SetLastError "Platform not supported" ;;;
  ret false.

Definition IsInitialized : M bool := ret false.
Definition Shutdown : M unit := ret tt.

Definition GetAllWindows : M (list WindowInfo) := ret [].
Definition EnumerateWindows {V} (cb : V -> WindowInfo -> bool * V) (v : V)
  : M (V * list WindowInfo) := ret (v, []).
Definition FindWindowsByTitle (titlePattern : string) (caseSensitive : bool)
  : M (list WindowInfo) := ret [].

Definition not_supported {T} (v : T) : Result T :=
  mkResult v NotSupported "Platform not supported".

Definition IsWindowVisible (handle : NativeHandle) : M bool := ret false.
Definition IsValidWindow (handle : NativeHandle) : M bool := ret false.

Definition GetFocusedWindowInfo : M (Result WindowInfo) :=
  ret (not_supported WindowInfo_default).

(** Every handle operation answers [NotSupported]. *)
Definition perform (op : HandleOp) (handle : NativeHandle) : M ErrorCode :=
  match op with
  | OpGetWindowInfo => ret (error (not_supported WindowInfo_default))
  | OpGetWindowTitle => ret (error (not_supported ""))
  | OpGetWindowRect => ret (error (not_supported Rect_default))
  | OpGetWindowState => ret (error (not_supported WindowState.Normal))
  | OpGetWindowProcessId => ret (error (not_supported 0))
  | _ => ret NotSupported
  end.
End Stub.

(* ================================================================== *)
(** * Vocabulary of the statements *)
(* ================================================================== *)


(** The calls by which each backend asks the system something, as opposed
    to the calls that act on a window or a process. *)
Module Win32Query.
Import Win32.Api.
Definition query (c : Call) : Prop :=
  match c with
  | IsWindow _ | IsWindowVisible _ | GetWindow _ _
  | GetWindowTextLengthW _ | GetWindowTextW _ _
  | WideCharToMultiByte _ _ _ | MultiByteToWideChar _ _ _
  | GetClassNameW _ _ | GetWindowThreadProcessId _ | OpenProcess _ _
  | QueryFullProcessImageNameW _ _ | CloseHandle _ | GetWindowRect _
  | IsIconic _ | IsZoomed _ | GetWindowLongW _ _ | GetForegroundWindow
  | EnumWindows => True
  | _ => False
  end.

(** The window that [EnumWindowsProc] passes on for [hwnd] on the
    desktop [w], if any: the info of a visible, unowned, titled window
    whose lookup succeeds. *)
Definition candidate {W} (h : Handler Call Answer W) (w : W)
           (s : Win32.St) (hwnd : Win32.HWND) : option WindowInfo :=
  if negb (fst (h (IsWindowVisible hwnd) w)) then None
  else if negb (fst (h (GetWindow hwnd Win32.GW_OWNER) w) =? 0) then None
  else if fst (h (GetWindowTextLengthW hwnd) w) =? 0 then None
  else
    let info := returned (run h (Win32.GetWindowInfo hwnd s) w) in
    if ok info then Some (value info) else None.

(** The candidates of a list of handles, in order. *)
Fixpoint candidates {W} (h : Handler Call Answer W) (w : W)
         (s : Win32.St) (hwnds : list Win32.HWND) : list WindowInfo :=
  match hwnds with
  | [] => []
  | hwnd :: rest =>
      match candidate h w s hwnd with
      | Some i => i :: candidates h w s rest
      | None => candidates h w s rest
      end
  end.

(** What Windows documents for [IsWindowVisible]: a handle that is not a
    window is not visible. *)
Definition visible_only_if_window {W} (h : Handler Call Answer W) : Prop :=
  forall (hwnd : Win32.HWND) (w : W),
    fst (h (IsWindow hwnd) w) = false ->
    fst (h (IsWindowVisible hwnd) w) = false.
End Win32Query.

Module X11Query.
Import X11 X11.Api.
(** Property, name, class and process-name lookups and the coordinate
    translation. *)
Definition lookup (c : Call) : Prop :=
  match c with
  | XGetWindowProperty _ _ _ _ _ _ _ | XFetchName _ _ | XGetClassHint _ _
  | ifstream_getline _ | XTranslateCoordinates _ _ _ _ _ => True
  | _ => False
  end.

(** The lookups, the attribute query and the exchange of the error
    handler around the liveness probe. *)
Definition query (c : Call) : Prop :=
  match c with
  | XGetWindowProperty _ _ _ _ _ _ _ | XFetchName _ _ | XGetClassHint _ _
  | ifstream_getline _ | XSetErrorHandler _ | XGetWindowAttributes _ _
  | XTranslateCoordinates _ _ _ _ _ => True
  | _ => False
  end.

(** The answer of a logged [XGetWindowAttributes], if the entry is one. *)
Definition attributes_answer (e : Entry Call Answer)
  : option (option XWindowAttributes) :=
  match e with
  | entry c a =>
      match c return Answer c -> option (option XWindowAttributes) with
      | XGetWindowAttributes _ _ => fun a => Some a
      | _ => fun _ => None
      end a
  end.

(** The answers to the [XGetWindowAttributes] calls of a log, in order. *)
Fixpoint attributes_answers (l : list (Entry Call Answer))
  : list (option XWindowAttributes) :=
  match l with
  | [] => []
  | e :: l' =>
      match attributes_answer e with
      | Some a => a :: attributes_answers l'
      | None => attributes_answers l'
      end
  end.

(** The infos of the windows of a client list whose lookup succeeds on
    the desktop [w], in order. *)
Fixpoint infos {W} (h : Handler Call Answer W) (w : W) (s : St)
         (windows : list Window) : list WindowInfo :=
  match windows with
  | [] => []
  | win :: rest =>
      let info := returned (run h (GetWindowInfo win s) w) in
      if ok info then value info :: infos h w s rest
      else infos h w s rest
  end.

(** The probe of [IsValidWindow] rejects [handle] on the desktop [w]:
    with the swallowing handler installed, [XGetWindowAttributes]
    fails. *)
Definition probe_fails {W} (h : Handler Call Answer W) (w : W) (s : St)
           (handle : NativeHandle) : Prop :=
  fst (h (XGetWindowAttributes (m_display s) handle)
         (snd (h (XSetErrorHandler SwallowError) w))) = None.
End X11Query.

Module MacOSQuery.
Import MacOS MacOS.Api.
(** The window list has no entry for [handle]. *)
Definition lookup_fails {W} (h : Handler Call Answer W) (w : W)
           (handle : NativeHandle) : Prop :=
  match fst (h (CGWindowListCopyWindowInfo
                  kCGWindowListOptionIncludingWindow
                  (to_CGWindowID handle)) w) with
  | None | Some [] => True
  | Some (_ :: _) => False
  end.
End MacOSQuery.

(** The advisory text that the macOS [Initialize] stores as last error
    for a process without accessibility permission. *)
Definition accessibility_advice : string :=
  "Accessibility permissions required. Please grant access in System Preferences.".

(* ================================================================== *)
(** * Small desktops on which the statements are exercised *)
(* ================================================================== *)

(** A Win32 desktop: titled top-level windows, none owned, all visible. *)
Module Win32Desk.
Import Win32 Win32.Api.

Record Desk := mkDesk { desk_windows : list (HWND * string) }.

Fixpoint wide_of (t : string) : wstring :=
  match t with
  | EmptyString => []
  | String c rest => Z.of_N (N_of_ascii c) :: wide_of rest
  end.

Fixpoint narrow_of (t : wstring) : string :=
  match t with
  | [] => EmptyString
  | c :: rest => String (ascii_of_N (Z.to_N c)) (narrow_of rest)
  end.

Fixpoint title_of (ws : list (HWND * string)) (hwnd : HWND) : option string :=
  match ws with
  | [] => None
  | (id, t) :: rest => if id =? hwnd then Some t else title_of rest hwnd
  end.

Definition exists_window (d : Desk) (hwnd : HWND) : bool :=
  match title_of (desk_windows d) hwnd with Some _ => true | None => false end.

Definition text_of (d : Desk) (hwnd : HWND) : string :=
  match title_of (desk_windows d) hwnd with Some t => t | None => "" end.

Definition answer (d : Desk) (c : Call) : Answer c :=
  match c return Answer c with
  | IsWindow hwnd => exists_window d hwnd
  | IsWindowVisible hwnd => exists_window d hwnd
  | GetWindow _ _ => 0
  | GetWindowTextLengthW hwnd => Z.of_nat (String.length (text_of d hwnd))
  | GetWindowTextW hwnd _ => wide_of (text_of d hwnd)
  | WideCharToMultiByte _ wide _ =>
      (Z.of_nat (List.length wide) + 1, narrow_of wide)
  | MultiByteToWideChar _ t _ =>
      (Z.of_nat (String.length t) + 1, wide_of t)
  | GetClassNameW _ _ => (4, wide_of "Desk")
  | GetWindowThreadProcessId _ => 7
  | OpenProcess _ _ => 0
  | QueryFullProcessImageNameW _ _ => (false, [])
  | GetWindowRect _ => Some (mkRECT 10 20 110 70)
  | IsIconic _ => false
  | IsZoomed _ => false
  | GetWindowLongW _ _ => 0
  | GetForegroundWindow => 0
  | EnumWindows => map fst (desk_windows d)
  | CloseHandle _ | TerminateProcess _ _ | SetWindowLongW _ _ _
  | PostMessage _ _ _ _ | ShowWindow _ _ | SetForegroundWindow _
  | SetFocus _ | SetWindowPos _ _ _ _ _ _ _ | MoveWindow _ _ _ _ _ _
  | SetWindowTextW _ _ | SetLayeredWindowAttributes _ _ _ _ => tt
  end.

Definition handler : Handler Call Answer Desk := fun c d => (answer d c, d).

Definition desk : Desk :=
  mkDesk [(100, "Mail - Inbox"); (200, "notes.txt"); (300, "MAIL draft")].

Definition ready : St := mkImplBase true "".
End Win32Desk.

(** An X11 desktop: managed clients with their names.  [attr_budget]
    bounds how many [XGetWindowAttributes] queries still succeed ([None]
    for no bound), so that a window can vanish between two queries. *)
Module X11Desk.
Import X11 X11.Api.

Record Desk := mkDesk {
  clients : list (Window * string);
  attr_budget : option nat
}.

Definition the_atoms : Atoms :=
  mkAtoms 101 102 103 104 105 106 107 108 109 110 111 112 113 114 115 116
          117.

Definition ready : St := mkSt (mkImplBase true "") 1 1 the_atoms.

Fixpoint name_of (cs : list (Window * string)) (w : Window) : option string :=
  match cs with
  | [] => None
  | (id, t) :: rest => if id =? w then Some t else name_of rest w
  end.

Definition property (d : Desk) (w : Window) (p : Atom)
  : Z * option (list Z) :=
  if p =? 101 then (0, Some (map fst (clients d)))
  else if p =? 103 then
    match name_of (clients d) w with
    | Some t => (0, Some (bytes_of_string t))
    | None => (1, None)
    end
  else if p =? 104 then (0, Some [4242])
  else if p =? 105 then (0, Some [])
  else (1, None).

Definition attributes (d : Desk) (w : Window) : option XWindowAttributes :=
  match name_of (clients d) w, attr_budget d with
  | Some _, Some O => None
  | Some _, _ => Some (mkXWindowAttributes 0 0 640 480 IsViewable)
  | None, _ => None
  end.

Definition spend (d : Desk) : Desk :=
  match attr_budget d with
  | Some (S n) => mkDesk (clients d) (Some n)
  | _ => d
  end.

Definition handler : Handler Call Answer Desk := fun c d =>
  match c return Answer c * Desk with
  | XOpenDisplay => (1, d)
  | DefaultRootWindow _ => (1, d)
  | DefaultScreen _ => (0, d)
  | XInternAtom _ name _ => (Z.of_nat (String.length name), d)
  | XGetWindowProperty _ w p _ _ _ _ => (property d w p, d)
  | XFetchName _ _ => (0, None, d)
  | XGetClassHint _ _ => (1, (Some "desk", Some "Desk"), d)
  | ifstream_getline _ => (Some "desk", d)
  | XSetErrorHandler _ => (Installed 0, d)
  | XGetWindowAttributes _ w => (attributes d w, spend d)
  | XTranslateCoordinates _ _ _ _ _ => (30, 40, 0, d)
  | XCloseDisplay _ | XSendEvent _ _ _ _ _ | XFlush _ | XKillClient _ _
  | XIconifyWindow _ _ _ | XMapWindow _ _ | XUnmapWindow _ _
  | XMoveResizeWindow _ _ _ _ _ _ | XMoveWindow _ _ _ _
  | XResizeWindow _ _ _ _ | XStoreName _ _ _
  | XChangeProperty _ _ _ _ _ _ _ _ => (tt, d)
  end.

Definition desk : Desk :=
  mkDesk [(11, "Terminal"); (12, "Mail - Inbox"); (13, "MAIL draft")] None.

(** The same clients, but every window is gone after one look at its
    attributes. *)
Definition fading : Desk :=
  mkDesk [(11, "Terminal"); (12, "Mail - Inbox"); (13, "MAIL draft")]
         (Some 1%nat).
End X11Desk.

(** A macOS desktop: the on-screen window list and the trust flag. *)
Module MacOSDesk.
Import MacOS MacOS.Api.

Record Desk := mkDesk {
  trusted : bool;
  window_list : list CGWindowDict;
  front : option pid_t
}.

Definition listed (d : Desk) (option' : Z) (relativeTo : CGWindowID)
  : list CGWindowDict :=
  if Z.land option' kCGWindowListOptionIncludingWindow =? 0
  then window_list d
  else filter (fun win => unsignedIntValue (kCGWindowNumber win)
                          =? relativeTo)
              (window_list d).

Definition answer (d : Desk) (c : Call) : Answer c :=
  match c return Answer c with
  | AXIsProcessTrustedWithOptions _ => trusted d
  | CGWindowListCopyWindowInfo option' relativeTo =>
      Some (listed d option' relativeTo)
  | frontmostApplication => front d
  | AXUIElementCreateApplication pid => pid
  | AXUIElementCopyAttributeValue_array app _ => (0, Some [app + 1000])
  | AXUIElementCopyAttributeValue_element win _ => (0, win + 1)
  | runningApplicationWithProcessIdentifier pid => Some pid
  | AXUIElementPerformAction _ _ | AXUIElementSetAttributeValue _ _ _
  | activateWithOptions _ _ | kill _ _ => tt
  end.

Definition handler : Handler Call Answer Desk := fun c d => (answer d c, d).

Definition window (n : Z) (t : string) (pid : Z) : CGWindowDict :=
  mkCGWindowDict (Some n) (Some t) (Some "App") (Some pid)
                 (Some (mkCGRect 0 0 800 600)) (Some true).

Definition desk : Desk :=
  mkDesk true [window 21 "Mail - Inbox" 501; window 22 "" 502;
               window 23 "MAIL draft" 503] (Some 501).

Definition untrusted : Desk := mkDesk false [] None.

Definition ready : St := mkImplBase true "".
End MacOSDesk.

(** The desktop of the inert backend: there is no call to answer. *)
Definition no_calls : Handler Stub.Api.Call Stub.Api.Answer unit :=
  fun c => match c with end.

(** A visitor that counts its invocations and stops at the first one. *)
Definition stop_at_once (n : nat) (_ : WindowInfo) : bool * nat :=
  (false, S n).

(* ================================================================== *)
(** * Lifetime: destructors and the facade (WindowManager.cpp) *)
(* ================================================================== *)

(** The destructors of the three backends: each calls [Shutdown]. *)
Module Destructor.
Definition WindowManagerWindows : Win32.M unit := Win32.Shutdown.
Definition WindowManagerLinux : X11.M unit := X11.Shutdown.
Definition WindowManagerMacOS : MacOS.M unit := MacOS.Shutdown.
End Destructor.

(** The facade owns one backend behind [WindowManagerImplBase]; the
    virtual methods that its lifetime code calls are the parameters.  A
    facade that has been moved from owns nothing and its destructor does
    nothing; the facade here still owns its backend. *)
Module WindowManager.
Section Facade.
Context {Call : Type} {Answer : Call -> Type} {St : Type}.
Variable impl_IsInitialized : M Call Answer St bool.
Variable impl_Shutdown : M Call Answer St unit.
Variable impl_destructor : M Call Answer St unit.

(** [~WindowManager]: the body shuts an initialised backend down, then the
    owned backend is destroyed. *)
Definition destructor : M Call Answer St unit :=
  init <- impl_IsInitialized ;;
  (if init then impl_Shutdown else ret tt) ;;;
  impl_destructor.
End Facade.
End WindowManager.

(** The facade over the X11 backend. *)
Definition WindowManager_Linux_destructor : X11.M unit :=
  WindowManager.destructor X11.IsInitialized X11.Shutdown
                           Destructor.WindowManagerLinux.

(** The names that [InitializeAtoms] interns, in its order. *)
Definition interned_names : list string :=
  ["_NET_CLIENT_LIST"; "_NET_ACTIVE_WINDOW"; "_NET_WM_NAME"; "_NET_WM_PID";
   "_NET_WM_STATE"; "_NET_WM_STATE_HIDDEN"; "_NET_WM_STATE_MAXIMIZED_VERT";
   "_NET_WM_STATE_MAXIMIZED_HORZ"; "_NET_WM_STATE_FULLSCREEN";
   "_NET_WM_STATE_ABOVE"; "_NET_CLOSE_WINDOW"; "WM_STATE"; "WM_CHANGE_STATE";
   "UTF8_STRING"; "WM_NAME"; "WM_CLASS"; "_NET_WM_WINDOW_OPACITY"].

(** A client that initialises and shuts the X11 backend down [n] times. *)
Fixpoint init_shutdown_cycles (n : nat) : X11.M unit :=
  match n with
  | O => ret tt
  | S n' => X11.Initialize ;;; X11.Shutdown ;;; init_shutdown_cycles n'
  end.

(** Removal of the first occurrence of a display from a list. *)
Fixpoint remove_first (d : X11.Display) (l : list X11.Display)
  : list X11.Display :=
  match l with
  | [] => []
  | d' :: l' => if d' =? d then l' else d' :: remove_first d l'
  end.

(** The display connections that a log leaves open, given those that
    were open before it: [XOpenDisplay] adds the connection it answers
    (unless null), [XCloseDisplay] removes the one it names. *)
Definition after_entry (open : list X11.Display)
           (e : Entry X11.Api.Call X11.Api.Answer) : list X11.Display :=
  match e with
  | entry c a =>
      match c return X11.Api.Answer c -> list X11.Display with
      | X11.Api.XOpenDisplay => fun d => if d =? 0 then open else d :: open
      | X11.Api.XCloseDisplay d => fun _ => remove_first d open
      | _ => fun _ => open
      end a
  end.

Definition open_displays (open : list X11.Display)
           (l : list (Entry X11.Api.Call X11.Api.Answer))
  : list X11.Display :=
  fold_left after_entry l open.

(** The atom [state'] is listed in the [_NET_WM_STATE] property of
    [window] on the desktop [w], as [HasWmState] reads it. *)
Definition in_wm_state {W} (h : Handler X11.Api.Call X11.Api.Answer W)
           (w : W) (s : X11.St) (window : X11.Window) (state' : X11.Atom)
  : bool :=
  returned (run h (X11.HasWmState window state' s) w).

(** The Win32 desktop of [Win32Desk] with [fg] as the foreground
    window. *)
Definition win32_focus_on (fg : Win32.HWND)
  : Handler Win32.Api.Call Win32.Api.Answer Win32Desk.Desk :=
  fun c d =>
    match c as c0 return Win32.Api.Answer c0 * Win32Desk.Desk with
    | Win32.Api.GetForegroundWindow => (fg, d)
    | c0 => Win32Desk.handler c0 d
    end.

(** The handle operations that only read: the five [Get...] queries. *)
Definition is_query (op : HandleOp) : bool :=
  match op with
  | OpGetWindowInfo | OpGetWindowTitle | OpGetWindowRect | OpGetWindowState
  | OpGetWindowProcessId => true
  | _ => false
  end.

(** The macOS calls that ask the system something, as opposed to the
    calls that act on a window, an application or a process. *)
Definition macos_query (c : MacOS.Api.Call) : Prop :=
  match c with
  | MacOS.Api.CGWindowListCopyWindowInfo _ _
  | MacOS.Api.frontmostApplication
  | MacOS.Api.AXUIElementCreateApplication _
  | MacOS.Api.AXUIElementCopyAttributeValue_array _ _
  | MacOS.Api.AXUIElementCopyAttributeValue_element _ _
  | MacOS.Api.runningApplicationWithProcessIdentifier _ => True
  | _ => False
  end.

(** The macOS mutations that act through the accessibility window of the
    owning application. *)
Definition uses_ax_window (op : HandleOp) : bool :=
  match op with
  | OpCloseWindow | OpMinimizeWindow | OpMaximizeWindow | OpRestoreWindow
  | OpShowWindow | OpHideWindow | OpSetWindowRect _ | OpMoveWindow _ _
  | OpResizeWindow _ _ => true
  | _ => false
  end.

(* ================================================================== *)
(** * Properties of every log of a method *)
(* ================================================================== *)

Section LogInvariants.
Context {Call : Type} {Answer : Call -> Type} {St : Type}.
Variable P : list (Entry Call Answer) -> Prop.

(** Whatever the system answers and from whatever object, the log of the
    method satisfies [P]. *)
Definition always {A} (m : M Call Answer St A) : Prop :=
  forall (W : Type) (h : Handler Call Answer W) (w : W) (s : St),
    P (log (run h (m s) w)).
End LogInvariants.

Definition XErrorHandler_eqb (a b : X11.XErrorHandler) : bool :=
  match a, b with
  | X11.SwallowError, X11.SwallowError => true
  | X11.Installed t, X11.Installed t' => t =? t'
  | _, _ => false
  end.

(** An exchange of the Xlib error handler in a log: the handler that
    [XSetErrorHandler] installs and the previous one that it answers. *)
Definition handler_exchange (e : Entry X11.Api.Call X11.Api.Answer)
  : option (X11.XErrorHandler * X11.XErrorHandler) :=
  match e with
  | entry c a =>
      match c return X11.Api.Answer c
                     -> option (X11.XErrorHandler * X11.XErrorHandler) with
      | X11.Api.XSetErrorHandler installed => fun old => Some (installed, old)
      | _ => fun _ => None
      end a
  end.

Fixpoint handler_exchanges (l : list (Entry X11.Api.Call X11.Api.Answer))
  : list (X11.XErrorHandler * X11.XErrorHandler) :=
  match l with
  | [] => []
  | e :: l' =>
      match handler_exchange e with
      | Some x => x :: handler_exchanges l'
      | None => handler_exchanges l'
      end
  end.

(** The exchanges come in pairs: the swallowing handler is installed,
    and the next exchange puts back the handler that it replaced. *)
Fixpoint restored (xs : list (X11.XErrorHandler * X11.XErrorHandler))
  : bool :=
  match xs with
  | [] => true
  | (X11.SwallowError, old) :: (back, _) :: rest =>
      XErrorHandler_eqb back old && restored rest
  | _ => false
  end.

Definition handler_restored (l : list (Entry X11.Api.Call X11.Api.Answer))
  : Prop :=
  restored (handler_exchanges l) = true.

(** The process handles that a Win32 log leaves open, given those that
    were open before it: a successful [OpenProcess] adds the handle it
    answers, [CloseHandle] removes the one it names. *)
Definition after_win32_entry (open : list Z)
           (e : Entry Win32.Api.Call Win32.Api.Answer) : list Z :=
  match e with
  | entry c a =>
      match c return Win32.Api.Answer c -> list Z with
      | Win32.Api.OpenProcess _ _ =>
          fun hProcess => if hProcess =? 0 then open else hProcess :: open
      | Win32.Api.CloseHandle hProcess => fun _ => remove_first hProcess open
      | _ => fun _ => open
      end a
  end.

Definition open_process_handles (open : list Z)
           (l : list (Entry Win32.Api.Call Win32.Api.Answer))
  : list Z :=
  fold_left after_win32_entry l open.

Definition handles_closed (l : list (Entry Win32.Api.Call Win32.Api.Answer))
  : Prop :=
  open_process_handles [] l = [].

(** The name of the window, when it has one, does not begin with the NUL
    character. *)
Definition no_leading_nul (window : MacOS.CGWindowDict) : Prop :=
  match MacOS.kCGWindowName window with
  | Some (String c _) => c <> zero
  | _ => True
  end.

(** A macOS desktop whose frontmost application owns one window, named
    with a NUL character in front. *)
Definition macos_nul_named : MacOSDesk.Desk :=
  MacOSDesk.mkDesk true
    [MacOS.mkCGWindowDict (Some 31) (Some (String zero "x")) (Some "App")
                          (Some 501) (Some (MacOS.mkCGRect 0 0 800 600))
                          (Some true)]
    (Some 501).

(* ================================================================== *)
(** * Facts about programs and runs *)
(* ================================================================== *)

Section ProgramFacts.
Context {Call : Type} {Answer : Call -> Type}.

Lemma run_bind {A B W} (h : Handler Call Answer W) (p : Prog Call Answer A)
      (f : A -> Prog Call Answer B) (w : W) :
  run h (bind p f) w =
  mkOutcome
    (result (run h (f (result (run h p w))) (world (run h p w))))
    (world (run h (f (result (run h p w))) (world (run h p w))))
    (log (run h p w) ++
     log (run h (f (result (run h p w))) (world (run h p w))))%list.
Proof.
  revert w. induction p as [r | c k IH]; intro w; simpl.
  - destruct (run h (f r) w); reflexivity.
  - rewrite IH. reflexivity.
Qed.

Lemma run_mbind {St A B W} (h : Handler Call Answer W)
      (m : M Call Answer St A) (f : A -> M Call Answer St B) (s : St)
      (w : W) :
  run h (mbind m f s) w =
  mkOutcome
    (result (run h (f (returned (run h (m s) w)) (object (run h (m s) w)))
                 (world (run h (m s) w))))
    (world (run h (f (returned (run h (m s) w)) (object (run h (m s) w)))
                (world (run h (m s) w))))
    (log (run h (m s) w) ++
     log (run h (f (returned (run h (m s) w)) (object (run h (m s) w)))
              (world (run h (m s) w))))%list.
Proof. unfold mbind. rewrite run_bind. reflexivity. Qed.

Variable Q : Call -> Prop.

Lemma asking_bind {A B St} (s : St) (p : Prog Call Answer (A * St))
      (f : A -> M Call Answer St B) :
  asking Q s p -> (forall a, asking Q s (f a s)) ->
  asking Q s (bind p (fun as' => f (fst as') (snd as'))).
Proof.
  intros Hp Hf. induction Hp as [a | c k Hc Hk IH]; simpl.
  - apply Hf.
  - constructor; [exact Hc | exact IH].
Qed.

Lemma reader_mbind {A B St} (m : M Call Answer St A)
      (f : A -> M Call Answer St B) :
  reader Q m -> (forall a, reader Q (f a)) -> reader Q (mbind m f).
Proof.
  intros Hm Hf s. unfold mbind. apply asking_bind; [apply Hm |].
  intro a. apply Hf.
Qed.

Lemma reader_ret {A St} (a : A) : reader Q (@ret Call Answer St A a).
Proof. intro s. constructor. Qed.

Lemma reader_get {St} : reader Q (@get Call Answer St).
Proof. intro s. constructor. Qed.

Lemma reader_native {St} (c : Call) :
  Q c -> reader Q (@native Call Answer St c).
Proof. intros Hc s. constructor; [exact Hc | intro a; constructor]. Qed.

Lemma asking_run {A St W} (h : Handler Call Answer W) (w : W) (s : St)
      (p : Prog Call Answer (A * St)) :
  frozen Q h w -> asking Q s p ->
  world (run h p w) = w /\ object (run h p w) = s.
Proof.
  intros Hf Hp. induction Hp as [a | c k Hc Hk IH]; simpl.
  - split; reflexivity.
  - rewrite (Hf c Hc). apply IH.
Qed.

(** On a frozen desktop a reader is a function of the object: the value
    of a sequence is the value of its continuation at the value of its
    first part, from the same object and desktop. *)
Lemma reader_mbind_returned {A B St W} (h : Handler Call Answer W) (w : W)
      (s : St) (m : M Call Answer St A) (f : A -> M Call Answer St B) :
  frozen Q h w -> reader Q m ->
  returned (run h (mbind m f s) w) =
  returned (run h (f (returned (run h (m s) w)) s) w).
Proof.
  intros Hf Hm. rewrite run_mbind. unfold returned at 1. simpl.
  destruct (asking_run h w s (m s) Hf (Hm s)) as [Hw Hs].
  rewrite Hw, Hs. reflexivity.
Qed.
End ProgramFacts.

(* ================================================================== *)
(** * The macOS mutations without a primitive *)
(* ================================================================== *)

(** C2.  On the macOS backend [SetAlwaysOnTop], [SetWindowTitle] and
    [SetWindowOpacity] answer [NotSupported] for every handle and every
    argument, whatever the desktop and whether or not the backend is
    initialised; they issue no native call and leave the initialisation
    flag alone. *)
Theorem macos_unsupported_mutations :
  forall (W : Type) (h : Handler MacOS.Api.Call MacOS.Api.Answer W) (w : W)
         (s : MacOS.St) (handle : NativeHandle) (topmost : bool)
         (ttl : string) (opacity : float),
    (returned (run h (MacOS.SetAlwaysOnTop handle topmost s) w) = NotSupported
     /\ log (run h (MacOS.SetAlwaysOnTop handle topmost s) w) = []
     /\ m_initialized (object (run h (MacOS.SetAlwaysOnTop handle topmost s) w))
        = m_initialized s) /\
    (returned (run h (MacOS.SetWindowTitle handle ttl s) w) = NotSupported
     /\ log (run h (MacOS.SetWindowTitle handle ttl s) w) = []
     /\ m_initialized (object (run h (MacOS.SetWindowTitle handle ttl s) w))
        = m_initialized s) /\
    (returned (run h (MacOS.SetWindowOpacity handle opacity s) w) = NotSupported
     /\ log (run h (MacOS.SetWindowOpacity handle opacity s) w) = []
     /\ m_initialized (object (run h (MacOS.SetWindowOpacity handle opacity s) w))
        = m_initialized s).
Proof.
  intros W h w s handle topmost ttl opacity.
  repeat split; reflexivity.
Qed.

(* ================================================================== *)
(** * Show and hide on macOS *)
(* ================================================================== *)

(** C7.  On the macOS backend [ShowWindow] is [RestoreWindow] and
    [HideWindow] is [MinimizeWindow]: from every backend object and on
    every desktop the two runs coincide in their error code, in the
    native calls they issue and in the object and desktop they leave. *)
Theorem macos_show_is_restore_hide_is_minimize :
  forall (W : Type) (h : Handler MacOS.Api.Call MacOS.Api.Answer W) (w : W)
         (s : MacOS.St) (handle : NativeHandle),
    run h (MacOS.ShowWindow handle s) w = run h (MacOS.RestoreWindow handle s) w
    /\ run h (MacOS.HideWindow handle s) w
       = run h (MacOS.MinimizeWindow handle s) w.
Proof. intros. split; reflexivity. Qed.

(* ================================================================== *)
(** * Initialisation *)
(* ================================================================== *)

(** C9.  On the macOS backend [Initialize] returns [true] and leaves the
    backend initialised whatever the trust check answers; its only native
    call is the trust check, and an untrusted process merely has the
    advisory text stored as last error. *)
Theorem macos_initialize_always_succeeds :
  forall (W : Type) (h : Handler MacOS.Api.Call MacOS.Api.Answer W) (w : W)
         (s : MacOS.St),
    returned (run h (MacOS.Initialize s) w) = true
    /\ m_initialized (object (run h (MacOS.Initialize s) w)) = true
    /\ calls (log (run h (MacOS.Initialize s) w))
       = [MacOS.Api.AXIsProcessTrustedWithOptions true]
    /\ m_lastError (object (run h (MacOS.Initialize s) w))
       = (if fst (h (MacOS.Api.AXIsProcessTrustedWithOptions true) w)
          then m_lastError s else accessibility_advice).
Proof.
  intros W h w s. unfold MacOS.Initialize, MacOS.call, MacOS.SetLastError.
  simpl.
  destruct (h (MacOS.Api.AXIsProcessTrustedWithOptions true) w) as [[|] w'];
    simpl; repeat split; reflexivity.
Qed.

(** C6, as the claim words it, fails on macOS: an initialised backend whose
    process is not trusted comes out of a second [Initialize] with another
    last-error text, after a native call. *)
Lemma macos_initialize_twice_changes_state :
  m_initialized MacOSDesk.ready = true
  /\ object (run MacOSDesk.handler (MacOS.Initialize MacOSDesk.ready)
                 MacOSDesk.untrusted)
     <> MacOSDesk.ready
  /\ log (run MacOSDesk.handler (MacOS.Initialize MacOSDesk.ready)
              MacOSDesk.untrusted) <> [].
Proof. repeat split; discriminate. Qed.

(** C6, amended.  When the backend is already initialised, [Initialize]
    returns [true]; on Win32 and X11 it issues no native call and leaves
    the backend object and the desktop as they were; on macOS it leaves the
    backend initialised, its only native call is the repeated trust check
    (no resource is acquired), and the backend object is unchanged when
    the process is trusted. *)
Theorem initialize_when_initialized :
  forall (W1 W2 W3 : Type)
         (h1 : Handler Win32.Api.Call Win32.Api.Answer W1) (w1 : W1)
         (h2 : Handler X11.Api.Call X11.Api.Answer W2) (w2 : W2)
         (h3 : Handler MacOS.Api.Call MacOS.Api.Answer W3) (w3 : W3)
         (s1 : Win32.St) (s2 : X11.St) (s3 : MacOS.St),
    m_initialized s1 = true ->
    X11.initialized s2 = true ->
    m_initialized s3 = true ->
    run h1 (Win32.Initialize s1) w1 = mkOutcome (true, s1) w1 []
    /\ run h2 (X11.Initialize s2) w2 = mkOutcome (true, s2) w2 []
    /\ returned (run h3 (MacOS.Initialize s3) w3) = true
    /\ m_initialized (object (run h3 (MacOS.Initialize s3) w3)) = true
    /\ calls (log (run h3 (MacOS.Initialize s3) w3))
       = [MacOS.Api.AXIsProcessTrustedWithOptions true]
    /\ (fst (h3 (MacOS.Api.AXIsProcessTrustedWithOptions true) w3) = true ->
        object (run h3 (MacOS.Initialize s3) w3) = s3).
Proof.
  intros W1 W2 W3 h1 w1 h2 w2 h3 w3 s1 s2 s3 H1 H2 H3.
  split; [| split].
  - destruct s1 as [i e]. simpl in H1. subst i. reflexivity.
  - unfold X11.Initialize, X11.initialized in *. unfold mbind, get. simpl.
    rewrite H2. reflexivity.
  - unfold MacOS.Initialize, MacOS.call, MacOS.SetLastError. simpl.
    destruct s3 as [i e]. simpl in H3. subst i.
    destruct (h3 (MacOS.Api.AXIsProcessTrustedWithOptions true) w3)
      as [[|] w']; simpl; repeat split; try reflexivity; discriminate.
Qed.

Lemma initialize_when_initialized_witness :
  run Win32Desk.handler (Win32.Initialize Win32Desk.ready) Win32Desk.desk
  = mkOutcome (true, Win32Desk.ready) Win32Desk.desk []
  /\ run X11Desk.handler (X11.Initialize X11Desk.ready) X11Desk.desk
     = mkOutcome (true, X11Desk.ready) X11Desk.desk []
  /\ returned (run MacOSDesk.handler (MacOS.Initialize MacOSDesk.ready)
                   MacOSDesk.desk) = true
  /\ m_initialized (object (run MacOSDesk.handler
                                (MacOS.Initialize MacOSDesk.ready)
                                MacOSDesk.desk)) = true
  /\ calls (log (run MacOSDesk.handler (MacOS.Initialize MacOSDesk.ready)
                     MacOSDesk.desk))
     = [MacOS.Api.AXIsProcessTrustedWithOptions true]
  /\ (fst (MacOSDesk.handler (MacOS.Api.AXIsProcessTrustedWithOptions true)
                             MacOSDesk.desk) = true ->
      object (run MacOSDesk.handler (MacOS.Initialize MacOSDesk.ready)
                  MacOSDesk.desk) = MacOSDesk.ready).
Proof.
  apply (initialize_when_initialized
           Win32Desk.Desk X11Desk.Desk MacOSDesk.Desk
           Win32Desk.handler Win32Desk.desk X11Desk.handler X11Desk.desk
           MacOSDesk.handler MacOSDesk.desk
           Win32Desk.ready X11Desk.ready MacOSDesk.ready);
    reflexivity.
Defined.

(* ================================================================== *)
(** * Error precedence of the handle operations *)
(* ================================================================== *)

Ltac unfold_monad := unfold mbind, get, put, ret, native in *.

Ltac unfold_win32 :=
  unfold Win32.perform, Win32.code, Win32.GetWindowInfo,
    Win32.GetWindowTitle, Win32.GetWindowRect, Win32.GetWindowState,
    Win32.GetWindowProcessId, Win32.CloseWindow, Win32.ForceCloseWindow,
    Win32.MinimizeWindow, Win32.MaximizeWindow, Win32.RestoreWindow,
    Win32.ShowWindow, Win32.HideWindow, Win32.FocusWindow,
    Win32.SetAlwaysOnTop, Win32.SetWindowRect, Win32.MoveWindow,
    Win32.ResizeWindow, Win32.SetWindowTitle, Win32.SetWindowOpacity,
    Win32.guarded, Win32.IsWindowVisible, Win32.GetFocusedWindowInfo,
    Win32.IsValidWindow, Win32.GetFocusedWindow, Win32.call in *.

Ltac unfold_x11 :=
  unfold X11.perform, X11.code, X11.GetWindowInfo, X11.GetWindowTitle,
    X11.GetWindowRect, X11.GetWindowState, X11.GetWindowProcessId,
    X11.CloseWindow, X11.ForceCloseWindow, X11.MinimizeWindow,
    X11.MaximizeWindow, X11.RestoreWindow, X11.ShowWindow, X11.HideWindow,
    X11.FocusWindow, X11.SetAlwaysOnTop, X11.SetWindowRect, X11.MoveWindow,
    X11.ResizeWindow, X11.SetWindowTitle, X11.SetWindowOpacity, X11.guarded,
    X11.IsWindowVisible, X11.GetFocusedWindowInfo, X11.IsValidWindow,
    X11.GetFocusedWindow, X11.call, X11.initialized in *.

Ltac unfold_macos :=
  unfold MacOS.perform, MacOS.code, MacOS.GetWindowTitle,
    MacOS.GetWindowRect, MacOS.GetWindowState, MacOS.GetWindowProcessId,
    MacOS.project, MacOS.CloseWindow, MacOS.ForceCloseWindow,
    MacOS.ShowWindow, MacOS.HideWindow, MacOS.MinimizeWindow,
    MacOS.MaximizeWindow, MacOS.RestoreWindow, MacOS.FocusWindow,
    MacOS.SetWindowRect, MacOS.MoveWindow, MacOS.ResizeWindow,
    MacOS.with_ax_window, MacOS.guarded, MacOS.IsValidWindow,
    MacOS.IsWindowVisible, MacOS.GetFocusedWindowInfo,
    MacOS.GetFocusedWindow, MacOS.GetWindowInfo, MacOS.call in *.

Section Precedence.
Context {W1 W2 W3 : Type}.
Variable h1 : Handler Win32.Api.Call Win32.Api.Answer W1.
Variable h2 : Handler X11.Api.Call X11.Api.Answer W2.
Variable h3 : Handler MacOS.Api.Call MacOS.Api.Answer W3.

Lemma win32_uninitialized (w : W1) (s : Win32.St) op handle :
  m_initialized s = false ->
  run h1 (Win32.perform op handle s) w = mkOutcome (NotInitialized, s) w [].
Proof.
  intro H.
  destruct op; unfold_win32; unfold_monad; simpl; rewrite H; reflexivity.
Qed.

Lemma win32_dead_handle (w : W1) (s : Win32.St) op handle :
  m_initialized s = true ->
  returned (run h1 (Win32.IsValidWindow handle s) w) = false ->
  run h1 (Win32.perform op handle s) w
  = mkOutcome (InvalidHandle, s)
              (world (run h1 (Win32.IsValidWindow handle s) w))
              (log (run h1 (Win32.IsValidWindow handle s) w)).
Proof.
  intros H D.
  unfold_win32. unfold_monad. simpl in *. rewrite H in *.
  simpl in *. unfold returned in D. simpl in D.
  destruct op; unfold_win32; unfold_monad; simpl; rewrite H; simpl;
    rewrite D; reflexivity.
Qed.

Lemma x11_uninitialized (w : W2) (s : X11.St) op handle :
  X11.initialized s = false ->
  run h2 (X11.perform op handle s) w = mkOutcome (NotInitialized, s) w [].
Proof.
  intro H.
  destruct op; unfold_x11; unfold_monad; simpl; rewrite H; reflexivity.
Qed.

Lemma x11_dead_handle (w : W2) (s : X11.St) op handle :
  X11.initialized s = true ->
  returned (run h2 (X11.IsValidWindow handle s) w) = false ->
  run h2 (X11.perform op handle s) w
  = mkOutcome (InvalidHandle, s)
              (world (run h2 (X11.IsValidWindow handle s) w))
              (log (run h2 (X11.IsValidWindow handle s) w)).
Proof.
  intros H D.
  unfold_x11. unfold_monad. simpl in *. rewrite H in *.
  simpl in *. unfold returned in D. simpl in D.
  match type of D with
  | context [fst ?t] => destruct t as [[a|] w'] eqn:E
  end; simpl in D; [discriminate D |].
  destruct op; unfold_x11; unfold_monad; simpl; repeat (rewrite H; simpl);
    rewrite E; reflexivity.
Qed.

Lemma macos_uninitialized (w : W3) (s : MacOS.St) op handle :
  MacOS.unsupported op = false ->
  m_initialized s = false ->
  run h3 (MacOS.perform op handle s) w = mkOutcome (NotInitialized, s) w [].
Proof.
  intros U H.
  destruct op; try discriminate U; unfold_macos; unfold_monad; simpl;
    rewrite H; reflexivity.
Qed.

Lemma macos_dead_handle (w : W3) (s : MacOS.St) op handle :
  MacOS.unsupported op = false ->
  m_initialized s = true ->
  returned (run h3 (MacOS.IsValidWindow handle s) w) = false ->
  run h3 (MacOS.perform op handle s) w
  = mkOutcome (InvalidHandle, s)
              (world (run h3 (MacOS.IsValidWindow handle s) w))
              (log (run h3 (MacOS.IsValidWindow handle s) w)).
Proof.
  intros U H D.
  unfold_macos. unfold_monad. simpl in *. rewrite H in *.
  simpl in *. unfold returned in D. simpl in D.
  match type of D with
  | context [h3 ?c ?w0] => destruct (h3 c w0) as [[[|d l]|] w'] eqn:E
  end; simpl in D; try discriminate D;
  destruct op; try discriminate U; unfold_macos; unfold_monad; simpl;
    repeat (rewrite H; simpl); rewrite E; reflexivity.
Qed.

(** [GetFocusedWindowInfo] takes no handle; on an uninitialised backend
    the focus query answers the null sentinel and the method reports
    [WindowNotFound], without a native call. *)
Lemma focused_info_uninitialized (w1 : W1) (w2 : W2) (w3 : W3)
      (s1 : Win32.St) (s2 : X11.St) (s3 : MacOS.St) :
  m_initialized s1 = false -> X11.initialized s2 = false ->
  m_initialized s3 = false ->
  (error (returned (run h1 (Win32.GetFocusedWindowInfo s1) w1))
   = WindowNotFound
   /\ log (run h1 (Win32.GetFocusedWindowInfo s1) w1) = [])
  /\ (error (returned (run h2 (X11.GetFocusedWindowInfo s2) w2))
      = WindowNotFound
      /\ log (run h2 (X11.GetFocusedWindowInfo s2) w2) = [])
  /\ (error (returned (run h3 (MacOS.GetFocusedWindowInfo s3) w3))
      = WindowNotFound
      /\ log (run h3 (MacOS.GetFocusedWindowInfo s3) w3) = []).
Proof.
  intros H1 H2 H3. repeat split.
  all: unfold_win32; unfold_x11; unfold_macos; unfold_monad; simpl;
    rewrite ?H1, ?H2, ?H3; reflexivity.
Qed.
End Precedence.

Lemma stub_not_supported {W} (h : Handler Stub.Api.Call Stub.Api.Answer W)
      (w : W) (s : Stub.St) op handle :
  run h (Stub.perform op handle s) w = mkOutcome (NotSupported, s) w [].
Proof. destruct op; reflexivity. Qed.

(** C1, as the claim words it, fails: on an uninitialised macOS backend
    [SetAlwaysOnTop] answers [NotSupported], not [NotInitialized], and on
    an initialised one it answers [NotSupported] for a handle that the
    liveness probe rejects, not [InvalidHandle]. *)
Lemma macos_set_always_on_top_ignores_precedence :
  (m_initialized ImplBase_new = false
   /\ returned (run MacOSDesk.handler
                    (MacOS.perform (OpSetAlwaysOnTop true) 21 ImplBase_new)
                    MacOSDesk.desk) = NotSupported
   /\ NotSupported <> NotInitialized)
  /\ (m_initialized MacOSDesk.ready = true
      /\ returned (run MacOSDesk.handler
                       (MacOS.IsValidWindow 999 MacOSDesk.ready)
                       MacOSDesk.desk) = false
      /\ returned (run MacOSDesk.handler
                       (MacOS.perform (OpSetAlwaysOnTop true) 999
                                      MacOSDesk.ready)
                       MacOSDesk.desk) = NotSupported
      /\ NotSupported <> InvalidHandle).
Proof. repeat split; discriminate. Qed.

(** C1, amended.  [op] is any operation that takes a handle and returns a
    [Result] or an [ErrorCode], [mop] any of them other than the three
    macOS mutations without a primitive.  On the Win32, X11 and macOS
    backends an uninitialised object ([u1], [u2], [u3]) answers
    [NotInitialized] without a single native call and stays as it was.  An
    initialised object ([i1], [i2], [i3]) whose liveness probe rejects the
    handle answers [InvalidHandle]; the native calls issued and the desktop
    left behind are exactly those of the probe, so nothing of the requested
    effect is attempted.  The inert backend answers [NotSupported] to every
    operation. *)
Theorem error_precedence :
  forall (W1 W2 W3 W4 : Type)
         (h1 : Handler Win32.Api.Call Win32.Api.Answer W1) (w1 : W1)
         (h2 : Handler X11.Api.Call X11.Api.Answer W2) (w2 : W2)
         (h3 : Handler MacOS.Api.Call MacOS.Api.Answer W3) (w3 : W3)
         (h4 : Handler Stub.Api.Call Stub.Api.Answer W4) (w4 : W4)
         (u1 i1 : Win32.St) (u2 i2 : X11.St) (u3 i3 : MacOS.St)
         (s4 : Stub.St) (op mop : HandleOp) (handle : NativeHandle),
    MacOS.unsupported mop = false ->
    m_initialized u1 = false ->
    X11.initialized u2 = false ->
    m_initialized u3 = false ->
    m_initialized i1 = true ->
    X11.initialized i2 = true ->
    m_initialized i3 = true ->
    returned (run h1 (Win32.IsValidWindow handle i1) w1) = false ->
    returned (run h2 (X11.IsValidWindow handle i2) w2) = false ->
    returned (run h3 (MacOS.IsValidWindow handle i3) w3) = false ->
    (run h1 (Win32.perform op handle u1) w1 = mkOutcome (NotInitialized, u1) w1 []
     /\ run h2 (X11.perform op handle u2) w2
        = mkOutcome (NotInitialized, u2) w2 []
     /\ run h3 (MacOS.perform mop handle u3) w3
        = mkOutcome (NotInitialized, u3) w3 [])
    /\ (run h1 (Win32.perform op handle i1) w1
        = mkOutcome (InvalidHandle, i1)
                    (world (run h1 (Win32.IsValidWindow handle i1) w1))
                    (log (run h1 (Win32.IsValidWindow handle i1) w1))
        /\ run h2 (X11.perform op handle i2) w2
           = mkOutcome (InvalidHandle, i2)
                       (world (run h2 (X11.IsValidWindow handle i2) w2))
                       (log (run h2 (X11.IsValidWindow handle i2) w2))
        /\ run h3 (MacOS.perform mop handle i3) w3
           = mkOutcome (InvalidHandle, i3)
                       (world (run h3 (MacOS.IsValidWindow handle i3) w3))
                       (log (run h3 (MacOS.IsValidWindow handle i3) w3)))
    /\ run h4 (Stub.perform op handle s4) w4 = mkOutcome (NotSupported, s4) w4 [].
Proof.
  intros W1 W2 W3 W4 h1 w1 h2 w2 h3 w3 h4 w4 u1 i1 u2 i2 u3 i3 s4 op mop
         handle U Hu1 Hu2 Hu3 Hi1 Hi2 Hi3 D1 D2 D3.
  split; [| split].
  - split; [| split].
    + apply win32_uninitialized; assumption.
    + apply x11_uninitialized; assumption.
    + apply macos_uninitialized; assumption.
  - split; [| split].
    + apply win32_dead_handle; assumption.
    + apply x11_dead_handle; assumption.
    + apply macos_dead_handle; assumption.
  - apply stub_not_supported.
Qed.

Lemma error_precedence_witness :
  (run Win32Desk.handler
       (Win32.perform (OpSetWindowOpacity Float.half) 999 ImplBase_new)
       Win32Desk.desk
   = mkOutcome (NotInitialized, ImplBase_new) Win32Desk.desk []
   /\ run X11Desk.handler
          (X11.perform (OpSetWindowOpacity Float.half) 999 X11.St_new)
          X11Desk.desk
      = mkOutcome (NotInitialized, X11.St_new) X11Desk.desk []
   /\ run MacOSDesk.handler (MacOS.perform OpMinimizeWindow 999 ImplBase_new)
          MacOSDesk.desk
      = mkOutcome (NotInitialized, ImplBase_new) MacOSDesk.desk [])
  /\ (run Win32Desk.handler
          (Win32.perform (OpSetWindowOpacity Float.half) 999 Win32Desk.ready)
          Win32Desk.desk
      = mkOutcome (InvalidHandle, Win32Desk.ready)
          (world (run Win32Desk.handler
                      (Win32.IsValidWindow 999 Win32Desk.ready)
                      Win32Desk.desk))
          (log (run Win32Desk.handler
                    (Win32.IsValidWindow 999 Win32Desk.ready)
                    Win32Desk.desk))
      /\ run X11Desk.handler
             (X11.perform (OpSetWindowOpacity Float.half) 999 X11Desk.ready)
             X11Desk.desk
         = mkOutcome (InvalidHandle, X11Desk.ready)
             (world (run X11Desk.handler
                         (X11.IsValidWindow 999 X11Desk.ready) X11Desk.desk))
             (log (run X11Desk.handler
                       (X11.IsValidWindow 999 X11Desk.ready) X11Desk.desk))
      /\ run MacOSDesk.handler
             (MacOS.perform OpMinimizeWindow 999 MacOSDesk.ready)
             MacOSDesk.desk
         = mkOutcome (InvalidHandle, MacOSDesk.ready)
             (world (run MacOSDesk.handler
                         (MacOS.IsValidWindow 999 MacOSDesk.ready)
                         MacOSDesk.desk))
             (log (run MacOSDesk.handler
                       (MacOS.IsValidWindow 999 MacOSDesk.ready)
                       MacOSDesk.desk)))
  /\ run no_calls (Stub.perform (OpSetWindowOpacity Float.half) 999
                                ImplBase_new) tt
     = mkOutcome (NotSupported, ImplBase_new) tt [].
Proof.
  apply (error_precedence
           Win32Desk.Desk X11Desk.Desk MacOSDesk.Desk unit
           Win32Desk.handler Win32Desk.desk X11Desk.handler X11Desk.desk
           MacOSDesk.handler MacOSDesk.desk no_calls tt
           ImplBase_new Win32Desk.ready X11.St_new X11Desk.ready
           ImplBase_new MacOSDesk.ready ImplBase_new
           (OpSetWindowOpacity Float.half) OpMinimizeWindow 999);
    reflexivity.
Defined.

(* ================================================================== *)
(** * The two predicates that never fail *)
(* ================================================================== *)

Section Predicates.
Context {W1 W2 W3 W4 : Type}.
Variable h1 : Handler Win32.Api.Call Win32.Api.Answer W1.
Variable h2 : Handler X11.Api.Call X11.Api.Answer W2.
Variable h3 : Handler MacOS.Api.Call MacOS.Api.Answer W3.
Variable h4 : Handler Stub.Api.Call Stub.Api.Answer W4.

Lemma win32_predicates_false (w : W1) (s : Win32.St) handle :
  Win32Query.visible_only_if_window h1 ->
  m_initialized s = false
  \/ fst (h1 (Win32.Api.IsWindow handle) w) = false ->
  (returned (run h1 (Win32.IsWindowVisible handle s) w) = false
   /\ object (run h1 (Win32.IsWindowVisible handle s) w) = s)
  /\ (returned (run h1 (Win32.IsValidWindow handle s) w) = false
      /\ object (run h1 (Win32.IsValidWindow handle s) w) = s).
Proof.
  intros OS [H | H].
  - unfold_win32. unfold_monad. simpl. rewrite H. simpl.
    repeat split.
  - pose proof (OS handle w H) as V.
    unfold_win32. unfold_monad. simpl.
    destruct (m_initialized s); simpl; repeat split; assumption.
Qed.

Lemma x11_predicates_false (w : W2) (s : X11.St) handle :
  X11.initialized s = false \/ X11Query.probe_fails h2 w s handle ->
  (returned (run h2 (X11.IsWindowVisible handle s) w) = false
   /\ object (run h2 (X11.IsWindowVisible handle s) w) = s)
  /\ (returned (run h2 (X11.IsValidWindow handle s) w) = false
      /\ object (run h2 (X11.IsValidWindow handle s) w) = s)
  /\ log (run h2 (X11.IsWindowVisible handle s) w)
     = log (run h2 (X11.IsValidWindow handle s) w)
  /\ (calls (log (run h2 (X11.IsValidWindow handle s) w)) = []
      \/ exists oldHandler,
           calls (log (run h2 (X11.IsValidWindow handle s) w))
           = [X11.Api.XSetErrorHandler X11.SwallowError;
              X11.Api.XGetWindowAttributes (X11.m_display s) handle;
              X11.Api.XSetErrorHandler oldHandler]).
Proof.
  intros [H | H].
  - unfold_x11. unfold_monad. simpl. rewrite H. simpl.
    repeat split. left. reflexivity.
  - unfold X11Query.probe_fails in H.
    unfold_x11. unfold_monad.
    destruct (m_initialized (X11.base s)) eqn:Hi;
      repeat (simpl; rewrite ?Hi).
    + cbv beta iota delta [X11.Api.Answer] in *.
      match type of H with
      | fst ?t = None => destruct t as [a w'] eqn:E
      end.
      simpl in H. subst a. simpl.
      repeat split. right. eexists. reflexivity.
    + repeat split. left. reflexivity.
Qed.

Lemma macos_predicates_false (w : W3) (s : MacOS.St) handle :
  m_initialized s = false \/ MacOSQuery.lookup_fails h3 w handle ->
  (returned (run h3 (MacOS.IsWindowVisible handle s) w) = false
   /\ object (run h3 (MacOS.IsWindowVisible handle s) w) = s)
  /\ (returned (run h3 (MacOS.IsValidWindow handle s) w) = false
      /\ object (run h3 (MacOS.IsValidWindow handle s) w) = s).
Proof.
  intros [H | H].
  - unfold_macos. unfold_monad. simpl. rewrite H. simpl. repeat split.
  - unfold MacOSQuery.lookup_fails in H.
    unfold_macos. unfold_monad. simpl.
    destruct (m_initialized s); simpl; [| repeat split].
    match type of H with
    | context [h3 ?c ?w0] => destruct (h3 c w0) as [[[|d l]|] w'] eqn:E
    end; simpl in H; try contradiction; repeat split.
Qed.

Lemma stub_predicates_false (w : W4) (s : Stub.St) handle :
  run h4 (Stub.IsWindowVisible handle s) w = mkOutcome (false, s) w []
  /\ run h4 (Stub.IsValidWindow handle s) w = mkOutcome (false, s) w [].
Proof. split; reflexivity. Qed.
End Predicates.

(** C8.  On every backend [IsWindowVisible] and [IsValidWindow] return
    [false], and hand the backend object back untouched (no error is
    recorded), when the backend is uninitialised or the native liveness
    probe rejects the handle.  On X11 both methods then issue the same
    native calls: none, or the single attribute probe bracketed by the
    installation of the swallowing error handler and the restoration of
    the previous one, so the fatal default handler never sees the probe.
    The Win32 method relies on what Windows documents for
    [IsWindowVisible]: a handle that is not a window is not visible. *)
Theorem predicates_false_when_unusable :
  forall (W1 W2 W3 W4 : Type)
         (h1 : Handler Win32.Api.Call Win32.Api.Answer W1) (w1 : W1)
         (h2 : Handler X11.Api.Call X11.Api.Answer W2) (w2 : W2)
         (h3 : Handler MacOS.Api.Call MacOS.Api.Answer W3) (w3 : W3)
         (h4 : Handler Stub.Api.Call Stub.Api.Answer W4) (w4 : W4)
         (s1 : Win32.St) (s2 : X11.St) (s3 : MacOS.St) (s4 : Stub.St)
         (handle : NativeHandle),
    Win32Query.visible_only_if_window h1 ->
    m_initialized s1 = false
    \/ fst (h1 (Win32.Api.IsWindow handle) w1) = false ->
    X11.initialized s2 = false \/ X11Query.probe_fails h2 w2 s2 handle ->
    m_initialized s3 = false \/ MacOSQuery.lookup_fails h3 w3 handle ->
    ((returned (run h1 (Win32.IsWindowVisible handle s1) w1) = false
      /\ object (run h1 (Win32.IsWindowVisible handle s1) w1) = s1)
     /\ (returned (run h1 (Win32.IsValidWindow handle s1) w1) = false
         /\ object (run h1 (Win32.IsValidWindow handle s1) w1) = s1))
    /\ ((returned (run h2 (X11.IsWindowVisible handle s2) w2) = false
         /\ object (run h2 (X11.IsWindowVisible handle s2) w2) = s2)
        /\ (returned (run h2 (X11.IsValidWindow handle s2) w2) = false
            /\ object (run h2 (X11.IsValidWindow handle s2) w2) = s2)
        /\ log (run h2 (X11.IsWindowVisible handle s2) w2)
           = log (run h2 (X11.IsValidWindow handle s2) w2)
        /\ (calls (log (run h2 (X11.IsValidWindow handle s2) w2)) = []
            \/ exists oldHandler,
                 calls (log (run h2 (X11.IsValidWindow handle s2) w2))
                 = [X11.Api.XSetErrorHandler X11.SwallowError;
                    X11.Api.XGetWindowAttributes (X11.m_display s2) handle;
                    X11.Api.XSetErrorHandler oldHandler]))
    /\ ((returned (run h3 (MacOS.IsWindowVisible handle s3) w3) = false
         /\ object (run h3 (MacOS.IsWindowVisible handle s3) w3) = s3)
        /\ (returned (run h3 (MacOS.IsValidWindow handle s3) w3) = false
            /\ object (run h3 (MacOS.IsValidWindow handle s3) w3) = s3))
    /\ (run h4 (Stub.IsWindowVisible handle s4) w4 = mkOutcome (false, s4) w4 []
        /\ run h4 (Stub.IsValidWindow handle s4) w4
           = mkOutcome (false, s4) w4 []).
Proof.
  intros W1 W2 W3 W4 h1 w1 h2 w2 h3 w3 h4 w4 s1 s2 s3 s4 handle OS D1 D2 D3.
  split; [| split; [| split]].
  - apply win32_predicates_false; assumption.
  - apply x11_predicates_false; assumption.
  - apply macos_predicates_false; assumption.
  - apply stub_predicates_false.
Qed.

(* ================================================================== *)
(** * Readers of the X11 backend *)
(* ================================================================== *)

Section RunEquations.
Context {Call : Type} {Answer : Call -> Type} {St W : Type}.
Variable h : Handler Call Answer W.

Lemma run_ret {A} (a : A) (s : St) (w : W) :
  run h (ret a s) w = mkOutcome (a, s) w [].
Proof. reflexivity. Qed.

Lemma run_get (s : St) (w : W) :
  run h (get s) w = mkOutcome (s, s) w [].
Proof. reflexivity. Qed.

Lemma run_native (c : Call) (s : St) (w : W) :
  run h (native c s) w
  = mkOutcome (fst (h c w), s) (snd (h c w)) [entry c (fst (h c w))].
Proof. reflexivity. Qed.

Lemma asking_weaken (Q Q' : Call -> Prop) {A} (s : St)
      (p : Prog Call Answer (A * St)) :
  (forall c, Q c -> Q' c) -> asking Q s p -> asking Q' s p.
Proof.
  intros HQ Hp. induction Hp as [a | c k Hc Hk IH]; constructor; auto.
Qed.

Lemma reader_weaken (Q Q' : Call -> Prop) {A} (m : M Call Answer St A) :
  (forall c, Q c -> Q' c) -> reader Q m -> reader Q' m.
Proof. intros HQ Hm s. apply (asking_weaken Q Q'); auto. Qed.
End RunEquations.

Ltac reader_step :=
  first
    [ apply reader_ret
    | apply reader_get
    | (apply reader_native; exact I)
    | (apply reader_mbind; [| intro])
    | match goal with
      | |- reader _ (match ?x with _ => _ end) => destruct x
      end ].

Create HintDb readers.

Ltac reader_tac := repeat first [ solve [ auto with readers ] | reader_step ].

Lemma x11_lookup_is_query c : X11Query.lookup c -> X11Query.query c.
Proof. destruct c; simpl; auto. Qed.

Lemma x11_GetClientList_reader : reader X11Query.lookup X11.GetClientList.
Proof. unfold X11.GetClientList, X11.call. reader_tac. Qed.

Lemma x11_GetWindowTitleInternal_reader window :
  reader X11Query.lookup (X11.GetWindowTitleInternal window).
Proof. unfold X11.GetWindowTitleInternal, X11.call. reader_tac. Qed.

Lemma x11_GetWindowClassInternal_reader window :
  reader X11Query.lookup (X11.GetWindowClassInternal window).
Proof. unfold X11.GetWindowClassInternal, X11.call. reader_tac. Qed.

Lemma x11_GetWindowPidInternal_reader window :
  reader X11Query.lookup (X11.GetWindowPidInternal window).
Proof. unfold X11.GetWindowPidInternal, X11.call. reader_tac. Qed.

Lemma x11_GetProcessNameFromPid_reader pid :
  reader X11Query.lookup (X11.GetProcessNameFromPid pid).
Proof. unfold X11.GetProcessNameFromPid, X11.call. reader_tac. Qed.

Lemma x11_HasWmState_reader window a :
  reader X11Query.lookup (X11.HasWmState window a).
Proof. unfold X11.HasWmState, X11.call. reader_tac. Qed.

Lemma x11_GetFocusedWindow_reader :
  reader X11Query.lookup X11.GetFocusedWindow.
Proof. unfold X11.GetFocusedWindow, X11.call. reader_tac. Qed.

#[local] Hint Resolve x11_GetClientList_reader
  x11_GetWindowTitleInternal_reader x11_GetWindowClassInternal_reader
  x11_GetWindowPidInternal_reader x11_GetProcessNameFromPid_reader
  x11_HasWmState_reader x11_GetFocusedWindow_reader : readers.

Lemma x11_query_state_reader window :
  reader X11Query.lookup (X11.query_state window).
Proof. unfold X11.query_state. reader_tac. Qed.

#[local] Hint Resolve x11_query_state_reader : readers.

Lemma x11_IsValidWindow_reader handle :
  reader X11Query.query (X11.IsValidWindow handle).
Proof. unfold X11.IsValidWindow, X11.call. reader_tac. Qed.

(* ================================================================== *)
(** * X11: a window that vanishes during [GetWindowInfo] *)
(* ================================================================== *)

Lemma attributes_answers_app l1 l2 :
  X11Query.attributes_answers (l1 ++ l2)
  = (X11Query.attributes_answers l1 ++ X11Query.attributes_answers l2)%list.
Proof.
  induction l1 as [| e l1 IH]; simpl; [reflexivity |].
  destruct (X11Query.attributes_answer e); simpl; rewrite IH; reflexivity.
Qed.

Lemma lookup_no_attributes {A W}
      (h : Handler X11.Api.Call X11.Api.Answer W) (w : W) (s : X11.St)
      (p : Prog X11.Api.Call X11.Api.Answer (A * X11.St)) :
  asking X11Query.lookup s p ->
  X11Query.attributes_answers (log (run h p w)) = [].
Proof.
  intro Hp. revert w. induction Hp as [a | c k Hc Hk IH]; intro w; simpl.
  - reflexivity.
  - destruct c; simpl in Hc; try contradiction; simpl; apply IH.
Qed.

Lemma reader_no_attributes {A W}
      (h : Handler X11.Api.Call X11.Api.Answer W) (w : W) (s : X11.St)
      (m : X11.M A) :
  reader X11Query.lookup m ->
  X11Query.attributes_answers (log (run h (m s) w)) = [].
Proof. intro Hm. apply (lookup_no_attributes h w s). apply Hm. Qed.

Lemma reader_object {A W} (Q : X11.Api.Call -> Prop)
      (h : Handler X11.Api.Call X11.Api.Answer W) (w : W) (s : X11.St)
      (m : X11.M A) :
  reader Q m -> object (run h (m s) w) = s.
Proof.
  intro Hm. specialize (Hm s). revert w.
  induction Hm as [a | c k Hc Hk IH]; intro w; simpl.
  - reflexivity.
  - apply IH.
Qed.


Lemma run_mbind_ex {Call} {Answer : Call -> Type} {St A B W}
      (h : Handler Call Answer W) (m : M Call Answer St A)
      (f : A -> M Call Answer St B) (s : St) (w : W) (o : Outcome Call Answer (B * St) W) :
  run h (mbind m f s) w = o ->
  exists o2,
    run h (f (returned (run h (m s) w)) (object (run h (m s) w)))
        (world (run h (m s) w)) = o2
    /\ o = mkOutcome (result o2) (world o2) (log (run h (m s) w) ++ log o2)%list.
Proof.
  intro E. rewrite run_mbind in E. eexists. split; [reflexivity |].
  symmetry. exact E.
Qed.

Ltac step E :=
  let o' := fresh "o" in
  apply run_mbind_ex in E; destruct E as (o' & E & ->).


Lemma x11_IsValidWindow_probe {W} (h : Handler X11.Api.Call X11.Api.Answer W)
      (w : W) (s : X11.St) handle :
  X11.initialized s = true ->
  exists a1,
    X11Query.attributes_answers (log (run h (X11.IsValidWindow handle s) w))
    = [a1]
    /\ returned (run h (X11.IsValidWindow handle s) w)
       = match a1 with Some _ => true | None => false end.
Proof.
  intro Hi. unfold X11.IsValidWindow, X11.call, X11.initialized in *.
  unfold_monad. simpl. rewrite Hi. simpl.
  eexists. split; reflexivity.
Qed.


(** One step into a sequence whose first part is a lookup-only reader:
    the outcome of the first part is named, with what is known of it. *)
Ltac step_lookup E lem :=
  step E;
  match type of E with
  | context [object (run ?h0 (?m ?s0) ?w0)] =>
      let r := fresh "r" in
      let Ho := fresh "Ho" in
      let Hl := fresh "Hl" in
      pose proof (reader_object _ h0 w0 s0 m lem) as Ho;
      pose proof (reader_no_attributes h0 w0 s0 m lem) as Hl;
      set (r := run h0 (m s0) w0) in *;
      clearbody r; rewrite Ho in E
  end.

(** What [GetWindowInfo] computes when the geometry query answers
    nothing: the rectangle and [isVisible] keep their defaults and the
    error is [Success].  This is the path on which the call has returned
    zero, and so the path of a process whose error handler returned. *)
Lemma x11_info_skips_failed_geometry {W}
      (h : Handler X11.Api.Call X11.Api.Answer W) (w : W)
      (s : X11.St) (handle : NativeHandle) (a : X11.XWindowAttributes) :
  X11.initialized s = true ->
  X11Query.attributes_answers (log (run h (X11.GetWindowInfo handle s) w))
  = [Some a; None] ->
  error (returned (run h (X11.GetWindowInfo handle s) w)) = Success
  /\ rect (value (returned (run h (X11.GetWindowInfo handle s) w)))
     = Rect_default
  /\ isVisible (value (returned (run h (X11.GetWindowInfo handle s) w)))
     = false.
Proof.
  intro Hi.
  destruct (x11_IsValidWindow_probe h w s handle Hi) as (a1 & La1 & Ra1).
  pose proof (reader_object _ h w s _ (x11_IsValidWindow_reader handle)) as Oa1.
  remember (run h (X11.GetWindowInfo handle s) w) as o eqn:E. symmetry in E.
  unfold X11.GetWindowInfo in E.
  step E. rewrite run_get in E. cbn [returned object result world log fst snd] in E.
  rewrite Hi in E. cbn [negb] in E.
  step E.
  set (r0 := run h (X11.IsValidWindow handle s) w) in *. clearbody r0.
  rewrite Oa1, Ra1 in E.
  destruct a1 as [v1 |]; cbn [negb] in E.
  2:{ rewrite run_ret in E. subst o. cbn [returned object result world log fst snd].
      rewrite !attributes_answers_app, La1. cbn. discriminate. }
  step_lookup E (x11_GetWindowTitleInternal_reader handle).
  step_lookup E (x11_GetWindowClassInternal_reader handle).
  step_lookup E (x11_GetWindowPidInternal_reader handle).
  step_lookup E (x11_GetProcessNameFromPid_reader
                   (processId
                      (with_processId
                         (with_className
                            (with_title
                               (with_handle
                                  (value (Result_default WindowInfo_default))
                                  handle)
                               (returned r))
                            (returned r1))
                         (returned r2)))).
  step E. unfold X11.call in *. rewrite run_native in *. rewrite run_get.
  cbn [returned object result world log fst snd] in *.
  rewrite !attributes_answers_app.
  rewrite La1, Hl, Hl0, Hl1, Hl2.
  cbn [app X11Query.attributes_answers X11Query.attributes_answer].
  destruct (h (X11.Api.XGetWindowAttributes (X11.m_display s) handle)
              (world r3)) as [[a2 |] w2] eqn:Ea2;
    cbn [fst snd] in *; [discriminate |].
  intros _.
  step E. rewrite run_ret in E.
  cbn [returned object result world log fst snd] in E.
  step_lookup E (x11_query_state_reader handle).
  rewrite run_ret in E. subst. cbn. repeat split.
Qed.

(** ** The same run under Xlib *)

(** [Xlib.run] is [run] cut where the process ends. *)
Lemma xlib_run_is_cut {R W} (exits : Z -> bool)
      (h : Handler X11.Api.Call X11.Api.Answer W)
      (p : Prog X11.Api.Call X11.Api.Answer R) :
  forall (current : X11.XErrorHandler) (w : W),
    Xlib.run exits current h p w
    = match Xlib.cut exits current (log (run h p w)) with
      | Some issued => Xlib.Exits issued
      | None => Xlib.Returns (run h p w)
      end.
Proof.
  induction p as [r | c k IH]; intros current w.
  - reflexivity.
  - cbn [Xlib.run run log Xlib.cut].
    destruct (Xlib.reports_error (entry c (fst (h c w)))
              && Xlib.ends_process exits current); [reflexivity |].
    rewrite IH.
    destruct (Xlib.cut exits _ _); reflexivity.
Qed.

Lemma xlib_cut_app (exits : Z -> bool) l1 l2 :
  forall current,
    Xlib.cut exits current l1 = None ->
    Xlib.cut exits current (l1 ++ l2)
    = match Xlib.cut exits (Xlib.handler_after current l1) l2 with
      | Some issued => Some (l1 ++ issued)%list
      | None => None
      end.
Proof.
  induction l1 as [| e l1 IH]; intros current H.
  - cbn. destruct (Xlib.cut exits current l2); reflexivity.
  - cbn [app Xlib.cut Xlib.handler_after fold_left] in *.
    destruct (Xlib.reports_error e && Xlib.ends_process exits current);
      [discriminate H |].
    destruct (Xlib.cut exits (Xlib.installs current e) l1) eqn:C;
      [discriminate H |].
    rewrite (IH _ C). unfold Xlib.handler_after.
    destruct (Xlib.cut exits _ l2); reflexivity.
Qed.

(** A lookup neither fails in [XGetWindowAttributes] nor exchanges the
    handler. *)
Lemma lookup_quiet {A W} (exits : Z -> bool)
      (h : Handler X11.Api.Call X11.Api.Answer W) (s : X11.St)
      (p : Prog X11.Api.Call X11.Api.Answer (A * X11.St)) :
  asking X11Query.lookup s p ->
  forall (current : X11.XErrorHandler) (w : W),
    Xlib.cut exits current (log (run h p w)) = None
    /\ Xlib.handler_after current (log (run h p w)) = current.
Proof.
  intro Hp. induction Hp as [a | c k Hc Hk IH]; intros current w.
  - split; reflexivity.
  - destruct c; simpl in Hc; try contradiction;
      cbn [run log Xlib.cut Xlib.handler_after fold_left Xlib.reports_error
           Xlib.installs andb];
      match goal with
      | |- context [h ?c0 w] =>
          destruct (IH (fst (h c0 w)) current (snd (h c0 w))) as [C H]
      end;
      rewrite C; (split; [reflexivity | exact H]).
Qed.

Lemma reader_quiet {A W} (exits : Z -> bool)
      (h : Handler X11.Api.Call X11.Api.Answer W) (w : W) (s : X11.St)
      (m : X11.M A) (current : X11.XErrorHandler) :
  reader X11Query.lookup m ->
  Xlib.cut exits current (log (run h (m s) w)) = None
  /\ Xlib.handler_after current (log (run h (m s) w)) = current.
Proof. intro Hm. apply (lookup_quiet exits h s); apply Hm. Qed.

(** The probe ends no process, whatever it finds, and leaves installed
    the handler that it found. *)
Lemma x11_probe_quiet {W} (exits : Z -> bool)
      (h : Handler X11.Api.Call X11.Api.Answer W) (w : W) (s : X11.St)
      handle (current : X11.XErrorHandler) :
  X11.initialized s = true ->
  Xlib.cut exits current (log (run h (X11.IsValidWindow handle s) w)) = None
  /\ Xlib.handler_after current (log (run h (X11.IsValidWindow handle s) w))
     = fst (h (X11.Api.XSetErrorHandler X11.SwallowError) w).
Proof.
  intro Hi. unfold X11.IsValidWindow, X11.call, X11.initialized in *.
  unfold_monad. simpl. rewrite Hi. simpl.
  rewrite andb_false_r. split; reflexivity.
Qed.

(** One step into a sequence whose first part is a lookup-only reader,
    issued while [current] is installed. *)
Ltac step_quiet E lem exits current :=
  step E;
  match type of E with
  | context [object (run ?h0 (?m ?s0) ?w0)] =>
      let r := fresh "r" in
      let Ho := fresh "Ho" in
      let Hl := fresh "Hl" in
      let Hq := fresh "Hq" in
      pose proof (reader_object _ h0 w0 s0 m lem) as Ho;
      pose proof (reader_no_attributes h0 w0 s0 m lem) as Hl;
      pose proof (reader_quiet exits h0 w0 s0 m current lem) as Hq;
      set (r := run h0 (m s0) w0) in *;
      clearbody r; rewrite Ho in E
  end.

(** Where the log of [GetWindowInfo] is cut when the probe finds the
    window and the geometry query fails. *)
Lemma x11_info_cut {W} (exits : Z -> bool)
      (h : Handler X11.Api.Call X11.Api.Answer W) (w : W)
      (s : X11.St) (handle : NativeHandle) (a : X11.XWindowAttributes)
      (current : X11.XErrorHandler) :
  X11.initialized s = true ->
  X11Query.attributes_answers (log (run h (X11.GetWindowInfo handle s) w))
  = [Some a; None] ->
  if Xlib.ends_process exits
       (fst (h (X11.Api.XSetErrorHandler X11.SwallowError) w))
  then exists issued,
         Xlib.cut exits current (log (run h (X11.GetWindowInfo handle s) w))
         = Some issued
         /\ X11Query.attributes_answers issued = [Some a; None]
  else Xlib.cut exits current (log (run h (X11.GetWindowInfo handle s) w))
       = None.
Proof.
  intros Hi.
  destruct (x11_IsValidWindow_probe h w s handle Hi) as (a1 & La1 & Ra1).
  destruct (x11_probe_quiet exits h w s handle current Hi) as [Cp Hp].
  set (old := fst (h (X11.Api.XSetErrorHandler X11.SwallowError) w)) in *.
  clearbody old.
  pose proof (reader_object _ h w s _ (x11_IsValidWindow_reader handle)) as Oa1.
  remember (run h (X11.GetWindowInfo handle s) w) as o eqn:E. symmetry in E.
  unfold X11.GetWindowInfo in E.
  step E. rewrite run_get in E. cbn [returned object result world log fst snd] in E.
  rewrite Hi in E. cbn [negb] in E.
  step E.
  set (r0 := run h (X11.IsValidWindow handle s) w) in *. clearbody r0.
  rewrite Oa1, Ra1 in E.
  destruct a1 as [v1 |]; cbn [negb] in E.
  2:{ rewrite run_ret in E. subst o. cbn [returned object result world log fst snd].
      rewrite !attributes_answers_app, La1. cbn. discriminate. }
  step_quiet E (x11_GetWindowTitleInternal_reader handle) exits old.
  step_quiet E (x11_GetWindowClassInternal_reader handle) exits old.
  step_quiet E (x11_GetWindowPidInternal_reader handle) exits old.
  step_quiet E (x11_GetProcessNameFromPid_reader
                   (processId
                      (with_processId
                         (with_className
                            (with_title
                               (with_handle
                                  (value (Result_default WindowInfo_default))
                                  handle)
                               (returned r))
                            (returned r1))
                         (returned r2)))) exits old.
  step E. unfold X11.call in *. rewrite run_native in *. rewrite run_get.
  cbn [returned object result world log fst snd] in *.
  rewrite !attributes_answers_app.
  rewrite La1, Hl, Hl0, Hl1, Hl2.
  cbn [app X11Query.attributes_answers X11Query.attributes_answer].
  destruct (h (X11.Api.XGetWindowAttributes (X11.m_display s) handle)
              (world r3)) as [[a2 |] w2] eqn:Ea2;
    cbn [fst snd] in *; [discriminate |].
  intros Hrest.
  step E. rewrite run_ret in E.
  cbn [returned object result world log fst snd] in E.
  step_quiet E (x11_query_state_reader handle) exits old.
  rewrite run_ret in E. subst. rewrite run_ret. cbn [log app].
  rewrite app_nil_r.
  injection Hrest as Hv _. subst v1.
  destruct Hq as [Cq Hq], Hq0 as [Cq0 Hq0], Hq1 as [Cq1 Hq1],
    Hq2 as [Cq2 Hq2], Hq3 as [Cq3 Hq3].
  set (old := Xlib.handler_after current (log r0)) in *.
  rewrite (xlib_cut_app exits _ _ current Cp). fold old.
  rewrite (xlib_cut_app exits _ _ old Cq), Hq.
  rewrite (xlib_cut_app exits _ _ old Cq0), Hq0.
  rewrite (xlib_cut_app exits _ _ old Cq1), Hq1.
  rewrite (xlib_cut_app exits _ _ old Cq2), Hq2.
  cbn [Xlib.cut Xlib.reports_error Xlib.installs andb].
  destruct (Xlib.ends_process exits old).
  - eexists. split; [reflexivity |].
    rewrite !attributes_answers_app, La1, Hl, Hl0, Hl1, Hl2. reflexivity.
  - rewrite Cq3. reflexivity.
Qed.

(** C10.  The claim holds on the path on which the geometry query has
    returned, and the code does not reach that path in a process that
    runs Xlib's default error handler.  [IsValidWindow] brackets its
    [XGetWindowAttributes] with a handler that swallows the error;
    [GetWindowInfo] issues the geometry [XGetWindowAttributes] after the
    probe has put the previous handler back.  When the probe finds the
    window and the geometry query fails, the outcome is decided by the
    handler that the probe put back.  If that handler ends the process,
    as the default handler does, then [GetWindowInfo] does not return:
    the process ends at the failing query, the second
    [XGetWindowAttributes] of the run.  If it returns, [GetWindowInfo]
    reports [Success] with the default rectangle and [isVisible] false,
    as the claim says. *)
Theorem x11_failed_geometry_ends_process :
  forall (W : Type) (h : Handler X11.Api.Call X11.Api.Answer W) (w : W)
         (s : X11.St) (handle : NativeHandle) (a : X11.XWindowAttributes)
         (exits : Z -> bool) (current : X11.XErrorHandler),
    X11.initialized s = true ->
    X11Query.attributes_answers (log (run h (X11.GetWindowInfo handle s) w))
    = [Some a; None] ->
    if Xlib.ends_process exits
         (fst (h (X11.Api.XSetErrorHandler X11.SwallowError) w))
    then exists issued,
           Xlib.run exits current h (X11.GetWindowInfo handle s) w
           = Xlib.Exits issued
           /\ X11Query.attributes_answers issued = [Some a; None]
    else Xlib.run exits current h (X11.GetWindowInfo handle s) w
         = Xlib.Returns (run h (X11.GetWindowInfo handle s) w)
         /\ error (returned (run h (X11.GetWindowInfo handle s) w)) = Success
         /\ rect (value (returned (run h (X11.GetWindowInfo handle s) w)))
            = Rect_default
         /\ isVisible (value (returned (run h (X11.GetWindowInfo handle s)
                                            w))) = false.
Proof.
  intros W h w s handle a exits current Hi Ha.
  pose proof (x11_info_cut exits h w s handle a current Hi Ha) as C.
  rewrite xlib_run_is_cut.
  destruct (Xlib.ends_process exits
              (fst (h (X11.Api.XSetErrorHandler X11.SwallowError) w))).
  - destruct C as (issued & C & A). exists issued. rewrite C.
    split; [reflexivity | exact A].
  - rewrite C. split; [reflexivity |].
    apply (x11_info_skips_failed_geometry h w s handle a Hi Ha).
Qed.

(** The window [11] of the sample desktop is gone after the probe has
    seen it, in a process that has installed no error handler of its
    own: the handler [0] that the probe finds and puts back is Xlib's
    default handler. *)
Lemma x11_failed_geometry_ends_process_witness :
  X11.initialized X11Desk.ready = true
  /\ X11Query.attributes_answers
       (log (run X11Desk.handler (X11.GetWindowInfo 11 X11Desk.ready)
                 X11Desk.fading))
     = [Some (X11.mkXWindowAttributes 0 0 640 480 X11.IsViewable); None]
  /\ exists issued,
       Xlib.run (Z.eqb 0) (X11.Installed 0) X11Desk.handler
                (X11.GetWindowInfo 11 X11Desk.ready) X11Desk.fading
       = Xlib.Exits issued
       /\ X11Query.attributes_answers issued
          = [Some (X11.mkXWindowAttributes 0 0 640 480 X11.IsViewable); None].
Proof.
  split; [reflexivity |]. split; [reflexivity |].
  apply (x11_failed_geometry_ends_process
           X11Desk.Desk X11Desk.handler X11Desk.fading X11Desk.ready 11
           (X11.mkXWindowAttributes 0 0 640 480 X11.IsViewable)
           (Z.eqb 0) (X11.Installed 0));
    reflexivity.
Defined.

(** The calls that the process has issued when it ends. *)
Lemma x11_failed_geometry_trace :
  match Xlib.run (Z.eqb 0) (X11.Installed 0) X11Desk.handler
                 (X11.GetWindowInfo 11 X11Desk.ready) X11Desk.fading with
  | Xlib.Exits issued =>
      calls issued
      = [X11.Api.XSetErrorHandler X11.SwallowError;
         X11.Api.XGetWindowAttributes 1 11;
         X11.Api.XSetErrorHandler (X11.Installed 0);
         X11.Api.XGetWindowProperty 1 11 103 0 X11.all_ones false 114;
         X11.Api.XGetClassHint 1 11;
         X11.Api.XGetWindowProperty 1 11 104 0 1 false X11.XA_CARDINAL;
         X11.Api.ifstream_getline "/proc/4242/comm";
         X11.Api.XGetWindowAttributes 1 11]
  | Xlib.Returns _ => False
  end.
Proof. vm_compute. reflexivity. Qed.

Lemma predicates_false_when_unusable_witness :
  ((returned (run Win32Desk.handler
                  (Win32.IsWindowVisible 999 Win32Desk.ready) Win32Desk.desk)
    = false
    /\ object (run Win32Desk.handler
                   (Win32.IsWindowVisible 999 Win32Desk.ready) Win32Desk.desk)
       = Win32Desk.ready)
   /\ (returned (run Win32Desk.handler
                     (Win32.IsValidWindow 999 Win32Desk.ready) Win32Desk.desk)
       = false
       /\ object (run Win32Desk.handler
                      (Win32.IsValidWindow 999 Win32Desk.ready) Win32Desk.desk)
          = Win32Desk.ready))
  /\ ((returned (run X11Desk.handler
                     (X11.IsWindowVisible 999 X11Desk.ready) X11Desk.desk)
       = false
       /\ object (run X11Desk.handler
                      (X11.IsWindowVisible 999 X11Desk.ready) X11Desk.desk)
          = X11Desk.ready)
      /\ (returned (run X11Desk.handler
                        (X11.IsValidWindow 999 X11Desk.ready) X11Desk.desk)
          = false
          /\ object (run X11Desk.handler
                         (X11.IsValidWindow 999 X11Desk.ready) X11Desk.desk)
             = X11Desk.ready)
      /\ log (run X11Desk.handler
                  (X11.IsWindowVisible 999 X11Desk.ready) X11Desk.desk)
         = log (run X11Desk.handler
                    (X11.IsValidWindow 999 X11Desk.ready) X11Desk.desk)
      /\ (calls (log (run X11Desk.handler
                          (X11.IsValidWindow 999 X11Desk.ready) X11Desk.desk))
          = []
          \/ exists oldHandler,
               calls (log (run X11Desk.handler
                               (X11.IsValidWindow 999 X11Desk.ready)
                               X11Desk.desk))
               = [X11.Api.XSetErrorHandler X11.SwallowError;
                  X11.Api.XGetWindowAttributes
                    (X11.m_display X11Desk.ready) 999;
                  X11.Api.XSetErrorHandler oldHandler]))
  /\ ((returned (run MacOSDesk.handler
                     (MacOS.IsWindowVisible 999 ImplBase_new) MacOSDesk.desk)
       = false
       /\ object (run MacOSDesk.handler
                      (MacOS.IsWindowVisible 999 ImplBase_new) MacOSDesk.desk)
          = ImplBase_new)
      /\ (returned (run MacOSDesk.handler
                        (MacOS.IsValidWindow 999 ImplBase_new) MacOSDesk.desk)
          = false
          /\ object (run MacOSDesk.handler
                         (MacOS.IsValidWindow 999 ImplBase_new) MacOSDesk.desk)
             = ImplBase_new))
  /\ (run no_calls (Stub.IsWindowVisible 999 ImplBase_new) tt
      = mkOutcome (false, ImplBase_new) tt []
      /\ run no_calls (Stub.IsValidWindow 999 ImplBase_new) tt
         = mkOutcome (false, ImplBase_new) tt []).
Proof.
  apply (predicates_false_when_unusable
           Win32Desk.Desk X11Desk.Desk MacOSDesk.Desk unit
           Win32Desk.handler Win32Desk.desk X11Desk.handler X11Desk.desk
           MacOSDesk.handler MacOSDesk.desk no_calls tt
           Win32Desk.ready X11Desk.ready ImplBase_new ImplBase_new 999).
  - intros hwnd d H. exact H.
  - right. reflexivity.
  - right. reflexivity.
  - left. reflexivity.
Defined.

(* ================================================================== *)
(** * Opacity *)
(* ================================================================== *)

Lemma ltb_leb (a b : float) : Float.ltb a b = true -> Float.leb a b = true.
Proof.
  unfold Float.ltb, Float.leb, SFltb, SFleb.
  destruct (SFcompare a b) as [[| |] |]; intro H; try discriminate H;
    reflexivity.
Qed.

(** The clamp never lets a value outside [0, 1] through, a NaN
    included. *)
Lemma clamp_opacity_bounds (opacity : float) :
  Float.leb Float.zero (clamp_opacity opacity) = true
  /\ Float.leb (clamp_opacity opacity) Float.one = true.
Proof.
  unfold clamp_opacity, Float.max, Float.min.
  destruct (Float.ltb opacity Float.one) eqn:H1.
  - destruct (Float.ltb Float.zero opacity) eqn:H2.
    + split; apply ltb_leb; assumption.
    + split; reflexivity.
  - split; reflexivity.
Qed.

(** The three inputs of the specification reach the native call as [0.0],
    [0.5] and [1.0], and Win32 turns them into the alpha bytes [0], [127]
    and [255]. *)
Lemma clamp_opacity_examples :
  clamp_opacity Float.minus_one = Float.zero
  /\ clamp_opacity Float.half = Float.half
  /\ clamp_opacity Float.two = Float.one
  /\ Win32.alpha_of (clamp_opacity Float.minus_one) = 0
  /\ Win32.alpha_of (clamp_opacity Float.half) = 127
  /\ Win32.alpha_of (clamp_opacity Float.two) = 255.
Proof. repeat split; reflexivity. Qed.

(** C5.  The clamp and the Win32 scaling are as claimed, but the X11
    scaling is not: the constant [0xFFFFFFFF] is rounded to [2^32] when it
    is converted to [float], so a fully opaque window ([1.0], or anything
    above, after the clamp) is given the opacity value [4294967296], one
    more than the largest 32-bit value that the comment in the source
    names as fully opaque.  The value that [XChangeProperty] receives for
    window [11] of the sample desktop is shown in the last conjunct. *)
Theorem x11_full_opacity_exceeds_32_bits :
  clamp_opacity Float.two = Float.one
  /\ X11.opacityValue_of (clamp_opacity Float.minus_one) = 0
  /\ X11.opacityValue_of (clamp_opacity Float.half) = 2147483648
  /\ X11.opacityValue_of (clamp_opacity Float.one) = 4294967296
  /\ X11.opacityValue_of (clamp_opacity Float.two) = 4294967295 + 1
  /\ calls (log (run X11Desk.handler
                     (X11.SetWindowOpacity 11 Float.one X11Desk.ready)
                     X11Desk.desk))
     = [X11.Api.XSetErrorHandler X11.SwallowError;
        X11.Api.XGetWindowAttributes 1 11;
        X11.Api.XSetErrorHandler (X11.Installed 0);
        X11.Api.XChangeProperty 1 11 117 X11.XA_CARDINAL 32
          X11.PropModeReplace [4294967296] 1;
        X11.Api.XFlush 1].
Proof. repeat split; reflexivity. Qed.

(* ================================================================== *)
(** * Enumeration and search *)
(* ================================================================== *)

(** ** The reference walk *)

Lemma walk_first_false {V} (visit : V -> WindowInfo -> bool * V) (v : V)
      (i : WindowInfo) (l : list WindowInfo) :
  fst (visit v i) = false -> snd (walk visit v (i :: l)) = [i].
Proof.
  intro H. simpl. destruct (visit v i) as [c v']. simpl in H. subst c.
  reflexivity.
Qed.

Lemma macos_visit_each_walk {V} (cb : V -> WindowInfo -> bool * V)
      (l : list WindowInfo) (v : V) (seen : list WindowInfo) :
  MacOS.visit_each cb l v seen
  = (fst (walk cb v l), (seen ++ snd (walk cb v l))%list).
Proof.
  revert v seen. induction l as [| i l IH]; intros v seen; simpl.
  - rewrite app_nil_r. reflexivity.
  - destruct (cb v i) as [c v']. destruct c; simpl.
    + rewrite IH. destruct (walk cb v' l) as [v'' seen']. simpl.
      rewrite <- app_assoc. reflexivity.
    + reflexivity.
Qed.

(** ** Win32 *)

Lemma win32_GetWindowTitleInternal_reader hwnd :
  reader Win32Query.query (Win32.GetWindowTitleInternal hwnd).
Proof. unfold Win32.GetWindowTitleInternal, Win32.call. reader_tac. Qed.

Lemma win32_GetWindowClassInternal_reader hwnd :
  reader Win32Query.query (Win32.GetWindowClassInternal hwnd).
Proof. unfold Win32.GetWindowClassInternal, Win32.call. reader_tac. Qed.

Lemma win32_GetProcessNameFromPid_reader pid :
  reader Win32Query.query (Win32.GetProcessNameFromPid pid).
Proof. unfold Win32.GetProcessNameFromPid, Win32.call. reader_tac. Qed.

#[local] Hint Resolve win32_GetWindowTitleInternal_reader
  win32_GetWindowClassInternal_reader win32_GetProcessNameFromPid_reader
  : readers.

Lemma win32_GetWindowInfo_reader handle :
  reader Win32Query.query (Win32.GetWindowInfo handle).
Proof. unfold Win32.GetWindowInfo, Win32.call. reader_tac. Qed.

#[local] Hint Resolve win32_GetWindowInfo_reader : readers.

Lemma win32_EnumWindowsProc_reader {V} hwnd (data : Win32.EnumWindowsData V) :
  reader Win32Query.query (Win32.EnumWindowsProc hwnd data).
Proof. unfold Win32.EnumWindowsProc, Win32.call. reader_tac. Qed.

#[local] Hint Resolve win32_EnumWindowsProc_reader : readers.

Lemma win32_EnumWindows_from_reader {V} hwnds (data : Win32.EnumWindowsData V) :
  reader Win32Query.query (Win32.EnumWindows_from hwnds data).
Proof.
  revert data. induction hwnds as [| hwnd rest IH]; intro data; simpl.
  - reader_tac.
  - reader_tac.
Qed.

#[local] Hint Resolve win32_EnumWindows_from_reader : readers.

Section Win32Frozen.
Context {W : Type}.
Variable h : Handler Win32.Api.Call Win32.Api.Answer W.
Variable w : W.
Variable s : Win32.St.
Hypothesis still : frozen Win32Query.query h w.

(** What one invocation of [EnumWindowsProc] does with the candidate of
    its window. *)
Lemma win32_EnumWindowsProc_candidate {V} hwnd
      (data : Win32.EnumWindowsData V) :
  returned (run h (Win32.EnumWindowsProc hwnd data s) w)
  = match Win32Query.candidate h w s hwnd with
    | None => (true, data)
    | Some i =>
        let data1 :=
          match Win32.windows data with
          | Some ws =>
              Win32.mkEnumWindowsData (Some (ws ++ [i])%list)
                (Win32.callback data) (Win32.continueEnum data)
                (Win32.visitor data) (Win32.visited data)
          | None => data
          end in
        match Win32.callback data1 with
        | Some cb =>
            let cv := cb (Win32.visitor data1) i in
            let seen := (Win32.visited data1 ++ [i])%list in
            if negb (fst cv) then
              (false, Win32.mkEnumWindowsData (Win32.windows data1)
                        (Win32.callback data1) false (snd cv) seen)
            else
              (true, Win32.mkEnumWindowsData (Win32.windows data1)
                       (Win32.callback data1) (Win32.continueEnum data1)
                       (snd cv) seen)
        | None => (true, data1)
        end
    end.
Proof.
  unfold Win32.EnumWindowsProc, Win32Query.candidate, Win32.call.
  rewrite (reader_mbind_returned Win32Query.query h w s _ _ still)
    by (apply reader_native; exact I).
  rewrite run_native. cbn [returned result fst].
  destruct (fst (h (Win32.Api.IsWindowVisible hwnd) w)); cbn [negb];
    [| reflexivity].
  rewrite (reader_mbind_returned Win32Query.query h w s _ _ still)
    by (apply reader_native; exact I).
  rewrite run_native. cbn [returned result fst].
  destruct (fst (h (Win32.Api.GetWindow hwnd Win32.GW_OWNER) w) =? 0);
    cbn [negb]; [| reflexivity].
  rewrite (reader_mbind_returned Win32Query.query h w s _ _ still)
    by (apply reader_native; exact I).
  rewrite run_native. cbn [returned result fst].
  destruct (fst (h (Win32.Api.GetWindowTextLengthW hwnd) w) =? 0);
    [reflexivity |].
  rewrite (reader_mbind_returned Win32Query.query h w s _ _ still)
    by auto with readers.
  destruct (ok (returned (run h (Win32.GetWindowInfo hwnd s) w)));
    [| reflexivity].
  cbv zeta.
  destruct (Win32.windows data) as [ws |];
    destruct (Win32.callback data) as [cb |]; cbn;
    try reflexivity;
    match goal with
    | |- context [cb ?v0 ?i0] => destruct (cb v0 i0) as [[|] v']
    end; reflexivity.
Qed.

(** The walk of [::EnumWindows] when it collects ([GetAllWindows]). *)
Lemma win32_EnumWindows_from_collects hwnds acc :
  Win32.windows
    (returned (run h (Win32.EnumWindows_from hwnds
                        (Win32.mkEnumWindowsData (Some acc) None true tt [])
                        s) w))
  = Some (acc ++ Win32Query.candidates h w s hwnds)%list.
Proof.
  revert acc. induction hwnds as [| hwnd rest IH]; intro acc.
  - simpl. rewrite app_nil_r. reflexivity.
  - cbn [Win32.EnumWindows_from Win32Query.candidates].
    rewrite (reader_mbind_returned Win32Query.query h w s _ _ still)
      by auto with readers.
    rewrite win32_EnumWindowsProc_candidate.
    destruct (Win32Query.candidate h w s hwnd) as [i |]; cbn.
    + rewrite IH. rewrite <- app_assoc. reflexivity.
    + apply IH.
Qed.

(** The walk of [::EnumWindows] when it visits ([EnumerateWindows]). *)
Lemma win32_EnumWindows_from_visits {V}
      (cb : V -> WindowInfo -> bool * V) hwnds c v seen :
  let data :=
    returned (run h (Win32.EnumWindows_from hwnds
                       (Win32.mkEnumWindowsData None (Some cb) c v seen)
                       s) w) in
  (Win32.visitor data, Win32.visited data)
  = (fst (walk cb v (Win32Query.candidates h w s hwnds)),
     (seen ++ snd (walk cb v (Win32Query.candidates h w s hwnds)))%list).
Proof.
  revert c v seen. induction hwnds as [| hwnd rest IH]; intros c v seen.
  - simpl. rewrite app_nil_r. reflexivity.
  - cbn [Win32.EnumWindows_from Win32Query.candidates]. cbv zeta.
    rewrite (reader_mbind_returned Win32Query.query h w s _ _ still)
      by auto with readers.
    rewrite win32_EnumWindowsProc_candidate.
    destruct (Win32Query.candidate h w s hwnd) as [i |]; cbn.
    + destruct (cb v i) as [[|] v']; cbn.
      * specialize (IH c v' (seen ++ [i])%list). cbv zeta in IH.
        rewrite IH.
        destruct (walk cb v' (Win32Query.candidates h w s rest))
          as [v'' seen']. cbn. rewrite <- app_assoc. reflexivity.
      * reflexivity.
    + apply IH.
Qed.

Lemma win32_GetAllWindows_candidates :
  returned (run h (Win32.GetAllWindows s) w)
  = if m_initialized s
    then Win32Query.candidates h w s (fst (h Win32.Api.EnumWindows w))
    else [].
Proof.
  unfold Win32.GetAllWindows.
  rewrite (reader_mbind_returned Win32Query.query h w s _ _ still)
    by apply reader_get.
  rewrite run_get. cbn [returned result fst].
  destruct (m_initialized s); cbn [negb]; [| reflexivity].
  unfold Win32.EnumWindows, Win32.call.
  rewrite (reader_mbind_returned Win32Query.query h w s _ _ still)
    by reader_tac.
  rewrite run_ret. cbn [returned result fst].
  rewrite (reader_mbind_returned Win32Query.query h w s _ _ still)
    by (apply reader_native; exact I).
  rewrite run_native. cbn [returned result fst].
  rewrite win32_EnumWindows_from_collects. reflexivity.
Qed.

Lemma win32_EnumerateWindows_walk {V} (cb : V -> WindowInfo -> bool * V)
      (v : V) :
  returned (run h (Win32.EnumerateWindows cb v s) w)
  = walk cb v (returned (run h (Win32.GetAllWindows s) w))
  /\ object (run h (Win32.EnumerateWindows cb v s) w) = s.
Proof.
  split.
  - rewrite win32_GetAllWindows_candidates.
    unfold Win32.EnumerateWindows.
    rewrite (reader_mbind_returned Win32Query.query h w s _ _ still)
      by apply reader_get.
    rewrite run_get. cbn [returned result fst].
    destruct (m_initialized s); cbn [negb]; [| reflexivity].
    unfold Win32.EnumWindows, Win32.call.
    rewrite (reader_mbind_returned Win32Query.query h w s _ _ still)
      by reader_tac.
    rewrite run_ret. cbn [returned result fst].
    rewrite (reader_mbind_returned Win32Query.query h w s _ _ still)
      by (apply reader_native; exact I).
    rewrite run_native. cbn [returned result fst].
    pose proof (win32_EnumWindows_from_visits cb
                  (fst (h Win32.Api.EnumWindows w)) true v []) as E.
    cbv zeta in E. rewrite E. cbn [app].
    destruct (walk cb v _); reflexivity.
  - apply (asking_run Win32Query.query h w s _ still).
    unfold Win32.EnumerateWindows, Win32.EnumWindows, Win32.call.
    assert (R : reader Win32Query.query
                  (Win32.EnumerateWindows cb v)).
    { unfold Win32.EnumerateWindows, Win32.EnumWindows, Win32.call.
      reader_tac. }
    apply R.
Qed.
End Win32Frozen.

(** ** X11 *)

Lemma x11_lookup_reader_query {A} (m : X11.M A) :
  reader X11Query.lookup m -> reader X11Query.query m.
Proof. apply reader_weaken. exact x11_lookup_is_query. Qed.

Lemma x11_GetWindowInfo_reader handle :
  reader X11Query.query (X11.GetWindowInfo handle).
Proof.
  unfold X11.GetWindowInfo, X11.call.
  repeat first
    [ solve [ auto using x11_IsValidWindow_reader, x11_lookup_reader_query
                with readers ]
    | reader_step ].
Qed.

#[local] Hint Resolve x11_GetWindowInfo_reader x11_IsValidWindow_reader
  : readers.

Section X11Frozen.
Context {W : Type}.
Variable h : Handler X11.Api.Call X11.Api.Answer W.
Variable w : W.
Variable s : X11.St.
Hypothesis still : frozen X11Query.query h w.

Ltac pure_step :=
  rewrite (reader_mbind_returned X11Query.query h w s _ _ still)
    by (repeat first
          [ solve [ auto using x11_lookup_reader_query with readers ]
          | reader_step ]).

Lemma x11_collect_infos windows acc :
  returned (run h (X11.collect windows acc s) w)
  = (acc ++ X11Query.infos h w s windows)%list.
Proof.
  revert acc. induction windows as [| win rest IH]; intro acc.
  - simpl. rewrite app_nil_r. reflexivity.
  - cbn [X11.collect X11Query.infos]. pure_step.
    destruct (ok (returned (run h (X11.GetWindowInfo win s) w))).
    + rewrite IH. rewrite <- app_assoc. reflexivity.
    + apply IH.
Qed.

Lemma x11_visit_each_walk {V} (cb : V -> WindowInfo -> bool * V)
      windows v seen :
  returned (run h (X11.visit_each cb windows v seen s) w)
  = (fst (walk cb v (X11Query.infos h w s windows)),
     (seen ++ snd (walk cb v (X11Query.infos h w s windows)))%list).
Proof.
  revert v seen. induction windows as [| win rest IH]; intros v seen.
  - simpl. rewrite app_nil_r. reflexivity.
  - cbn [X11.visit_each X11Query.infos]. pure_step.
    destruct (ok (returned (run h (X11.GetWindowInfo win s) w))).
    + cbn [walk].
      destruct (cb v (value (returned (run h (X11.GetWindowInfo win s) w))))
        as [[|] v']; cbn [negb].
      * rewrite IH.
        destruct (walk cb v' (X11Query.infos h w s rest)) as [v'' seen'].
        cbn. rewrite <- app_assoc. reflexivity.
      * reflexivity.
    + apply IH.
Qed.

Lemma x11_visit_each_reader {V} (cb : V -> WindowInfo -> bool * V)
      windows v seen :
  reader X11Query.query (X11.visit_each cb windows v seen).
Proof.
  revert v seen. induction windows as [| win rest IH]; intros v seen;
    simpl; reader_tac.
Qed.

Lemma x11_GetAllWindows_infos :
  returned (run h (X11.GetAllWindows s) w)
  = if X11.initialized s
    then X11Query.infos h w s (returned (run h (X11.GetClientList s) w))
    else [].
Proof.
  unfold X11.GetAllWindows. pure_step.
  rewrite run_get. cbn [returned result fst].
  destruct (X11.initialized s); cbn [negb]; [| reflexivity].
  pure_step. apply x11_collect_infos.
Qed.

Lemma x11_EnumerateWindows_walk {V} (cb : V -> WindowInfo -> bool * V)
      (v : V) :
  returned (run h (X11.EnumerateWindows cb v s) w)
  = walk cb v (returned (run h (X11.GetAllWindows s) w))
  /\ object (run h (X11.EnumerateWindows cb v s) w) = s.
Proof.
  split.
  - rewrite x11_GetAllWindows_infos.
    unfold X11.EnumerateWindows. pure_step.
    rewrite run_get. cbn [returned result fst].
    destruct (X11.initialized s); cbn [negb]; [| reflexivity].
    pure_step. rewrite x11_visit_each_walk. cbn [app].
    destruct (walk cb v _); reflexivity.
  - apply (asking_run X11Query.query h w s _ still).
    assert (R : reader X11Query.query (X11.EnumerateWindows cb v)).
    { unfold X11.EnumerateWindows.
      repeat first
        [ solve [ auto using x11_lookup_reader_query,
                    x11_visit_each_reader with readers ]
        | reader_step ]. }
    apply R.
Qed.



End X11Frozen.

(** ** Win32, macOS and the inert backend: search by title *)



Lemma macos_GetAllWindows_object {W}
      (h : Handler MacOS.Api.Call MacOS.Api.Answer W) (w : W) (s : MacOS.St) :
  m_initialized s = true ->
  object (run h (MacOS.GetAllWindows s) w) = s.
Proof.
  intro Hi. unfold MacOS.GetAllWindows, MacOS.call. unfold_monad. simpl.
  rewrite Hi. simpl.
  match goal with
  | |- context [h ?c w] => destruct (h c w) as [[l |] w']
  end; reflexivity.
Qed.

Lemma macos_EnumerateWindows_walk {V W}
      (h : Handler MacOS.Api.Call MacOS.Api.Answer W) (w : W) (s : MacOS.St)
      (cb : V -> WindowInfo -> bool * V) (v : V) :
  returned (run h (MacOS.EnumerateWindows cb v s) w)
  = walk cb v (returned (run h (MacOS.GetAllWindows s) w))
  /\ object (run h (MacOS.EnumerateWindows cb v s) w) = s.
Proof.
  unfold MacOS.EnumerateWindows.
  rewrite run_mbind, run_get. cbn [returned object result world fst snd].
  destruct (m_initialized s) eqn:Hi; cbn [negb].
  - rewrite run_mbind, run_ret.
    cbn [returned object result world fst snd].
    rewrite macos_visit_each_walk. cbn [app].
    split; [destruct (walk cb v _); reflexivity |].
    apply macos_GetAllWindows_object. exact Hi.
  - unfold MacOS.GetAllWindows.
    rewrite run_mbind, run_get. cbn [returned object result world fst snd].
    rewrite Hi. split; reflexivity.
Qed.

(** ** Substrings *)




(* ================================================================== *)
(** * The two claims about enumeration *)
(* ================================================================== *)

(** C4.  A visitor is a function with a state of its own.  On every
    backend, on a desktop that does not change while it is being queried,
    [EnumerateWindows] leaves the visitor in the state, and has invoked it
    on the windows, of the reference walk over what [GetAllWindows]
    returns on that desktop: the same windows in the same order, up to and
    including the first one on which the visitor answers [false].  The
    backend object comes back as it was, so no error is recorded.  The
    last conjunct is the particular case: a visitor that answers [false]
    on its first window is invoked on that window alone. *)
Theorem enumerate_walks_all_windows :
  forall (V W1 W2 W3 W4 : Type)
         (h1 : Handler Win32.Api.Call Win32.Api.Answer W1) (w1 : W1)
         (h2 : Handler X11.Api.Call X11.Api.Answer W2) (w2 : W2)
         (h3 : Handler MacOS.Api.Call MacOS.Api.Answer W3) (w3 : W3)
         (h4 : Handler Stub.Api.Call Stub.Api.Answer W4) (w4 : W4)
         (s1 : Win32.St) (s2 : X11.St) (s3 : MacOS.St) (s4 : Stub.St)
         (visit : V -> WindowInfo -> bool * V) (v : V),
    frozen Win32Query.query h1 w1 ->
    frozen X11Query.query h2 w2 ->
    (returned (run h1 (Win32.EnumerateWindows visit v s1) w1)
     = walk visit v (returned (run h1 (Win32.GetAllWindows s1) w1))
     /\ object (run h1 (Win32.EnumerateWindows visit v s1) w1) = s1)
    /\ (returned (run h2 (X11.EnumerateWindows visit v s2) w2)
        = walk visit v (returned (run h2 (X11.GetAllWindows s2) w2))
        /\ object (run h2 (X11.EnumerateWindows visit v s2) w2) = s2)
    /\ (returned (run h3 (MacOS.EnumerateWindows visit v s3) w3)
        = walk visit v (returned (run h3 (MacOS.GetAllWindows s3) w3))
        /\ object (run h3 (MacOS.EnumerateWindows visit v s3) w3) = s3)
    /\ (returned (run h4 (Stub.EnumerateWindows visit v s4) w4)
        = walk visit v (returned (run h4 (Stub.GetAllWindows s4) w4))
        /\ object (run h4 (Stub.EnumerateWindows visit v s4) w4) = s4)
    /\ (forall (i : WindowInfo) (l : list WindowInfo),
          fst (visit v i) = false -> snd (walk visit v (i :: l)) = [i]).
Proof.
  intros V W1 W2 W3 W4 h1 w1 h2 w2 h3 w3 h4 w4 s1 s2 s3 s4 visit v F1 F2.
  split; [| split; [| split; [| split]]].
  - apply win32_EnumerateWindows_walk. exact F1.
  - apply x11_EnumerateWindows_walk. exact F2.
  - apply macos_EnumerateWindows_walk.
  - split; reflexivity.
  - intros i l. apply walk_first_false.
Qed.

Lemma x11_desk_is_frozen : frozen X11Query.query X11Desk.handler X11Desk.desk.
Proof. intros c H. destruct c; try contradiction; reflexivity. Qed.

Lemma win32_desk_is_frozen :
  frozen Win32Query.query Win32Desk.handler Win32Desk.desk.
Proof. intros c H. reflexivity. Qed.

Lemma enumerate_walks_all_windows_witness :
  (returned (run Win32Desk.handler
                 (Win32.EnumerateWindows stop_at_once 0%nat Win32Desk.ready)
                 Win32Desk.desk)
   = walk stop_at_once 0%nat
          (returned (run Win32Desk.handler (Win32.GetAllWindows Win32Desk.ready)
                         Win32Desk.desk))
   /\ object (run Win32Desk.handler
                  (Win32.EnumerateWindows stop_at_once 0%nat Win32Desk.ready)
                  Win32Desk.desk) = Win32Desk.ready)
  /\ (returned (run X11Desk.handler
                    (X11.EnumerateWindows stop_at_once 0%nat X11Desk.ready)
                    X11Desk.desk)
      = walk stop_at_once 0%nat
             (returned (run X11Desk.handler (X11.GetAllWindows X11Desk.ready)
                            X11Desk.desk))
      /\ object (run X11Desk.handler
                     (X11.EnumerateWindows stop_at_once 0%nat X11Desk.ready)
                     X11Desk.desk) = X11Desk.ready)
  /\ (returned (run MacOSDesk.handler
                    (MacOS.EnumerateWindows stop_at_once 0%nat MacOSDesk.ready)
                    MacOSDesk.desk)
      = walk stop_at_once 0%nat
             (returned (run MacOSDesk.handler
                            (MacOS.GetAllWindows MacOSDesk.ready)
                            MacOSDesk.desk))
      /\ object (run MacOSDesk.handler
                     (MacOS.EnumerateWindows stop_at_once 0%nat MacOSDesk.ready)
                     MacOSDesk.desk) = MacOSDesk.ready)
  /\ (returned (run no_calls
                    (Stub.EnumerateWindows stop_at_once 0%nat ImplBase_new) tt)
      = walk stop_at_once 0%nat
             (returned (run no_calls (Stub.GetAllWindows ImplBase_new) tt))
      /\ object (run no_calls
                     (Stub.EnumerateWindows stop_at_once 0%nat ImplBase_new)
                     tt) = ImplBase_new)
  /\ (forall (i : WindowInfo) (l : list WindowInfo),
        fst (stop_at_once 0%nat i) = false ->
        snd (walk stop_at_once 0%nat (i :: l)) = [i]).
Proof.
  apply (enumerate_walks_all_windows
           nat Win32Desk.Desk X11Desk.Desk MacOSDesk.Desk unit
           Win32Desk.handler Win32Desk.desk X11Desk.handler X11Desk.desk
           MacOSDesk.handler MacOSDesk.desk no_calls tt
           Win32Desk.ready X11Desk.ready MacOSDesk.ready ImplBase_new
           stop_at_once 0%nat).
  - exact win32_desk_is_frozen.
  - exact x11_desk_is_frozen.
Defined.



(* ================================================================== *)
(** * Further properties: lifetime *)
(* ================================================================== *)

(** X1.  [Shutdown] always leaves the backend uninitialised and a second
    [Shutdown] changes nothing and issues no native call.  On Win32 and
    macOS the first one issues no native call either; on X11 it closes the
    display connection exactly when there is one, and forgets it. *)
Theorem shutdown_is_idempotent :
  forall (W1 W2 W3 : Type)
         (h1 : Handler Win32.Api.Call Win32.Api.Answer W1) (w1 : W1)
         (h2 : Handler X11.Api.Call X11.Api.Answer W2) (w2 : W2)
         (h3 : Handler MacOS.Api.Call MacOS.Api.Answer W3) (w3 : W3)
         (s1 : Win32.St) (s2 : X11.St) (s3 : MacOS.St),
    (m_initialized (object (run h1 (Win32.Shutdown s1) w1)) = false
     /\ log (run h1 (Win32.Shutdown s1) w1) = []
     /\ run h1 (Win32.Shutdown (object (run h1 (Win32.Shutdown s1) w1))) w1
        = mkOutcome (tt, object (run h1 (Win32.Shutdown s1) w1)) w1 [])
    /\ (X11.initialized (object (run h2 (X11.Shutdown s2) w2)) = false
        /\ X11.m_display (object (run h2 (X11.Shutdown s2) w2)) = 0
        /\ calls (log (run h2 (X11.Shutdown s2) w2))
           = (if X11.m_display s2 =? 0 then []
              else [X11.Api.XCloseDisplay (X11.m_display s2)])
        /\ run h2 (X11.Shutdown (object (run h2 (X11.Shutdown s2) w2)))
               (world (run h2 (X11.Shutdown s2) w2))
           = mkOutcome (tt, object (run h2 (X11.Shutdown s2) w2))
                       (world (run h2 (X11.Shutdown s2) w2)) [])
    /\ (m_initialized (object (run h3 (MacOS.Shutdown s3) w3)) = false
        /\ log (run h3 (MacOS.Shutdown s3) w3) = []
        /\ run h3 (MacOS.Shutdown (object (run h3 (MacOS.Shutdown s3) w3))) w3
           = mkOutcome (tt, object (run h3 (MacOS.Shutdown s3) w3)) w3 []).
Proof.
  intros W1 W2 W3 h1 w1 h2 w2 h3 w3 s1 s2 s3.
  split; [| split].
  - repeat split.
  - unfold X11.Shutdown, X11.call, X11.initialized. unfold_monad.
    destruct s2 as [b d r a]. simpl.
    destruct (d =? 0) eqn:Hd; simpl.
    + apply Z.eqb_eq in Hd. subst d. simpl. repeat split.
    + repeat split.
  - repeat split.
Qed.

(** X2.  [Initialize] on an uninitialised X11 backend opens the display.
    When the display cannot be opened it returns [false], stays
    uninitialised, stores the text "Failed to open X11 display" and has
    issued no other call.  Otherwise it returns [true], is initialised,
    keeps the connection, leaves the last error alone, and has asked for
    the root window and interned the seventeen atoms, each created if
    absent. *)
Theorem x11_initialize_outcomes :
  forall (W : Type) (h : Handler X11.Api.Call X11.Api.Answer W) (w : W)
         (s : X11.St),
    X11.initialized s = false ->
    if fst (h X11.Api.XOpenDisplay w) =? 0
    then returned (run h (X11.Initialize s) w) = false
         /\ X11.initialized (object (run h (X11.Initialize s) w)) = false
         /\ m_lastError (X11.base (object (run h (X11.Initialize s) w)))
            = "Failed to open X11 display"
         /\ calls (log (run h (X11.Initialize s) w)) = [X11.Api.XOpenDisplay]
    else returned (run h (X11.Initialize s) w) = true
         /\ X11.initialized (object (run h (X11.Initialize s) w)) = true
         /\ X11.m_display (object (run h (X11.Initialize s) w))
            = fst (h X11.Api.XOpenDisplay w)
         /\ m_lastError (X11.base (object (run h (X11.Initialize s) w)))
            = m_lastError (X11.base s)
         /\ calls (log (run h (X11.Initialize s) w))
            = X11.Api.XOpenDisplay
              :: X11.Api.DefaultRootWindow (fst (h X11.Api.XOpenDisplay w))
              :: map (fun name =>
                        X11.Api.XInternAtom (fst (h X11.Api.XOpenDisplay w))
                                            name false)
                     interned_names.
Proof.
  intros W h w s Hi.
  unfold X11.Initialize, X11.InitializeAtoms, X11.SetLastError, X11.call,
    X11.initialized in *.
  unfold_monad. simpl. rewrite Hi. simpl.
  destruct (h X11.Api.XOpenDisplay w) as [d w1]. simpl.
  destruct (d =? 0); simpl; repeat split; exact Hi.
Qed.

Lemma x11_initialize_outcomes_witness :
  X11.initialized X11.St_new = false
  /\ if fst (X11Desk.handler X11.Api.XOpenDisplay X11Desk.desk) =? 0
     then returned (run X11Desk.handler (X11.Initialize X11.St_new)
                        X11Desk.desk) = false
          /\ X11.initialized
               (object (run X11Desk.handler (X11.Initialize X11.St_new)
                            X11Desk.desk)) = false
          /\ m_lastError
               (X11.base (object (run X11Desk.handler
                                      (X11.Initialize X11.St_new)
                                      X11Desk.desk)))
             = "Failed to open X11 display"
          /\ calls (log (run X11Desk.handler (X11.Initialize X11.St_new)
                             X11Desk.desk)) = [X11.Api.XOpenDisplay]
     else returned (run X11Desk.handler (X11.Initialize X11.St_new)
                        X11Desk.desk) = true
          /\ X11.initialized
               (object (run X11Desk.handler (X11.Initialize X11.St_new)
                            X11Desk.desk)) = true
          /\ X11.m_display
               (object (run X11Desk.handler (X11.Initialize X11.St_new)
                            X11Desk.desk))
             = fst (X11Desk.handler X11.Api.XOpenDisplay X11Desk.desk)
          /\ m_lastError
               (X11.base (object (run X11Desk.handler
                                      (X11.Initialize X11.St_new)
                                      X11Desk.desk)))
             = m_lastError (X11.base X11.St_new)
          /\ calls (log (run X11Desk.handler (X11.Initialize X11.St_new)
                             X11Desk.desk))
             = X11.Api.XOpenDisplay
               :: X11.Api.DefaultRootWindow
                    (fst (X11Desk.handler X11.Api.XOpenDisplay X11Desk.desk))
               :: map (fun name =>
                         X11.Api.XInternAtom
                           (fst (X11Desk.handler X11.Api.XOpenDisplay
                                                 X11Desk.desk))
                           name false)
                      interned_names.
Proof.
  split; [reflexivity |].
  apply (x11_initialize_outcomes X11Desk.Desk X11Desk.handler X11Desk.desk
                                 X11.St_new).
  reflexivity.
Defined.

Lemma open_displays_app open l1 l2 :
  open_displays open (l1 ++ l2)
  = open_displays (open_displays open l1) l2.
Proof. unfold open_displays. apply fold_left_app. Qed.

(** One cycle from any object: nothing stays open, and the object ends
    uninitialised without a display. *)
Lemma x11_one_cycle {W} (h : Handler X11.Api.Call X11.Api.Answer W) (w : W)
      (s : X11.St) :
  open_displays []
    (log (run h ((X11.Initialize ;;; X11.Shutdown) s) w)) = []
  /\ X11.initialized
       (object (run h ((X11.Initialize ;;; X11.Shutdown) s) w)) = false
  /\ X11.m_display
       (object (run h ((X11.Initialize ;;; X11.Shutdown) s) w)) = 0.
Proof.
  unfold X11.Initialize, X11.Shutdown, X11.InitializeAtoms, X11.SetLastError,
    X11.call, X11.initialized in *.
  unfold_monad. destruct s as [[i e] d r a]. simpl.
  destruct i; simpl.
  - destruct (d =? 0) eqn:Hd; simpl; repeat split.
    apply Z.eqb_eq in Hd. exact Hd.
  - destruct (h X11.Api.XOpenDisplay w) as [d' w1]. simpl.
    destruct (d' =? 0) eqn:Hd; simpl; rewrite ?Hd; simpl.
    + apply Z.eqb_eq in Hd. subst d'. repeat split.
    + unfold open_displays. simpl. rewrite ?Hd, Z.eqb_refl. repeat split.
Qed.

(** X3.  Whatever the system answers, [n] initialise/shut-down cycles of
    the X11 backend leave no display connection open: every connection
    that [XOpenDisplay] handed out has been passed to [XCloseDisplay]. *)
Theorem x11_cycles_leak_no_display :
  forall (n : nat) (W : Type) (h : Handler X11.Api.Call X11.Api.Answer W)
         (w : W) (s : X11.St),
    open_displays [] (log (run h (init_shutdown_cycles n s) w)) = [].
Proof.
  induction n as [| n IH]; intros W h w s.
  - reflexivity.
  - change (init_shutdown_cycles (S n))
      with (mbind X11.Initialize
              (fun _ => mbind X11.Shutdown
                          (fun _ => init_shutdown_cycles n))).
    pose proof (x11_one_cycle h w s) as [C _].
    rewrite run_mbind in C. cbn [log] in C.
    rewrite open_displays_app in C.
    rewrite run_mbind. cbn [log]. rewrite open_displays_app.
    set (o1 := run h (X11.Initialize s) w) in *.
    rewrite run_mbind. cbn [log]. rewrite open_displays_app.
    rewrite C. apply IH.
Qed.

(** X4.  Destroying the facade over the X11 backend, initialised or not,
    closes the display connection exactly once when there is one and not
    at all otherwise, although [Shutdown] may run twice (once from the
    facade's destructor and once from the backend's). *)
Theorem facade_destructor_closes_display_once :
  forall (W : Type) (h : Handler X11.Api.Call X11.Api.Answer W) (w : W)
         (s : X11.St),
    calls (log (run h (WindowManager_Linux_destructor s) w))
    = (if X11.m_display s =? 0 then []
       else [X11.Api.XCloseDisplay (X11.m_display s)])
    /\ X11.initialized (object (run h (WindowManager_Linux_destructor s) w))
       = false
    /\ X11.m_display (object (run h (WindowManager_Linux_destructor s) w))
       = 0.
Proof.
  intros W h w s.
  unfold WindowManager_Linux_destructor, WindowManager.destructor,
    Destructor.WindowManagerLinux, X11.IsInitialized, X11.Shutdown, X11.call,
    X11.initialized.
  unfold_monad. destruct s as [[i e] d r a]. simpl.
  destruct i; simpl; destruct (d =? 0) eqn:Hd; simpl; rewrite ?Hd; simpl;
    repeat split; apply Z.eqb_eq in Hd; exact Hd.
Qed.

(* ================================================================== *)
(** * Further properties: the state bit set *)
(* ================================================================== *)

Lemma has_flag_or a b f :
  HasFlag (WindowState_or a b) f = HasFlag a f || HasFlag b f.
Proof.
  unfold HasFlag, WindowState_or. rewrite Z.land_lor_distr_l.
  destruct (Z.land a f =? 0) eqn:Ha; destruct (Z.land b f =? 0) eqn:Hb;
    cbn [negb orb].
  - apply Z.eqb_eq in Ha, Hb. rewrite Ha, Hb. reflexivity.
  - apply Z.eqb_eq in Ha. rewrite Ha. cbn [Z.lor]. rewrite Hb. reflexivity.
  - apply Z.eqb_neq in Ha.
    assert (N : Z.lor (Z.land a f) (Z.land b f) <> 0).
    { intro E. apply Z.lor_eq_0_iff in E. tauto. }
    apply Z.eqb_neq in N. rewrite N. reflexivity.
  - apply Z.eqb_neq in Ha.
    assert (N : Z.lor (Z.land a f) (Z.land b f) <> 0).
    { intro E. apply Z.lor_eq_0_iff in E. tauto. }
    apply Z.eqb_neq in N. rewrite N. reflexivity.
Qed.

(** X5.  [HasFlag] over [operator|]: a flag is in a union exactly when
    it is in one of the two sides, for all values of the underlying
    integer, and it is never in [Normal]. *)
Theorem has_flag_of_union :
  forall a b f : WindowState,
    HasFlag (WindowState_or a b) f = HasFlag a f || HasFlag b f
    /\ HasFlag WindowState.Normal f = false.
Proof.
  intros a b f. split; [apply has_flag_or | reflexivity].
Qed.

Lemma win32_has_flag_add c flag st f :
  HasFlag (Win32.add_flag c flag st) f = (c && HasFlag flag f) || HasFlag st f.
Proof.
  unfold Win32.add_flag. destruct c; cbn [andb orb]; [| reflexivity].
  rewrite has_flag_or. apply orb_comm.
Qed.

Lemma x11_has_flag_add c flag st f :
  HasFlag (X11.add_flag c flag st) f = (c && HasFlag flag f) || HasFlag st f.
Proof.
  unfold X11.add_flag. destruct c; cbn [andb orb]; [| reflexivity].
  rewrite has_flag_or. apply orb_comm.
Qed.

(** Evaluate [HasFlag] on the named constants of the enumeration. *)
Ltac flag_constants :=
  repeat match goal with
         | |- context [HasFlag ?a ?b] =>
             let a' := eval hnf in a in
             let b' := eval hnf in b in
             match a' with
             | Z0 => idtac | Zpos _ => idtac
             end;
             match b' with
             | Z0 => idtac | Zpos _ => idtac
             end;
             let v := eval vm_compute in (HasFlag a b) in
             change (HasFlag a b) with v
         end;
  rewrite ?andb_false_r, ?andb_true_r, ?orb_false_r, ?orb_false_l.

(** On a frozen desktop every query leaves the desktop as it is. *)
Ltac ask still :=
  match goal with
  | |- context [?h ?c ?w0] =>
      match type of still with frozen _ h w0 => idtac end;
      let a := fresh "a" in
      let w' := fresh "w" in
      let E := fresh "E" in
      let S := fresh "S" in
      pose proof (still c I) as S;
      destruct (h c w0) as [a w'] eqn:E; cbn [fst snd] in S |- *; subst w'
  end.

Section Win32State.
Context {W : Type}.
Variable h : Handler Win32.Api.Call Win32.Api.Answer W.
Variable w : W.
Variable s : Win32.St.
Hypothesis still : frozen Win32Query.query h w.

Lemma win32_GetWindowState_value hwnd :
  ok (returned (run h (Win32.GetWindowState hwnd s) w)) = true ->
  value (returned (run h (Win32.GetWindowState hwnd s) w))
  = Win32.add_flag (fst (h Win32.Api.GetForegroundWindow w) =? hwnd)
      WindowState.Focused
      (Win32.add_flag
         (negb (Z.land (fst (h (Win32.Api.GetWindowLongW hwnd
                                  Win32.GWL_EXSTYLE) w))
                       Win32.WS_EX_TOPMOST =? 0))
         WindowState.AlwaysOnTop
         (Win32.add_flag
            (negb (fst (h (Win32.Api.IsWindowVisible hwnd) w)))
            WindowState.Hidden
            (Win32.add_flag (fst (h (Win32.Api.IsZoomed hwnd) w))
               WindowState.Maximized
               (Win32.add_flag (fst (h (Win32.Api.IsIconic hwnd) w))
                  WindowState.Minimized WindowState.Normal)))).
Proof.
  unfold Win32.GetWindowState, Win32.call. unfold_monad. simpl.
  destruct (m_initialized s); simpl; [| intro H; cbv in H; discriminate H].
  ask still.
  destruct a; simpl; [| intro H; cbv in H; discriminate H].
  intros _.
  repeat (ask still; simpl).
  reflexivity.
Qed.
End Win32State.

(** X6.  On a desktop that the Win32 queries leave unchanged, a state
    that [GetWindowState] reports decodes bit by bit into the answers of
    the system: minimised is [IsIconic], maximised is [IsZoomed], hidden
    is the negation of [IsWindowVisible], always-on-top is the
    [WS_EX_TOPMOST] bit of the extended style, focused is the foreground
    window being this one; fullscreen is never reported. *)
Theorem win32_state_bits :
  forall (W : Type) (h : Handler Win32.Api.Call Win32.Api.Answer W) (w : W)
         (s : Win32.St) (hwnd : NativeHandle),
    frozen Win32Query.query h w ->
    ok (returned (run h (Win32.GetWindowState hwnd s) w)) = true ->
    let st := value (returned (run h (Win32.GetWindowState hwnd s) w)) in
    HasFlag st WindowState.Minimized = fst (h (Win32.Api.IsIconic hwnd) w)
    /\ HasFlag st WindowState.Maximized
       = fst (h (Win32.Api.IsZoomed hwnd) w)
    /\ HasFlag st WindowState.Hidden
       = negb (fst (h (Win32.Api.IsWindowVisible hwnd) w))
    /\ HasFlag st WindowState.AlwaysOnTop
       = negb (Z.land (fst (h (Win32.Api.GetWindowLongW hwnd
                                 Win32.GWL_EXSTYLE) w))
                      Win32.WS_EX_TOPMOST =? 0)
    /\ HasFlag st WindowState.Focused
       = (fst (h Win32.Api.GetForegroundWindow w) =? hwnd)
    /\ HasFlag st WindowState.Fullscreen = false.
Proof.
  intros W h w s hwnd still Hok st. subst st.
  rewrite (win32_GetWindowState_value h w s still hwnd Hok).
  rewrite !win32_has_flag_add.
  repeat split; flag_constants; reflexivity.
Qed.

Lemma win32_state_bits_witness :
  frozen Win32Query.query Win32Desk.handler Win32Desk.desk
  /\ ok (returned (run Win32Desk.handler
                       (Win32.GetWindowState 100 Win32Desk.ready)
                       Win32Desk.desk)) = true
  /\ HasFlag (value (returned (run Win32Desk.handler
                                   (Win32.GetWindowState 100 Win32Desk.ready)
                                   Win32Desk.desk)))
             WindowState.Fullscreen = false.
Proof.
  split; [apply win32_desk_is_frozen |]. split; [reflexivity |].
  apply (win32_state_bits Win32Desk.Desk Win32Desk.handler Win32Desk.desk
                          Win32Desk.ready 100);
    [apply win32_desk_is_frozen | reflexivity].
Defined.

Section X11State.
Context {W : Type}.
Variable h : Handler X11.Api.Call X11.Api.Answer W.
Variable w : W.
Variable s : X11.St.
Hypothesis still : frozen X11Query.query h w.

Ltac pure_step :=
  rewrite (reader_mbind_returned X11Query.query h w s _ _ still)
    by (repeat first
          [ solve [ auto using x11_lookup_reader_query with readers ]
          | reader_step ]).

Lemma x11_query_state_value window :
  returned (run h (X11.query_state window s) w)
  = X11.add_flag (returned (run h (X11.GetFocusedWindow s) w) =? window)
      WindowState.Focused
      (X11.add_flag
         (in_wm_state h w s window (X11.m_atomNetWmStateAbove (X11.atoms s)))
         WindowState.AlwaysOnTop
         (X11.add_flag
            (in_wm_state h w s window
                         (X11.m_atomNetWmStateFullscreen (X11.atoms s)))
            WindowState.Fullscreen
            (X11.add_flag
               (in_wm_state h w s window
                            (X11.m_atomNetWmStateMaximizedVert (X11.atoms s))
                && in_wm_state h w s window
                     (X11.m_atomNetWmStateMaximizedHorz (X11.atoms s)))
               WindowState.Maximized
               (X11.add_flag
                  (in_wm_state h w s window
                               (X11.m_atomNetWmStateHidden (X11.atoms s)))
                  WindowState.Minimized WindowState.Normal)))).
Proof.
  unfold X11.query_state, in_wm_state. pure_step.
  rewrite run_get. cbn [returned result fst].
  do 2 pure_step.
  destruct (returned (run h (X11.HasWmState window
              (X11.m_atomNetWmStateMaximizedVert (X11.atoms s)) s) w));
    cbn [andb]; do 4 pure_step; reflexivity.
Qed.

Lemma x11_GetWindowState_value window :
  ok (returned (run h (X11.GetWindowState window s) w)) = true ->
  value (returned (run h (X11.GetWindowState window s) w))
  = returned (run h (X11.query_state window s) w).
Proof.
  unfold X11.GetWindowState. pure_step.
  rewrite run_get. cbn [returned result fst].
  destruct (X11.initialized s); cbn [negb]; [| discriminate].
  pure_step.
  destruct (returned (run h (X11.IsValidWindow window s) w)); cbn [negb];
    [| discriminate].
  intros _. pure_step. reflexivity.
Qed.
End X11State.

(** X7.  On a desktop that the X11 queries leave unchanged, a state that
    [GetWindowState] reports decodes bit by bit: minimised is
    [_NET_WM_STATE_HIDDEN] being listed in the window's [_NET_WM_STATE],
    maximised needs both the vertical and the horizontal atom,
    fullscreen and always-on-top are their atoms, focused is the active
    window being this one; the hidden bit is never reported. *)
Theorem x11_state_bits :
  forall (W : Type) (h : Handler X11.Api.Call X11.Api.Answer W) (w : W)
         (s : X11.St) (window : NativeHandle),
    frozen X11Query.query h w ->
    ok (returned (run h (X11.GetWindowState window s) w)) = true ->
    let st := value (returned (run h (X11.GetWindowState window s) w)) in
    let listed := in_wm_state h w s window in
    HasFlag st WindowState.Minimized
    = listed (X11.m_atomNetWmStateHidden (X11.atoms s))
    /\ HasFlag st WindowState.Maximized
       = listed (X11.m_atomNetWmStateMaximizedVert (X11.atoms s))
         && listed (X11.m_atomNetWmStateMaximizedHorz (X11.atoms s))
    /\ HasFlag st WindowState.Fullscreen
       = listed (X11.m_atomNetWmStateFullscreen (X11.atoms s))
    /\ HasFlag st WindowState.AlwaysOnTop
       = listed (X11.m_atomNetWmStateAbove (X11.atoms s))
    /\ HasFlag st WindowState.Focused
       = (returned (run h (X11.GetFocusedWindow s) w) =? window)
    /\ HasFlag st WindowState.Hidden = false.
Proof.
  intros W h w s window still Hok st listed. subst st listed.
  rewrite (x11_GetWindowState_value h w s still window Hok).
  rewrite (x11_query_state_value h w s still).
  rewrite !x11_has_flag_add.
  repeat split; flag_constants; reflexivity.
Qed.

Lemma x11_state_bits_witness :
  frozen X11Query.query X11Desk.handler X11Desk.desk
  /\ ok (returned (run X11Desk.handler (X11.GetWindowState 12 X11Desk.ready)
                       X11Desk.desk)) = true
  /\ HasFlag (value (returned (run X11Desk.handler
                                   (X11.GetWindowState 12 X11Desk.ready)
                                   X11Desk.desk)))
             WindowState.Hidden = false.
Proof.
  split; [apply x11_desk_is_frozen |]. split; [reflexivity |].
  apply (x11_state_bits X11Desk.Desk X11Desk.handler X11Desk.desk
                        X11Desk.ready 12);
    [apply x11_desk_is_frozen | reflexivity].
Defined.

(** ** macOS *)

Lemma macos_read_dict_state window info :
  state (MacOS.read_dict window info) = state info.
Proof.
  unfold MacOS.read_dict.
  destruct (MacOS.kCGWindowName window), (MacOS.kCGWindowOwnerName window),
    (MacOS.kCGWindowBounds window); reflexivity.
Qed.

Lemma macos_read_dict_handle window info :
  handle (MacOS.read_dict window info) = handle info.
Proof.
  unfold MacOS.read_dict.
  destruct (MacOS.kCGWindowName window), (MacOS.kCGWindowOwnerName window),
    (MacOS.kCGWindowBounds window); reflexivity.
Qed.

Lemma macos_read_dict_names window info :
  className info = processName info ->
  className (MacOS.read_dict window info)
  = processName (MacOS.read_dict window info).
Proof.
  unfold MacOS.read_dict. intro E.
  destruct (MacOS.kCGWindowName window), (MacOS.kCGWindowOwnerName window),
    (MacOS.kCGWindowBounds window); simpl; auto.
Qed.

Lemma macos_collect_invariant windows acc :
  Forall (fun info => state info = WindowState.Normal
                      /\ title info <> ""
                      /\ className info = processName info) acc ->
  Forall (fun info => state info = WindowState.Normal
                      /\ title info <> ""
                      /\ className info = processName info)
         (MacOS.collect windows acc).
Proof.
  revert acc. induction windows as [| window rest IH]; intros acc Hacc.
  - exact Hacc.
  - cbn [MacOS.collect].
    destruct (title (MacOS.read_dict window
                (with_handle WindowInfo_default
                   (MacOS.unsignedIntValue (MacOS.kCGWindowNumber window)))))
      eqn:Ht; cbn [MacOS.is_empty negb].
    + apply IH. exact Hacc.
    + apply IH. apply Forall_app. split; [exact Hacc |].
      constructor; [| constructor].
      rewrite macos_read_dict_state, Ht. repeat split.
      * discriminate.
      * apply macos_read_dict_names. reflexivity.
Qed.

(** X8.  What the macOS [GetAllWindows] reports, whatever the window
    list holds: every window has a title that is not empty, its class
    name is its process name (both are the owner's name), and its state
    is [Normal], also for a window that is not on screen. *)
Theorem macos_all_windows_invariants :
  forall (W : Type) (h : Handler MacOS.Api.Call MacOS.Api.Answer W) (w : W)
         (s : MacOS.St),
    Forall (fun info => state info = WindowState.Normal
                        /\ title info <> ""
                        /\ className info = processName info)
           (returned (run h (MacOS.GetAllWindows s) w)).
Proof.
  intros W h w s.
  unfold MacOS.GetAllWindows, MacOS.SetLastError, MacOS.call.
  unfold_monad. simpl.
  destruct (m_initialized s); simpl; [| constructor].
  match goal with
  | |- context [h ?c w] => destruct (h c w) as [[l |] w']
  end; simpl; [| constructor].
  apply macos_collect_invariant. constructor.
Qed.

Lemma macos_info_state {W}
      (h : Handler MacOS.Api.Call MacOS.Api.Answer W) (w : W) (s : MacOS.St)
      (handle' : NativeHandle) :
  ok (returned (run h (MacOS.GetWindowInfo handle' s) w)) = true ->
  handle (value (returned (run h (MacOS.GetWindowInfo handle' s) w)))
  = handle'
  /\ state (value (returned (run h (MacOS.GetWindowInfo handle' s) w)))
     = (if isVisible (value (returned (run h (MacOS.GetWindowInfo handle' s)
                                           w)))
        then WindowState.Normal else WindowState.Hidden).
Proof.
  unfold MacOS.GetWindowInfo, MacOS.call. unfold_monad. simpl.
  destruct (m_initialized s); simpl; [| intro H; cbv in H; discriminate H].
  match goal with
  | |- context [h ?c w] => destruct (h c w) as [[[| window l] |] w']
  end; simpl; try (intro H; cbv in H; discriminate H).
  intros _.
  destruct (MacOS.boolValue (MacOS.kCGWindowIsOnscreen window)) eqn:Hv;
    simpl; rewrite ?Hv; simpl;
    destruct (MacOS.kCGWindowName window), (MacOS.kCGWindowOwnerName window),
      (MacOS.kCGWindowBounds window); repeat split.
Qed.

(** X9.  A successful macOS [GetWindowInfo] carries the handle it was
    asked for, and its state has the hidden bit exactly when the window
    is not on screen and no other bit at all: minimised, maximised,
    fullscreen, focused and always-on-top are never reported. *)
Theorem macos_info_state_is_visibility :
  forall (W : Type) (h : Handler MacOS.Api.Call MacOS.Api.Answer W) (w : W)
         (s : MacOS.St) (handle' : NativeHandle),
    ok (returned (run h (MacOS.GetWindowInfo handle' s) w)) = true ->
    let info := value (returned (run h (MacOS.GetWindowInfo handle' s) w)) in
    handle info = handle'
    /\ state info = (if isVisible info then WindowState.Normal
                     else WindowState.Hidden)
    /\ forall f, HasFlag (state info) f
                 = negb (isVisible info) && HasFlag WindowState.Hidden f.
Proof.
  intros W h w s handle' Hok info. subst info.
  destruct (macos_info_state h w s handle' Hok) as [Hh Hs].
  split; [exact Hh |]. split; [exact Hs |].
  intro f. rewrite Hs.
  destruct (isVisible _); reflexivity.
Qed.

Lemma macos_info_state_is_visibility_witness :
  ok (returned (run MacOSDesk.handler (MacOS.GetWindowInfo 21 MacOSDesk.ready)
                    MacOSDesk.desk)) = true
  /\ handle (value (returned (run MacOSDesk.handler
                                  (MacOS.GetWindowInfo 21 MacOSDesk.ready)
                                  MacOSDesk.desk))) = 21.
Proof.
  split; [reflexivity |].
  apply (macos_info_state_is_visibility MacOSDesk.Desk MacOSDesk.handler
           MacOSDesk.desk MacOSDesk.ready 21).
  reflexivity.
Defined.

(* ================================================================== *)
(** * Further properties: one window, several queries *)
(* ================================================================== *)

Section Win32Fields.
Context {W : Type}.
Variable h : Handler Win32.Api.Call Win32.Api.Answer W.
Variable w : W.
Variable s : Win32.St.
Hypothesis still : frozen Win32Query.query h w.

Ltac pure_step :=
  rewrite (reader_mbind_returned Win32Query.query h w s _ _ still)
    by reader_tac.

(** The fields of a successful [GetWindowInfo] on a frozen desktop. *)
Lemma win32_info_fields hwnd :
  ok (returned (run h (Win32.GetWindowInfo hwnd s) w)) = true ->
  m_initialized s = true
  /\ fst (h (Win32.Api.IsWindow hwnd) w) = true
  /\ handle (value (returned (run h (Win32.GetWindowInfo hwnd s) w))) = hwnd
  /\ title (value (returned (run h (Win32.GetWindowInfo hwnd s) w)))
     = returned (run h (Win32.GetWindowTitleInternal hwnd s) w)
  /\ processId (value (returned (run h (Win32.GetWindowInfo hwnd s) w)))
     = fst (h (Win32.Api.GetWindowThreadProcessId hwnd) w)
  /\ processName (value (returned (run h (Win32.GetWindowInfo hwnd s) w)))
     = returned (run h (Win32.GetProcessNameFromPid
                          (fst (h (Win32.Api.GetWindowThreadProcessId hwnd)
                                  w)) s) w).
Proof.
  unfold Win32.GetWindowInfo, Win32.call. pure_step.
  rewrite run_get. cbn [returned result fst].
  destruct (m_initialized s); cbn [negb];
    [| intro H; cbv in H; discriminate H].
  pure_step. rewrite run_native. cbn [returned result fst].
  destruct (h (Win32.Api.IsWindow hwnd) w) as [[|] w'] eqn:E; cbn [negb fst];
    [| intro H; cbv in H; discriminate H].
  intros _.
  do 10 pure_step. rewrite run_ret, !run_native.
  cbn [returned result fst].
  match goal with
  | |- context [match ?x with Some _ => _ | None => _ end] => destruct x
  end; repeat split.
Qed.

(** The state in a successful [GetWindowInfo] is the state that
    [GetWindowState] reports. *)
Lemma win32_info_state hwnd :
  ok (returned (run h (Win32.GetWindowInfo hwnd s) w)) = true ->
  state (value (returned (run h (Win32.GetWindowInfo hwnd s) w)))
  = value (returned (run h (Win32.GetWindowState hwnd s) w)).
Proof.
  unfold Win32.GetWindowInfo, Win32.GetWindowState, Win32.call.
  do 2 pure_step.
  rewrite run_get. cbn [returned result fst].
  destruct (m_initialized s); cbn [negb];
    [| intro H; cbv in H; discriminate H].
  do 2 pure_step. rewrite run_native. cbn [returned result fst].
  destruct (h (Win32.Api.IsWindow hwnd) w) as [[|] w'] eqn:E; cbn [negb fst];
    [| intro H; cbv in H; discriminate H].
  intros _.
  do 15 pure_step. rewrite !run_ret, !run_native.
  cbn [returned result fst].
  match goal with
  | |- context [match ?x with Some _ => _ | None => _ end] => destruct x
  end; reflexivity.
Qed.

(** The error codes of the single-field queries. *)
Lemma win32_field_errors hwnd :
  error (returned (run h (Win32.GetWindowTitle hwnd s) w))
  = error (returned (run h (Win32.GetWindowInfo hwnd s) w))
  /\ error (returned (run h (Win32.GetWindowProcessId hwnd s) w))
     = error (returned (run h (Win32.GetWindowInfo hwnd s) w))
  /\ error (returned (run h (Win32.GetWindowState hwnd s) w))
     = error (returned (run h (Win32.GetWindowInfo hwnd s) w)).
Proof.
  unfold Win32.GetWindowInfo, Win32.GetWindowState, Win32.GetWindowTitle,
    Win32.GetWindowProcessId, Win32.call.
  do 4 pure_step.
  rewrite run_get. cbn [returned result fst].
  destruct (m_initialized s); cbn [negb]; [| repeat split].
  do 4 pure_step. rewrite run_native. cbn [returned result fst].
  destruct (h (Win32.Api.IsWindow hwnd) w) as [[|] w'] eqn:E; cbn [negb fst];
    [| repeat split].
  do 17 pure_step. rewrite !run_ret. repeat split.
Qed.

Lemma win32_field_values hwnd :
  ok (returned (run h (Win32.GetWindowInfo hwnd s) w)) = true ->
  value (returned (run h (Win32.GetWindowTitle hwnd s) w))
  = title (value (returned (run h (Win32.GetWindowInfo hwnd s) w)))
  /\ value (returned (run h (Win32.GetWindowProcessId hwnd s) w))
     = processId (value (returned (run h (Win32.GetWindowInfo hwnd s) w))).
Proof.
  intro Hok.
  destruct (win32_info_fields hwnd Hok) as (Hi & Hv & _ & Ht & Hp & _).
  rewrite Ht, Hp. clear Ht Hp Hok.
  unfold Win32.GetWindowTitle, Win32.GetWindowProcessId, Win32.call.
  do 2 pure_step.
  rewrite run_get. cbn [returned result fst]. rewrite Hi. cbn [negb].
  do 2 pure_step. rewrite run_native. cbn [returned result fst].
  rewrite Hv. cbn [negb].
  do 2 pure_step. rewrite !run_ret, !run_native. split; reflexivity.
Qed.

Lemma win32_rect_agrees hwnd :
  ok (returned (run h (Win32.GetWindowRect hwnd s) w)) = true ->
  ok (returned (run h (Win32.GetWindowInfo hwnd s) w)) = true
  /\ value (returned (run h (Win32.GetWindowRect hwnd s) w))
     = rect (value (returned (run h (Win32.GetWindowInfo hwnd s) w))).
Proof.
  unfold Win32.GetWindowInfo, Win32.GetWindowRect, Win32.call.
  do 2 pure_step.
  rewrite run_get. cbn [returned result fst].
  destruct (m_initialized s); cbn [negb];
    [| intro H; cbv in H; discriminate H].
  do 2 pure_step. rewrite run_native. cbn [returned result fst].
  destruct (h (Win32.Api.IsWindow hwnd) w) as [[|] w'] eqn:E; cbn [negb fst];
    [| intro H; cbv in H; discriminate H].
  do 11 pure_step. rewrite !run_ret, !run_native.
  cbn [returned result fst].
  destruct (h (Win32.Api.GetWindowRect hwnd) w) as [[rc |] w''] eqn:E';
    cbn [fst].
  - intros _. rewrite run_ret. split; reflexivity.
  - rewrite run_ret. intro H; cbv in H; discriminate H.
Qed.
End Win32Fields.

Section X11Fields.
Context {W : Type}.
Variable h : Handler X11.Api.Call X11.Api.Answer W.
Variable w : W.
Variable s : X11.St.
Hypothesis still : frozen X11Query.query h w.

Ltac pure_step :=
  rewrite (reader_mbind_returned X11Query.query h w s _ _ still)
    by (repeat first
          [ solve [ auto using x11_lookup_reader_query with readers ]
          | reader_step ]).

(** The fields of a successful [GetWindowInfo] on a frozen desktop. *)
Lemma x11_info_fields win :
  ok (returned (run h (X11.GetWindowInfo win s) w)) = true ->
  X11.initialized s = true
  /\ returned (run h (X11.IsValidWindow win s) w) = true
  /\ handle (value (returned (run h (X11.GetWindowInfo win s) w))) = win
  /\ title (value (returned (run h (X11.GetWindowInfo win s) w)))
     = returned (run h (X11.GetWindowTitleInternal win s) w)
  /\ processId (value (returned (run h (X11.GetWindowInfo win s) w)))
     = returned (run h (X11.GetWindowPidInternal win s) w)
  /\ processName (value (returned (run h (X11.GetWindowInfo win s) w)))
     = returned (run h (X11.GetProcessNameFromPid
                          (returned (run h (X11.GetWindowPidInternal win s)
                                         w)) s) w)
  /\ state (value (returned (run h (X11.GetWindowInfo win s) w)))
     = returned (run h (X11.query_state win s) w).
Proof.
  unfold X11.GetWindowInfo. pure_step.
  rewrite run_get. cbn [returned result fst].
  destruct (X11.initialized s); cbn [negb];
    [| intro H; cbv in H; discriminate H].
  pure_step.
  destruct (returned (run h (X11.IsValidWindow win s) w)); cbn [negb];
    [| intro H; cbv in H; discriminate H].
  intros _.
  do 4 pure_step.
  unfold X11.call. pure_step. rewrite run_native.
  cbn [returned result fst].
  destruct (fst (h (X11.Api.XGetWindowAttributes (X11.m_display s) win) w));
    pure_step; pure_step; repeat split.
Qed.

Lemma x11_field_errors win :
  error (returned (run h (X11.GetWindowTitle win s) w))
  = error (returned (run h (X11.GetWindowInfo win s) w))
  /\ error (returned (run h (X11.GetWindowProcessId win s) w))
     = error (returned (run h (X11.GetWindowInfo win s) w))
  /\ error (returned (run h (X11.GetWindowState win s) w))
     = error (returned (run h (X11.GetWindowInfo win s) w)).
Proof.
  unfold X11.GetWindowInfo, X11.GetWindowState, X11.GetWindowTitle,
    X11.GetWindowProcessId.
  do 4 pure_step.
  rewrite run_get. cbn [returned result fst].
  destruct (X11.initialized s); cbn [negb]; [| repeat split].
  do 4 pure_step.
  destruct (returned (run h (X11.IsValidWindow win s) w)); cbn [negb];
    [| repeat split].
  repeat pure_step. rewrite ?run_ret. repeat split.
Qed.

Lemma x11_field_values win :
  ok (returned (run h (X11.GetWindowInfo win s) w)) = true ->
  value (returned (run h (X11.GetWindowTitle win s) w))
  = title (value (returned (run h (X11.GetWindowInfo win s) w)))
  /\ value (returned (run h (X11.GetWindowProcessId win s) w))
     = processId (value (returned (run h (X11.GetWindowInfo win s) w)))
  /\ value (returned (run h (X11.GetWindowState win s) w))
     = state (value (returned (run h (X11.GetWindowInfo win s) w))).
Proof.
  intro Hok.
  destruct (x11_info_fields win Hok) as (Hi & Hv & _ & Ht & Hp & _ & Hs).
  rewrite Ht, Hp, Hs. clear Ht Hp Hs Hok.
  unfold X11.GetWindowTitle, X11.GetWindowProcessId, X11.GetWindowState.
  do 3 pure_step.
  rewrite run_get. cbn [returned result fst]. rewrite Hi. cbn [negb].
  do 3 pure_step. rewrite Hv. cbn [negb].
  do 3 pure_step. rewrite !run_ret. repeat split.
Qed.

(** On a frozen desktop the probe is the attribute query. *)
Lemma x11_valid_frozen win :
  returned (run h (X11.IsValidWindow win s) w)
  = X11.initialized s
    && match fst (h (X11.Api.XGetWindowAttributes (X11.m_display s) win) w)
       with
       | Some _ => true
       | None => false
       end.
Proof.
  unfold X11.IsValidWindow, X11.call. pure_step.
  rewrite run_get. cbn [returned result fst].
  destruct (X11.initialized s); cbn [negb andb]; [| reflexivity].
  repeat pure_step. rewrite run_ret, !run_native. reflexivity.
Qed.

(** On a frozen desktop the attributes that the probe saw are still
    there for [GetWindowRect]: it fails only as [GetWindowInfo] does. *)
Lemma x11_rect_agrees win :
  error (returned (run h (X11.GetWindowRect win s) w))
  = error (returned (run h (X11.GetWindowInfo win s) w))
  /\ (ok (returned (run h (X11.GetWindowInfo win s) w)) = true ->
      value (returned (run h (X11.GetWindowRect win s) w))
      = rect (value (returned (run h (X11.GetWindowInfo win s) w)))).
Proof.
  unfold X11.GetWindowInfo, X11.GetWindowRect.
  repeat pure_step.
  rewrite run_get. cbn [returned result fst].
  destruct (X11.initialized s) eqn:Hi; cbn [negb];
    [| split; [reflexivity | intro H; cbv in H; discriminate H]].
  repeat pure_step.
  rewrite x11_valid_frozen, Hi. cbn [andb].
  unfold X11.call. rewrite ?run_native. cbn [returned result fst].
  destruct (h (X11.Api.XGetWindowAttributes (X11.m_display s) win) w)
    as [[a |] w'] eqn:Ha; cbn [negb fst].
  - repeat pure_step. rewrite ?run_ret, ?run_native.
    cbn [returned result fst]. rewrite ?Ha. cbn [fst].
    repeat pure_step. rewrite ?run_ret, ?run_native.
    split; [reflexivity | intros _; reflexivity].
  - split; [reflexivity | intro H; cbv in H; discriminate H].
Qed.
End X11Fields.

(** X10.  Win32, on a desktop that the queries leave unchanged: the
    single-field queries agree with [GetWindowInfo] on the same handle.
    Title, process id and state fail with its error code and, when it
    succeeds, return its fields; a rectangle that [GetWindowRect] returns
    is the one in the info. *)
Theorem win32_field_queries_agree_with_info :
  forall (W : Type) (h : Handler Win32.Api.Call Win32.Api.Answer W) (w : W)
         (s : Win32.St) (hwnd : NativeHandle),
    frozen Win32Query.query h w ->
    let info := returned (run h (Win32.GetWindowInfo hwnd s) w) in
    (error (returned (run h (Win32.GetWindowTitle hwnd s) w)) = error info
     /\ error (returned (run h (Win32.GetWindowProcessId hwnd s) w))
        = error info
     /\ error (returned (run h (Win32.GetWindowState hwnd s) w))
        = error info)
    /\ (ok info = true ->
        handle (value info) = hwnd
        /\ value (returned (run h (Win32.GetWindowTitle hwnd s) w))
           = title (value info)
        /\ value (returned (run h (Win32.GetWindowProcessId hwnd s) w))
           = processId (value info)
        /\ value (returned (run h (Win32.GetWindowState hwnd s) w))
           = state (value info))
    /\ (ok (returned (run h (Win32.GetWindowRect hwnd s) w)) = true ->
        ok info = true
        /\ value (returned (run h (Win32.GetWindowRect hwnd s) w))
           = rect (value info)).
Proof.
  intros W h w s hwnd still info. subst info.
  split; [apply (win32_field_errors h w s still) |].
  split.
  - intro Hok.
    destruct (win32_info_fields h w s still hwnd Hok) as (_ & _ & Hh & _).
    destruct (win32_field_values h w s still hwnd Hok) as [Ht Hp].
    rewrite (win32_info_state h w s still hwnd Hok).
    repeat split; assumption.
  - apply (win32_rect_agrees h w s still).
Qed.

Lemma win32_field_queries_agree_with_info_witness :
  frozen Win32Query.query Win32Desk.handler Win32Desk.desk
  /\ error (returned (run Win32Desk.handler
                          (Win32.GetWindowTitle 200 Win32Desk.ready)
                          Win32Desk.desk))
     = error (returned (run Win32Desk.handler
                            (Win32.GetWindowInfo 200 Win32Desk.ready)
                            Win32Desk.desk)).
Proof.
  split; [apply win32_desk_is_frozen |].
  apply (win32_field_queries_agree_with_info
           Win32Desk.Desk Win32Desk.handler Win32Desk.desk Win32Desk.ready
           200).
  apply win32_desk_is_frozen.
Defined.

(** X11.  X11, on a desktop that the queries leave unchanged: the
    single-field queries agree with [GetWindowInfo] on the same handle.
    All four fail with its error code, so that [GetWindowRect] does not
    fail on a window that passed the probe, and when it succeeds they
    return its fields. *)
Theorem x11_field_queries_agree_with_info :
  forall (W : Type) (h : Handler X11.Api.Call X11.Api.Answer W) (w : W)
         (s : X11.St) (win : NativeHandle),
    frozen X11Query.query h w ->
    let info := returned (run h (X11.GetWindowInfo win s) w) in
    (error (returned (run h (X11.GetWindowTitle win s) w)) = error info
     /\ error (returned (run h (X11.GetWindowProcessId win s) w))
        = error info
     /\ error (returned (run h (X11.GetWindowState win s) w)) = error info
     /\ error (returned (run h (X11.GetWindowRect win s) w)) = error info)
    /\ (ok info = true ->
        handle (value info) = win
        /\ value (returned (run h (X11.GetWindowTitle win s) w))
           = title (value info)
        /\ value (returned (run h (X11.GetWindowProcessId win s) w))
           = processId (value info)
        /\ value (returned (run h (X11.GetWindowState win s) w))
           = state (value info)
        /\ value (returned (run h (X11.GetWindowRect win s) w))
           = rect (value info)).
Proof.
  intros W h w s win still info. subst info.
  destruct (x11_field_errors h w s still win) as (E1 & E2 & E3).
  destruct (x11_rect_agrees h w s still win) as (E4 & R).
  split; [repeat split; assumption |].
  intro Hok.
  destruct (x11_info_fields h w s still win Hok) as (_ & _ & Hh & _).
  destruct (x11_field_values h w s still win Hok) as (Ht & Hp & Hs).
  repeat split; auto.
Qed.

Lemma x11_field_queries_agree_with_info_witness :
  frozen X11Query.query X11Desk.handler X11Desk.desk
  /\ error (returned (run X11Desk.handler (X11.GetWindowRect 12 X11Desk.ready)
                          X11Desk.desk))
     = error (returned (run X11Desk.handler
                            (X11.GetWindowInfo 12 X11Desk.ready)
                            X11Desk.desk)).
Proof.
  split; [apply x11_desk_is_frozen |].
  apply (x11_field_queries_agree_with_info
           X11Desk.Desk X11Desk.handler X11Desk.desk X11Desk.ready 12).
  apply x11_desk_is_frozen.
Defined.

Lemma macos_project_spec {T W}
      (h : Handler MacOS.Api.Call MacOS.Api.Answer W) (w : W) (s : MacOS.St)
      (default : T) (field : WindowInfo -> T) (handle' : NativeHandle) :
  let info := returned (run h (MacOS.GetWindowInfo handle' s) w) in
  let r := returned (run h (MacOS.project default field handle' s) w) in
  error r = error info
  /\ (if ok info then value r = field (value info) /\ errorMessage r = ""
      else value r = default /\ errorMessage r = errorMessage info).
Proof.
  cbv zeta. unfold MacOS.project.
  rewrite run_mbind. unfold returned at 1 3 5 7. cbn [result fst].
  fold (returned (run h (MacOS.GetWindowInfo handle' s) w)).
  destruct (ok (returned (run h (MacOS.GetWindowInfo handle' s) w))) eqn:Hok;
    cbn [negb]; rewrite run_ret; cbn [result fst].
  - unfold ok in Hok. repeat split.
    destruct (error (returned (run h (MacOS.GetWindowInfo handle' s) w)));
      try discriminate Hok; reflexivity.
  - repeat split.
Qed.

(** X12.  macOS: each single-field query performs [GetWindowInfo] and
    projects it.  It returns the error code of the info; when the info
    succeeds it returns the info's field, and when the info fails it
    returns the message of the info.  On failure the title is the empty
    string and the rectangle is all zeros, as their types construct them;
    the state and the process id of a failed query are whatever the
    unwritten member holds, and nothing is said of them. *)
Theorem macos_field_queries_project_info :
  forall (W : Type) (h : Handler MacOS.Api.Call MacOS.Api.Answer W) (w : W)
         (s : MacOS.St) (handle' : NativeHandle),
    let info := returned (run h (MacOS.GetWindowInfo handle' s) w) in
    let ttl := returned (run h (MacOS.GetWindowTitle handle' s) w) in
    let rc := returned (run h (MacOS.GetWindowRect handle' s) w) in
    let st := returned (run h (MacOS.GetWindowState handle' s) w) in
    let pid := returned (run h (MacOS.GetWindowProcessId handle' s) w) in
    (error ttl = error info /\ error rc = error info
     /\ error st = error info /\ error pid = error info)
    /\ (if ok info
        then value ttl = title (value info) /\ value rc = rect (value info)
             /\ value st = state (value info)
             /\ value pid = processId (value info)
        else (value ttl = "" /\ value rc = Rect_default)
             /\ errorMessage ttl = errorMessage info
             /\ errorMessage rc = errorMessage info
             /\ errorMessage st = errorMessage info
             /\ errorMessage pid = errorMessage info).
Proof.
  intros W h w s handle'. cbv zeta.
  pose proof (macos_project_spec h w s "" title handle') as P1.
  pose proof (macos_project_spec h w s Rect_default rect handle') as P2.
  pose proof (macos_project_spec h w s 0 state handle') as P3.
  pose proof (macos_project_spec h w s 0 processId handle') as P4.
  cbv zeta in P1, P2, P3, P4.
  fold (MacOS.GetWindowTitle) in P1. fold (MacOS.GetWindowRect) in P2.
  fold (MacOS.GetWindowState) in P3. fold (MacOS.GetWindowProcessId) in P4.
  destruct P1 as [E1 V1], P2 as [E2 V2], P3 as [E3 V3], P4 as [E4 V4].
  split; [repeat split; assumption |].
  destruct (ok (returned (run h (MacOS.GetWindowInfo handle' s) w)));
    intuition.
Qed.

(* ================================================================== *)
(** * Further properties: search *)
(* ================================================================== *)

Section X11Search.
Context {W : Type}.
Variable h : Handler X11.Api.Call X11.Api.Answer W.
Variable w : W.
Variable s : X11.St.
Hypothesis still : frozen X11Query.query h w.

Ltac pure_step :=
  rewrite (reader_mbind_returned X11Query.query h w s _ _ still)
    by (repeat first
          [ solve [ auto using x11_lookup_reader_query with readers ]
          | reader_step ]).


End X11Search.









(* ================================================================== *)
(** * Further properties: before [Initialize], and the focused window *)
(* ================================================================== *)

(** X15.  On a backend that is not initialised the enumeration and the
    searches return nothing and ask the system nothing, and the visitor
    of [EnumerateWindows] is never invoked.  [GetAllWindows] records the
    text "WindowManager not initialized" as last error; the visitor walk
    and the two searches leave the object as it was. *)
Theorem enumeration_before_initialize :
  forall (V W1 W2 W3 : Type)
         (h1 : Handler Win32.Api.Call Win32.Api.Answer W1) (w1 : W1)
         (h2 : Handler X11.Api.Call X11.Api.Answer W2) (w2 : W2)
         (h3 : Handler MacOS.Api.Call MacOS.Api.Answer W3) (w3 : W3)
         (s1 : Win32.St) (s2 : X11.St) (s3 : MacOS.St)
         (cb : V -> WindowInfo -> bool * V) (v : V)
         (pattern name : string) (cs : bool),
    m_initialized s1 = false -> X11.initialized s2 = false ->
    m_initialized s3 = false ->
    (run h1 (Win32.GetAllWindows s1) w1
     = mkOutcome ([], mkImplBase false "WindowManager not initialized") w1 []
     /\ run h1 (Win32.EnumerateWindows cb v s1) w1
        = mkOutcome ((v, []), s1) w1 []
     /\ run h1 (Win32.FindWindowsByTitle pattern cs s1) w1
        = mkOutcome ([], s1) w1 []
     /\ run h1 (Win32.FindWindowsByProcess name s1) w1
        = mkOutcome ([], s1) w1 [])
    /\ (run h2 (X11.GetAllWindows s2) w2
        = mkOutcome ([], X11.mkSt
                           (mkImplBase false "WindowManager not initialized")
                           (X11.m_display s2) (X11.m_rootWindow s2)
                           (X11.atoms s2)) w2 []
        /\ run h2 (X11.EnumerateWindows cb v s2) w2
           = mkOutcome ((v, []), s2) w2 []
        /\ run h2 (X11.FindWindowsByTitle pattern cs s2) w2
           = mkOutcome ([], s2) w2 []
        /\ run h2 (X11.FindWindowsByProcess name s2) w2
           = mkOutcome ([], s2) w2 [])
    /\ (run h3 (MacOS.GetAllWindows s3) w3
        = mkOutcome ([], mkImplBase false "WindowManager not initialized")
                    w3 []
        /\ run h3 (MacOS.EnumerateWindows cb v s3) w3
           = mkOutcome ((v, []), s3) w3 []
        /\ run h3 (MacOS.FindWindowsByTitle pattern cs s3) w3
           = mkOutcome ([], s3) w3 []
        /\ run h3 (MacOS.FindWindowsByProcess name s3) w3
           = mkOutcome ([], s3) w3 []).
Proof.
  intros V W1 W2 W3 h1 w1 h2 w2 h3 w3 s1 s2 s3 cb v pattern name cs
         H1 H2 H3.
  unfold X11.initialized in H2.
  repeat split.
  all: unfold Win32.GetAllWindows, Win32.EnumerateWindows,
         Win32.FindWindowsByTitle, Win32.FindWindowsByProcess,
         Win32.SetLastError, X11.GetAllWindows, X11.EnumerateWindows,
         X11.FindWindowsByTitle, X11.FindWindowsByProcess, X11.SetLastError,
         X11.initialized, MacOS.GetAllWindows, MacOS.EnumerateWindows,
         MacOS.FindWindowsByTitle, MacOS.FindWindowsByProcess,
         MacOS.SetLastError;
    unfold_monad; simpl; rewrite ?H1, ?H2, ?H3; simpl;
    rewrite ?H1, ?H2, ?H3; reflexivity.
Qed.

Lemma enumeration_before_initialize_witness :
  X11.initialized X11.St_new = false
  /\ run X11Desk.handler (X11.EnumerateWindows stop_at_once 0%nat X11.St_new)
         X11Desk.desk
     = mkOutcome ((0%nat, []), X11.St_new) X11Desk.desk [].
Proof.
  split; [reflexivity |].
  apply (enumeration_before_initialize
           nat Win32Desk.Desk X11Desk.Desk MacOSDesk.Desk
           Win32Desk.handler Win32Desk.desk X11Desk.handler X11Desk.desk
           MacOSDesk.handler MacOSDesk.desk
           ImplBase_new X11.St_new ImplBase_new stop_at_once 0%nat
           "mail" "desk" false); reflexivity.
Defined.

Lemma win32_GetFocusedWindow_reader :
  reader Win32Query.query Win32.GetFocusedWindow.
Proof. unfold Win32.GetFocusedWindow, Win32.call. reader_tac. Qed.

Section Win32Focus.
Context {W : Type}.
Variable h : Handler Win32.Api.Call Win32.Api.Answer W.
Variable w : W.
Variable s : Win32.St.
Hypothesis still : frozen Win32Query.query h w.

Ltac pure_step :=
  rewrite (reader_mbind_returned Win32Query.query h w s _ _ still)
    by (repeat first
          [ solve [ auto using win32_GetFocusedWindow_reader with readers ]
          | reader_step ]).

Lemma win32_focused_info :
  returned (run h (Win32.GetFocusedWindowInfo s) w)
  = if returned (run h (Win32.GetFocusedWindow s) w) =? 0
    then mkResult WindowInfo_default WindowNotFound "No focused window found"
    else returned (run h (Win32.GetWindowInfo
                            (returned (run h (Win32.GetFocusedWindow s) w))
                            s) w).
Proof.
  unfold Win32.GetFocusedWindowInfo. pure_step.
  destruct (returned (run h (Win32.GetFocusedWindow s) w) =? 0);
    reflexivity.
Qed.

Lemma win32_focused_is_foreground :
  m_initialized s = true ->
  returned (run h (Win32.GetFocusedWindow s) w)
  = fst (h Win32.Api.GetForegroundWindow w).
Proof.
  intro Hi. unfold Win32.GetFocusedWindow, Win32.call. pure_step.
  rewrite run_get. cbn [returned result fst]. rewrite Hi. cbn [negb].
  pure_step. rewrite run_ret, run_native. reflexivity.
Qed.

Lemma win32_focused_info_bit :
  ok (returned (run h (Win32.GetFocusedWindowInfo s) w)) = true ->
  handle (value (returned (run h (Win32.GetFocusedWindowInfo s) w)))
  = returned (run h (Win32.GetFocusedWindow s) w)
  /\ returned (run h (Win32.GetFocusedWindow s) w) <> 0
  /\ HasFlag (state (value (returned (run h (Win32.GetFocusedWindowInfo s)
                                          w))))
             WindowState.Focused = true.
Proof.
  rewrite win32_focused_info.
  destruct (returned (run h (Win32.GetFocusedWindow s) w) =? 0) eqn:Hz;
    [intro H; cbv in H; discriminate H |].
  intro Hok.
  destruct (win32_info_fields h w s still _ Hok) as (Hi & _ & Hh & _).
  split; [exact Hh |]. split; [apply Z.eqb_neq; exact Hz |].
  rewrite (win32_info_state h w s still _ Hok).
  assert (Hs : ok (returned (run h (Win32.GetWindowState
                      (returned (run h (Win32.GetFocusedWindow s) w)) s) w))
               = true).
  { unfold ok in *.
    destruct (win32_field_errors h w s still
                (returned (run h (Win32.GetFocusedWindow s) w)))
      as (_ & _ & E).
    rewrite E. exact Hok. }
  rewrite (win32_GetWindowState_value h w s still _ Hs).
  rewrite win32_has_flag_add.
  rewrite (win32_focused_is_foreground Hi), Z.eqb_refl. reflexivity.
Qed.
End Win32Focus.

Section X11Focus.
Context {W : Type}.
Variable h : Handler X11.Api.Call X11.Api.Answer W.
Variable w : W.
Variable s : X11.St.
Hypothesis still : frozen X11Query.query h w.

Ltac pure_step :=
  rewrite (reader_mbind_returned X11Query.query h w s _ _ still)
    by (repeat first
          [ solve [ auto using x11_lookup_reader_query with readers ]
          | reader_step ]).

Lemma x11_focused_info :
  returned (run h (X11.GetFocusedWindowInfo s) w)
  = if returned (run h (X11.GetFocusedWindow s) w) =? 0
    then mkResult WindowInfo_default WindowNotFound "No focused window found"
    else returned (run h (X11.GetWindowInfo
                            (returned (run h (X11.GetFocusedWindow s) w))
                            s) w).
Proof.
  unfold X11.GetFocusedWindowInfo. pure_step.
  destruct (returned (run h (X11.GetFocusedWindow s) w) =? 0);
    reflexivity.
Qed.

Lemma x11_focused_info_bit :
  ok (returned (run h (X11.GetFocusedWindowInfo s) w)) = true ->
  handle (value (returned (run h (X11.GetFocusedWindowInfo s) w)))
  = returned (run h (X11.GetFocusedWindow s) w)
  /\ returned (run h (X11.GetFocusedWindow s) w) <> 0
  /\ HasFlag (state (value (returned (run h (X11.GetFocusedWindowInfo s)
                                          w))))
             WindowState.Focused = true.
Proof.
  rewrite x11_focused_info.
  destruct (returned (run h (X11.GetFocusedWindow s) w) =? 0) eqn:Hz;
    [intro H; cbv in H; discriminate H |].
  intro Hok.
  destruct (x11_info_fields h w s still _ Hok)
    as (_ & _ & Hh & _ & _ & _ & Hs).
  split; [exact Hh |]. split; [apply Z.eqb_neq; exact Hz |].
  rewrite Hs, (x11_query_state_value h w s still).
  rewrite x11_has_flag_add, Z.eqb_refl. reflexivity.
Qed.
End X11Focus.

Lemma macos_focused_info_bit {W}
      (h : Handler MacOS.Api.Call MacOS.Api.Answer W) (w : W) (s : MacOS.St) :
  ok (returned (run h (MacOS.GetFocusedWindowInfo s) w)) = true ->
  HasFlag (state (value (returned (run h (MacOS.GetFocusedWindowInfo s) w))))
          WindowState.Focused = false.
Proof.
  unfold MacOS.GetFocusedWindowInfo.
  rewrite run_mbind. unfold returned at 1 3. cbn [result fst].
  set (o := run h (MacOS.GetFocusedWindow s) w).
  destruct (returned o =? 0); [intro H; cbv in H; discriminate H |].
  fold (returned (run h (MacOS.GetWindowInfo (returned o) (object o))
                      (world o))).
  intro Hok.
  destruct (macos_info_state h (world o) (object o) (returned o) Hok)
    as [_ Hs].
  change (HasFlag
            (state (value (returned
                             (run h (MacOS.GetWindowInfo (returned o)
                                                         (object o))
                                  (world o)))))
            WindowState.Focused = false).
  rewrite Hs. destruct (isVisible _); reflexivity.
Qed.

(** X16.  The info of the focused window.  On Win32 and X11, on a desktop
    that the queries leave unchanged, a successful [GetFocusedWindowInfo]
    describes the window that [GetFocusedWindow] returns, which is not
    null, and its state carries the focused bit.  On macOS a successful
    [GetFocusedWindowInfo] never carries the focused bit. *)
Theorem focused_window_info_focus_bit :
  forall (W1 W2 W3 : Type)
         (h1 : Handler Win32.Api.Call Win32.Api.Answer W1) (w1 : W1)
         (h2 : Handler X11.Api.Call X11.Api.Answer W2) (w2 : W2)
         (h3 : Handler MacOS.Api.Call MacOS.Api.Answer W3) (w3 : W3)
         (s1 : Win32.St) (s2 : X11.St) (s3 : MacOS.St),
    frozen Win32Query.query h1 w1 -> frozen X11Query.query h2 w2 ->
    (ok (returned (run h1 (Win32.GetFocusedWindowInfo s1) w1)) = true ->
     handle (value (returned (run h1 (Win32.GetFocusedWindowInfo s1) w1)))
     = returned (run h1 (Win32.GetFocusedWindow s1) w1)
     /\ returned (run h1 (Win32.GetFocusedWindow s1) w1) <> 0
     /\ HasFlag (state (value (returned
                                 (run h1 (Win32.GetFocusedWindowInfo s1) w1))))
                WindowState.Focused = true)
    /\ (ok (returned (run h2 (X11.GetFocusedWindowInfo s2) w2)) = true ->
        handle (value (returned (run h2 (X11.GetFocusedWindowInfo s2) w2)))
        = returned (run h2 (X11.GetFocusedWindow s2) w2)
        /\ returned (run h2 (X11.GetFocusedWindow s2) w2) <> 0
        /\ HasFlag (state (value (returned
                                    (run h2 (X11.GetFocusedWindowInfo s2)
                                         w2))))
                   WindowState.Focused = true)
    /\ (ok (returned (run h3 (MacOS.GetFocusedWindowInfo s3) w3)) = true ->
        HasFlag (state (value (returned
                                 (run h3 (MacOS.GetFocusedWindowInfo s3)
                                      w3))))
                WindowState.Focused = false).
Proof.
  intros W1 W2 W3 h1 w1 h2 w2 h3 w3 s1 s2 s3 F1 F2.
  split; [| split].
  - apply (win32_focused_info_bit h1 w1 s1 F1).
  - apply (x11_focused_info_bit h2 w2 s2 F2).
  - apply macos_focused_info_bit.
Qed.

Lemma win32_focus_on_is_frozen fg :
  frozen Win32Query.query (win32_focus_on fg) Win32Desk.desk.
Proof. intros c H. destruct c; reflexivity. Qed.

Lemma focused_window_info_focus_bit_witness :
  frozen Win32Query.query (win32_focus_on 200) Win32Desk.desk
  /\ frozen X11Query.query X11Desk.handler X11Desk.desk
  /\ ok (returned (run (win32_focus_on 200)
                       (Win32.GetFocusedWindowInfo Win32Desk.ready)
                       Win32Desk.desk)) = true
  /\ HasFlag (state (value (returned
                              (run (win32_focus_on 200)
                                   (Win32.GetFocusedWindowInfo Win32Desk.ready)
                                   Win32Desk.desk))))
             WindowState.Focused = true.
Proof.
  split; [apply win32_focus_on_is_frozen |].
  split; [apply x11_desk_is_frozen |].
  split; [reflexivity |].
  apply (focused_window_info_focus_bit
           Win32Desk.Desk X11Desk.Desk MacOSDesk.Desk
           (win32_focus_on 200) Win32Desk.desk X11Desk.handler X11Desk.desk
           MacOSDesk.handler MacOSDesk.desk
           Win32Desk.ready X11Desk.ready MacOSDesk.ready).
  - apply win32_focus_on_is_frozen.
  - apply x11_desk_is_frozen.
  - reflexivity.
Defined.

(* ================================================================== *)
(** * Further properties: what a mutation can answer *)
(* ================================================================== *)

Lemma x11_mutation_live {W} (h : Handler X11.Api.Call X11.Api.Answer W)
      (w : W) (s : X11.St) op handle :
  is_query op = false ->
  X11.initialized s = true ->
  returned (run h (X11.IsValidWindow handle s) w) = true ->
  returned (run h (X11.perform op handle s) w) = Success
  /\ object (run h (X11.perform op handle s) w) = s.
Proof.
  intros Q H D.
  unfold_x11. unfold_monad. simpl in *. rewrite H in *.
  simpl in *. unfold returned in D. simpl in D.
  match type of D with
  | context [fst ?t] => destruct t as [[a|] w'] eqn:E
  end; simpl in D; [| discriminate D].
  destruct op; try discriminate Q; unfold_x11;
    unfold X11.SetWmState, X11.SendClientMessage; unfold_monad; simpl;
    repeat (rewrite H; simpl); rewrite E; split; reflexivity.
Qed.

(** X17.  An X11 mutation has three possible answers and the backend
    object is never changed by it: [NotInitialized] before [Initialize],
    [InvalidHandle] when the liveness probe rejects the handle, and
    [Success] otherwise.  No mutation reports whether the request that
    it sent had any effect. *)
Theorem x11_mutation_answers :
  forall (W : Type) (h : Handler X11.Api.Call X11.Api.Answer W) (w : W)
         (s : X11.St) (op : HandleOp) (handle' : NativeHandle),
    is_query op = false ->
    returned (run h (X11.perform op handle' s) w)
    = (if negb (X11.initialized s) then NotInitialized
       else if negb (returned (run h (X11.IsValidWindow handle' s) w))
            then InvalidHandle
            else Success)
    /\ object (run h (X11.perform op handle' s) w) = s.
Proof.
  intros W h w s op handle' Q.
  destruct (X11.initialized s) eqn:Hi; cbn [negb].
  - destruct (returned (run h (X11.IsValidWindow handle' s) w)) eqn:Hv;
      cbn [negb].
    + apply x11_mutation_live; assumption.
    + rewrite (x11_dead_handle h w s op handle' Hi Hv). split; reflexivity.
  - rewrite (x11_uninitialized h w s op handle' Hi). split; reflexivity.
Qed.

Lemma x11_mutation_answers_witness :
  is_query OpMaximizeWindow = false
  /\ returned (run X11Desk.handler
                   (X11.perform OpMaximizeWindow 12 X11Desk.ready)
                   X11Desk.desk) = Success.
Proof.
  split; [reflexivity |].
  apply (x11_mutation_answers X11Desk.Desk X11Desk.handler X11Desk.desk
                              X11Desk.ready OpMaximizeWindow 12).
  reflexivity.
Defined.

(** X18.  What a Win32 mutation answers, on a desktop that the queries
    leave unchanged: [NotInitialized] before [Initialize], [InvalidHandle]
    when [IsWindow] rejects the handle, and otherwise [Success], with two
    exceptions.  [ForceCloseWindow] answers [AccessDenied] exactly when
    the owning process cannot be opened for termination, and
    [SetWindowTitle] answers [OperationFailed] exactly when the title
    cannot be converted to wide characters.  The results of the calls
    that act on the window are never looked at. *)
Theorem win32_mutation_answers :
  forall (W : Type) (h : Handler Win32.Api.Call Win32.Api.Answer W) (w : W)
         (s : Win32.St) (op : HandleOp) (hwnd : NativeHandle),
    frozen Win32Query.query h w ->
    is_query op = false ->
    returned (run h (Win32.perform op hwnd s) w)
    = if negb (m_initialized s) then NotInitialized
      else if negb (fst (h (Win32.Api.IsWindow hwnd) w)) then InvalidHandle
      else match op with
           | OpForceCloseWindow =>
               if fst (h (Win32.Api.OpenProcess Win32.PROCESS_TERMINATE
                            (fst (h (Win32.Api.GetWindowThreadProcessId hwnd)
                                    w))) w) =? 0
               then AccessDenied else Success
           | OpSetWindowTitle t =>
               if fst (fst (h (Win32.Api.MultiByteToWideChar Win32.CP_UTF8
                                 t 0) w)) <=? 0
               then OperationFailed else Success
           | _ => Success
           end.
Proof.
  intros W h w s op hwnd still Q.
  destruct (m_initialized s) eqn:Hi; cbn [negb];
    [| rewrite (win32_uninitialized h w s op hwnd Hi); reflexivity].
  destruct op; try discriminate Q; unfold_win32; unfold_monad; simpl;
    rewrite Hi; simpl; ask still; destruct a; simpl; try reflexivity;
    repeat (ask still; simpl);
    repeat match goal with
           | |- context [if negb ?b then _ else _] => destruct b; simpl
           | |- context [if ?b then _ else _] => destruct b; simpl
           end;
    try reflexivity.
Qed.

Lemma win32_mutation_answers_witness :
  frozen Win32Query.query Win32Desk.handler Win32Desk.desk
  /\ is_query OpForceCloseWindow = false
  /\ returned (run Win32Desk.handler
                   (Win32.perform OpForceCloseWindow 100 Win32Desk.ready)
                   Win32Desk.desk) = AccessDenied.
Proof.
  split; [apply win32_desk_is_frozen |]. split; [reflexivity |].
  apply (win32_mutation_answers Win32Desk.Desk Win32Desk.handler
           Win32Desk.desk Win32Desk.ready OpForceCloseWindow 100).
  - apply win32_desk_is_frozen.
  - reflexivity.
Defined.

Lemma returned_mbind_const {Call} {Answer : Call -> Type} {St A B W}
      (h : Handler Call Answer W) (m : M Call Answer St A)
      (f : A -> M Call Answer St B) (b : B) (s : St) (w : W) :
  (forall a s' w', returned (run h (f a s') w') = b) ->
  returned (run h (mbind m f s) w) = b.
Proof.
  intro Hf. rewrite run_mbind. unfold returned at 1. cbn [result].
  apply Hf.
Qed.

Lemma macos_GetWindowInfo_reader handle' :
  reader macos_query (MacOS.GetWindowInfo handle').
Proof. unfold MacOS.GetWindowInfo, MacOS.call. reader_tac. Qed.

Lemma macos_GetAXWindowForPid_reader pid target :
  reader macos_query (MacOS.GetAXWindowForPid pid target).
Proof. unfold MacOS.GetAXWindowForPid, MacOS.call. reader_tac. Qed.

Lemma macos_ok_error {T} (r : Result T) : ok r = true -> error r = Success.
Proof. unfold ok. destruct (error r); try discriminate; reflexivity. Qed.

Section MacOSAnswers.
Context {W : Type}.
Variable h : Handler MacOS.Api.Call MacOS.Api.Answer W.
Variable w : W.
Variable s : MacOS.St.
Hypothesis still : frozen macos_query h w.

Ltac pure_step :=
  rewrite (reader_mbind_returned macos_query h w s _ _ still)
    by (repeat first
          [ solve [ auto using macos_GetWindowInfo_reader,
                      macos_GetAXWindowForPid_reader ]
          | reader_step ]).

Lemma macos_info_uninitialized handle' :
  m_initialized s = false ->
  returned (run h (MacOS.GetWindowInfo handle' s) w)
  = mkResult WindowInfo_default NotInitialized
             "WindowManager not initialized".
Proof.
  intro Hi. unfold MacOS.GetWindowInfo. pure_step.
  rewrite run_get. cbn [returned result fst]. rewrite Hi. reflexivity.
Qed.

Lemma macos_guarded_frozen handle' body :
  returned (run h (MacOS.guarded handle' body s) w)
  = if negb (ok (returned (run h (MacOS.GetWindowInfo handle' s) w)))
    then error (returned (run h (MacOS.GetWindowInfo handle' s) w))
    else returned
           (run h (body (value (returned
                                  (run h (MacOS.GetWindowInfo handle' s) w)))
                        s) w).
Proof.
  unfold MacOS.guarded. pure_step.
  rewrite run_get. cbn [returned result fst].
  destruct (m_initialized s) eqn:Hi; cbn [negb].
  - pure_step.
    destruct (ok (returned (run h (MacOS.GetWindowInfo handle' s) w)));
      reflexivity.
  - rewrite (macos_info_uninitialized handle' Hi). reflexivity.
Qed.

Lemma macos_with_ax_window_frozen handle' body :
  returned (run h (MacOS.with_ax_window handle' body s) w)
  = if negb (ok (returned (run h (MacOS.GetWindowInfo handle' s) w)))
    then error (returned (run h (MacOS.GetWindowInfo handle' s) w))
    else if returned
              (run h (MacOS.GetAXWindowForPid
                        (processId
                           (value (returned
                                     (run h (MacOS.GetWindowInfo handle' s)
                                          w))))
                        (MacOS.to_CGWindowID handle') s) w) =? 0
         then AccessDenied else Success.
Proof.
  unfold MacOS.with_ax_window. rewrite macos_guarded_frozen.
  destruct (ok (returned (run h (MacOS.GetWindowInfo handle' s) w)));
    cbn [negb]; [| reflexivity].
  pure_step.
  match goal with
  | |- context [if ?b then _ else _] => destruct b
  end; [reflexivity |].
  apply returned_mbind_const. reflexivity.
Qed.

Lemma macos_code_frozen {T} (default : T) (field : WindowInfo -> T)
      handle' :
  returned (run h (MacOS.code (MacOS.project default field handle') s) w)
  = if negb (ok (returned (run h (MacOS.GetWindowInfo handle' s) w)))
    then error (returned (run h (MacOS.GetWindowInfo handle' s) w))
    else Success.
Proof.
  unfold MacOS.code. rewrite run_mbind. unfold returned at 1.
  cbn [result fst].
  fold (returned (run h (MacOS.project default field handle' s) w)).
  destruct (macos_project_spec h w s default field handle') as [E _].
  rewrite run_ret. cbn [result fst]. rewrite E.
  destruct (ok (returned (run h (MacOS.GetWindowInfo handle' s) w))) eqn:Hok;
    cbn [negb]; [apply macos_ok_error; exact Hok | reflexivity].
Qed.

Lemma macos_operation_frozen op handle' :
  returned (run h (MacOS.perform op handle' s) w)
  = if MacOS.unsupported op then NotSupported
    else if negb (ok (returned (run h (MacOS.GetWindowInfo handle' s) w)))
         then error (returned (run h (MacOS.GetWindowInfo handle' s) w))
         else if uses_ax_window op
              then if returned
                        (run h (MacOS.GetAXWindowForPid
                                  (processId
                                     (value (returned
                                               (run h (MacOS.GetWindowInfo
                                                         handle' s) w))))
                                  (MacOS.to_CGWindowID handle') s) w) =? 0
                   then AccessDenied else Success
              else Success.
Proof.
  destruct op; cbn [MacOS.unsupported uses_ax_window MacOS.perform];
    try reflexivity.
  - unfold MacOS.code. rewrite run_mbind. unfold returned at 1.
    cbn [result fst]. rewrite run_ret. cbn [result fst].
    fold (returned (run h (MacOS.GetWindowInfo handle' s) w)).
    destruct (ok (returned (run h (MacOS.GetWindowInfo handle' s) w))) eqn:Hok;
      cbn [negb]; [apply macos_ok_error; exact Hok | reflexivity].
  - apply macos_code_frozen.
  - apply macos_code_frozen.
  - apply macos_code_frozen.
  - apply macos_code_frozen.
  - apply macos_with_ax_window_frozen.
  - unfold MacOS.ForceCloseWindow. rewrite macos_guarded_frozen.
    destruct (ok _); cbn [negb]; [| reflexivity].
    apply returned_mbind_const. reflexivity.
  - apply macos_with_ax_window_frozen.
  - apply macos_with_ax_window_frozen.
  - apply macos_with_ax_window_frozen.
  - apply macos_with_ax_window_frozen.
  - apply macos_with_ax_window_frozen.
  - unfold MacOS.FocusWindow. rewrite macos_guarded_frozen.
    destruct (ok _); cbn [negb]; [| reflexivity].
    repeat (apply returned_mbind_const; intros).
    reflexivity.
  - apply macos_with_ax_window_frozen.
  - apply macos_with_ax_window_frozen.
  - apply macos_with_ax_window_frozen.
Qed.
End MacOSAnswers.

(** X19.  What a macOS handle operation answers, on a desktop that the
    queries leave unchanged.  The three mutations without a primitive
    answer [NotSupported].  Every other operation fails as
    [GetWindowInfo] on the same handle fails.  On a live window the
    mutations that act through the accessibility window answer
    [AccessDenied] exactly when the application has no accessibility
    window to offer and [Success] otherwise; [ForceCloseWindow],
    [FocusWindow] and the queries answer [Success]. *)
Theorem macos_operation_answers :
  forall (W : Type) (h : Handler MacOS.Api.Call MacOS.Api.Answer W) (w : W)
         (s : MacOS.St) (op : HandleOp) (handle' : NativeHandle),
    frozen macos_query h w ->
    let info := returned (run h (MacOS.GetWindowInfo handle' s) w) in
    returned (run h (MacOS.perform op handle' s) w)
    = if MacOS.unsupported op then NotSupported
      else if negb (ok info) then error info
      else if uses_ax_window op
           then if returned (run h (MacOS.GetAXWindowForPid
                                      (processId (value info))
                                      (MacOS.to_CGWindowID handle') s) w)
                   =? 0
                then AccessDenied else Success
           else Success.
Proof.
  intros W h w s op handle' still. cbv zeta.
  apply macos_operation_frozen. exact still.
Qed.

Lemma macos_desk_is_frozen :
  frozen macos_query MacOSDesk.handler MacOSDesk.desk.
Proof. intros c H. reflexivity. Qed.

Lemma macos_operation_answers_witness :
  frozen macos_query MacOSDesk.handler MacOSDesk.desk
  /\ returned (run MacOSDesk.handler
                   (MacOS.perform OpMinimizeWindow 21 MacOSDesk.ready)
                   MacOSDesk.desk) = Success.
Proof.
  split; [apply macos_desk_is_frozen |].
  apply (macos_operation_answers MacOSDesk.Desk MacOSDesk.handler
           MacOSDesk.desk MacOSDesk.ready OpMinimizeWindow 21).
  apply macos_desk_is_frozen.
Defined.

(* ================================================================== *)
(** * Further properties: strings and numbers *)
(* ================================================================== *)

Lemma after_last_backslash_plain (name acc : Win32.wstring) :
  ~ In 92 name -> Win32.after_last_backslash name acc = acc.
Proof.
  revert acc. induction name as [| c rest IH]; intros acc Hn.
  - reflexivity.
  - cbn [Win32.after_last_backslash].
    destruct (c =? 92) eqn:Hc.
    + apply Z.eqb_eq in Hc. exfalso. apply Hn. left. exact Hc.
    + apply IH. intro Hin. apply Hn. right. exact Hin.
Qed.

Lemma after_last_backslash_split (pre name acc : Win32.wstring) :
  ~ In 92 name ->
  Win32.after_last_backslash (pre ++ 92 :: name)%list acc = name.
Proof.
  revert acc. induction pre as [| c rest IH]; intros acc Hn.
  - cbn. apply after_last_backslash_plain. exact Hn.
  - cbn [app Win32.after_last_backslash].
    destruct (c =? 92); apply IH; exact Hn.
Qed.

(** X20.  The file name that the Win32 [GetProcessNameFromPid] takes from
    the image path: what follows the last backslash, and the whole path
    when it has none. *)
Theorem win32_file_name_follows_last_backslash :
  forall (pre name : Win32.wstring),
    ~ In 92 name ->
    Win32.after_last_backslash (pre ++ 92 :: name)%list (pre ++ 92 :: name)%list = name
    /\ Win32.after_last_backslash name name = name.
Proof.
  intros pre name Hn. split.
  - apply after_last_backslash_split. exact Hn.
  - apply after_last_backslash_plain. exact Hn.
Qed.

Lemma win32_file_name_follows_last_backslash_witness :
  ~ In 92 [97; 46; 101; 120; 101]
  /\ Win32.after_last_backslash
       ([67; 58; 92; 98] ++ 92 :: [97; 46; 101; 120; 101])%list
       ([67; 58; 92; 98] ++ 92 :: [97; 46; 101; 120; 101])%list
     = [97; 46; 101; 120; 101].
Proof.
  assert (H : ~ In 92 [97; 46; 101; 120; 101]).
  { simpl. intros [H | [H | [H | [H | [H | []]]]]]; discriminate H. }
  split; [exact H |].
  apply (win32_file_name_follows_last_backslash [67; 58; 92; 98]
           [97; 46; 101; 120; 101]).
  exact H.
Defined.

Lemma tolower_idempotent (c : ascii) : tolower (tolower c) = tolower c.
Proof.
  destruct c as [[|] [|] [|] [|] [|] [|] [|] [|]]; reflexivity.
Qed.

Lemma transform_tolower_idempotent (t : string) :
  transform_tolower (transform_tolower t) = transform_tolower t.
Proof.
  induction t as [| c t IH]; simpl; [reflexivity |].
  rewrite tolower_idempotent, IH. reflexivity.
Qed.

(** X21.  The case-insensitive test sees neither the case of the text nor
    the case of the pattern: lowering either of them beforehand changes
    no answer of [ToLowerCompare], and so none of the case-insensitive
    [FindWindowsByTitle] test. *)
Theorem case_insensitive_test_ignores_case :
  forall (t pattern : string),
    ToLowerCompare (transform_tolower t) pattern = ToLowerCompare t pattern
    /\ ToLowerCompare t (transform_tolower pattern)
       = ToLowerCompare t pattern
    /\ title_matches false (transform_tolower t) (transform_tolower pattern)
       = title_matches false t pattern.
Proof.
  intros t pattern. unfold title_matches, ToLowerCompare.
  rewrite !transform_tolower_idempotent. repeat split.
Qed.

(** X22.  The opacity clamp, on every [float]: the result is never a NaN
    and lies between [0.0] and [1.0]; a NaN is clamped to [1.0], fully
    opaque; a value that already lies in the range is returned as it is;
    and clamping twice is clamping once. *)
Theorem clamp_opacity_total :
  forall opacity : float,
    (Float.leb Float.zero (clamp_opacity opacity) = true
     /\ Float.leb (clamp_opacity opacity) Float.one = true)
    /\ clamp_opacity S754_nan = Float.one
    /\ (Float.ltb Float.zero opacity = true ->
        Float.ltb opacity Float.one = true ->
        clamp_opacity opacity = opacity)
    /\ clamp_opacity (clamp_opacity opacity) = clamp_opacity opacity.
Proof.
  intro opacity.
  split; [apply clamp_opacity_bounds |].
  split; [reflexivity |].
  split.
  - intros H0 H1. unfold clamp_opacity, Float.max, Float.min.
    rewrite H1, H0. reflexivity.
  - unfold clamp_opacity, Float.max, Float.min.
    destruct (Float.ltb opacity Float.one) eqn:H1.
    + destruct (Float.ltb Float.zero opacity) eqn:H0.
      * rewrite H1, H0. reflexivity.
      * reflexivity.
    + reflexivity.
Qed.

(* ================================================================== *)
(** * Further properties: what every log looks like *)
(* ================================================================== *)

Section LogInvariantFacts.
Context {Call : Type} {Answer : Call -> Type} {St : Type}.
Variable P : list (Entry Call Answer) -> Prop.
Hypothesis P_nil : P [].
Hypothesis P_app : forall l1 l2, P l1 -> P l2 -> P (l1 ++ l2)%list.

Lemma always_ret {A} (a : A) : always P (ret (St := St) a).
Proof. intros W h w s. exact P_nil. Qed.

Lemma always_get : always P (get (St := St)).
Proof. intros W h w s. exact P_nil. Qed.

Lemma always_put (s' : St) : always P (put s').
Proof. intros W h w s. exact P_nil. Qed.

Lemma always_native (c : Call) :
  (forall a, P [entry c a]) -> always P (native (St := St) c).
Proof. intros Hc W h w s. apply Hc. Qed.

Lemma always_mbind {A B} (m : M Call Answer St A)
      (f : A -> M Call Answer St B) :
  always P m -> (forall a, always P (f a)) -> always P (mbind m f).
Proof.
  intros Hm Hf W h w s. rewrite run_mbind. cbn [log].
  apply P_app; [apply Hm | apply Hf].
Qed.
End LogInvariantFacts.

(** ** X11: the error handler *)

Lemma handler_exchanges_app l1 l2 :
  handler_exchanges (l1 ++ l2)
  = (handler_exchanges l1 ++ handler_exchanges l2)%list.
Proof.
  induction l1 as [| e l1 IH]; simpl; [reflexivity |].
  destruct (handler_exchange e); simpl; rewrite IH; reflexivity.
Qed.

Lemma restored_app xs ys :
  restored xs = true -> restored ys = true -> restored (xs ++ ys) = true.
Proof.
  intros Hx Hy.
  assert (G : forall n xs, (List.length xs <= n)%nat ->
                           restored xs = true ->
                           restored (xs ++ ys) = true).
  { clear xs Hx. induction n as [| n IH]; intros xs Hn Hx.
    - destruct xs; [exact Hy | simpl in Hn; lia].
    - destruct xs as [| [[| t] old] [| [back o2] rest]];
        try discriminate Hx; [exact Hy |].
      cbn [restored app] in *.
      apply andb_true_iff in Hx. destruct Hx as [Hb Hr].
      rewrite Hb. cbn [andb]. apply IH; [simpl in Hn; lia | exact Hr]. }
  apply (G (List.length xs)); [lia | exact Hx].
Qed.

Lemma handler_restored_nil : handler_restored [].
Proof. reflexivity. Qed.

Lemma handler_restored_app l1 l2 :
  handler_restored l1 -> handler_restored l2 ->
  handler_restored (l1 ++ l2).
Proof.
  unfold handler_restored. intros H1 H2.
  rewrite handler_exchanges_app. apply restored_app; assumption.
Qed.

Lemma XErrorHandler_eqb_refl a : XErrorHandler_eqb a a = true.
Proof. destruct a; simpl; [reflexivity | apply Z.eqb_refl]. Qed.

Lemma tidy_IsValidWindow handle' :
  always handler_restored (X11.IsValidWindow handle').
Proof.
  intros W h w s. unfold handler_restored.
  unfold X11.IsValidWindow, X11.call. unfold_monad. simpl.
  destruct (X11.initialized s); simpl; [| reflexivity].
  apply andb_true_iff. split; [apply XErrorHandler_eqb_refl | reflexivity].
Qed.

Lemma tidy_SetLastError e : always handler_restored (X11.SetLastError e).
Proof. intros W h w s. reflexivity. Qed.

Ltac tidy_step :=
  first
    [ apply (always_ret handler_restored handler_restored_nil)
    | apply (always_get handler_restored handler_restored_nil)
    | apply tidy_IsValidWindow
    | apply tidy_SetLastError
    | (apply (always_native handler_restored); intro; reflexivity)
    | (apply (always_mbind handler_restored handler_restored_app); [| intro])
    | match goal with
      | |- always _ (match ?x with _ => _ end) => destruct x
      end ].

Ltac tidy_tac := repeat first [ assumption | tidy_step ].

Lemma tidy_GetWindowInfo handle' :
  always handler_restored (X11.GetWindowInfo handle').
Proof.
  unfold X11.GetWindowInfo, X11.GetWindowTitleInternal,
    X11.GetWindowClassInternal, X11.GetWindowPidInternal,
    X11.GetProcessNameFromPid, X11.query_state, X11.HasWmState,
    X11.GetFocusedWindow, X11.call.
  tidy_tac.
Qed.

Lemma tidy_perform op handle' :
  always handler_restored (X11.perform op handle').
Proof.
  destruct op; cbn [X11.perform]; unfold X11.code;
    try (apply (always_mbind handler_restored handler_restored_app);
         [apply tidy_GetWindowInfo | intro; tidy_tac]);
    unfold X11.GetWindowTitle, X11.GetWindowRect, X11.GetWindowState,
      X11.GetWindowProcessId, X11.CloseWindow, X11.ForceCloseWindow,
      X11.MinimizeWindow, X11.MaximizeWindow, X11.RestoreWindow,
      X11.ShowWindow, X11.HideWindow, X11.FocusWindow, X11.SetAlwaysOnTop,
      X11.SetWindowRect, X11.MoveWindow, X11.ResizeWindow,
      X11.SetWindowTitle, X11.SetWindowOpacity, X11.guarded,
      X11.SetWmState, X11.SendClientMessage,
      X11.GetWindowTitleInternal, X11.GetWindowPidInternal,
      X11.query_state, X11.HasWmState, X11.GetFocusedWindow, X11.call;
    tidy_tac.
Qed.

Lemma tidy_lookups :
  always handler_restored X11.GetClientList
  /\ (forall win, always handler_restored (X11.GetWindowTitleInternal win))
  /\ (forall win, always handler_restored (X11.GetWindowPidInternal win))
  /\ (forall pid, always handler_restored (X11.GetProcessNameFromPid pid))
  /\ always handler_restored X11.GetFocusedWindow.
Proof.
  repeat split; intros;
    unfold X11.GetClientList, X11.GetWindowTitleInternal,
      X11.GetWindowPidInternal, X11.GetProcessNameFromPid,
      X11.GetFocusedWindow, X11.call; tidy_tac.
Qed.

Lemma tidy_collect windows acc :
  always handler_restored (X11.collect windows acc).
Proof.
  revert acc. induction windows as [| win rest IH]; intro acc;
    cbn [X11.collect]; [tidy_tac |].
  apply (always_mbind handler_restored handler_restored_app);
    [apply tidy_GetWindowInfo | intro info].
  destruct (ok info); apply IH.
Qed.

Lemma tidy_visit_each {V} (cb : V -> WindowInfo -> bool * V) windows v seen :
  always handler_restored (X11.visit_each cb windows v seen).
Proof.
  revert v seen. induction windows as [| win rest IH]; intros v seen;
    cbn [X11.visit_each]; [tidy_tac |].
  apply (always_mbind handler_restored handler_restored_app);
    [apply tidy_GetWindowInfo | intro info].
  destruct (ok info); [| apply IH].
  destruct (cb v (value info)) as [[|] v']; cbn [negb];
    [apply IH | tidy_tac].
Qed.

Lemma tidy_find_by_title pattern cs windows acc :
  always handler_restored (X11.find_by_title pattern cs windows acc).
Proof.
  destruct tidy_lookups as (_ & Ht & _).
  revert acc. induction windows as [| win rest IH]; intro acc;
    cbn [X11.find_by_title]; [tidy_tac |].
  apply (always_mbind handler_restored handler_restored_app);
    [apply Ht | intro ttl].
  destruct (title_matches cs ttl pattern); [| apply IH].
  apply (always_mbind handler_restored handler_restored_app);
    [apply tidy_GetWindowInfo | intro info].
  destruct (ok info); apply IH.
Qed.

Lemma tidy_find_by_process name windows acc :
  always handler_restored (X11.find_by_process name windows acc).
Proof.
  destruct tidy_lookups as (_ & _ & Hp & Hn & _).
  revert acc. induction windows as [| win rest IH]; intro acc;
    cbn [X11.find_by_process]; [tidy_tac |].
  apply (always_mbind handler_restored handler_restored_app);
    [apply Hp | intro pid].
  apply (always_mbind handler_restored handler_restored_app);
    [apply Hn | intro procName].
  destruct (ToLowerCompare procName name); [| apply IH].
  apply (always_mbind handler_restored handler_restored_app);
    [apply tidy_GetWindowInfo | intro info].
  destruct (ok info); apply IH.
Qed.

(** X23.  The Xlib error handler is process-wide, and [IsValidWindow]
    replaces it while it probes a window.  In the log of every method of
    the X11 backend, whatever the system answers, the exchanges of the
    handler come in pairs: the swallowing handler is installed, and the
    next exchange puts back the handler that it had replaced.  No method
    returns with the swallowing handler left installed. *)
Theorem x11_error_handler_is_restored :
  forall (V : Type) (op : HandleOp) (handle' : NativeHandle)
         (cb : V -> WindowInfo -> bool * V) (v : V)
         (pattern name : string) (cs : bool),
    always handler_restored (X11.perform op handle')
    /\ always handler_restored (X11.IsValidWindow handle')
    /\ always handler_restored (X11.IsWindowVisible handle')
    /\ always handler_restored X11.GetFocusedWindowInfo
    /\ always handler_restored X11.GetAllWindows
    /\ always handler_restored (X11.EnumerateWindows cb v)
    /\ always handler_restored (X11.FindWindowsByTitle pattern cs)
    /\ always handler_restored (X11.FindWindowsByProcess name)
    /\ always handler_restored X11.Initialize
    /\ always handler_restored X11.Shutdown.
Proof.
  intros V op handle' cb v pattern name cs.
  destruct tidy_lookups as (Hc & _ & _ & _ & Hf).
  split; [apply tidy_perform |].
  split; [apply tidy_IsValidWindow |].
  split; [unfold X11.IsWindowVisible, X11.call; tidy_tac |].
  split.
  { unfold X11.GetFocusedWindowInfo.
    apply (always_mbind handler_restored handler_restored_app);
      [exact Hf | intro focused].
    destruct (focused =? 0); [tidy_tac | apply tidy_GetWindowInfo]. }
  split.
  { unfold X11.GetAllWindows.
    apply (always_mbind handler_restored handler_restored_app);
      [tidy_tac | intro s0].
    destruct (negb (X11.initialized s0)); [tidy_tac |].
    apply (always_mbind handler_restored handler_restored_app);
      [exact Hc | intro]. apply tidy_collect. }
  split.
  { unfold X11.EnumerateWindows.
    apply (always_mbind handler_restored handler_restored_app);
      [tidy_tac | intro s0].
    destruct (negb (X11.initialized s0)); [tidy_tac |].
    apply (always_mbind handler_restored handler_restored_app);
      [exact Hc | intro]. apply tidy_visit_each. }
  split.
  { unfold X11.FindWindowsByTitle.
    apply (always_mbind handler_restored handler_restored_app);
      [tidy_tac | intro s0].
    destruct (negb (X11.initialized s0)); [tidy_tac |].
    apply (always_mbind handler_restored handler_restored_app);
      [exact Hc | intro]. apply tidy_find_by_title. }
  split.
  { unfold X11.FindWindowsByProcess.
    apply (always_mbind handler_restored handler_restored_app);
      [tidy_tac | intro s0].
    destruct (negb (X11.initialized s0)); [tidy_tac |].
    apply (always_mbind handler_restored handler_restored_app);
      [exact Hc | intro]. apply tidy_find_by_process. }
  split.
  { unfold X11.Initialize, X11.InitializeAtoms, X11.call.
    repeat first
      [ assumption | tidy_step
      | apply (always_put handler_restored handler_restored_nil) ]. }
  unfold X11.Shutdown, X11.call.
  repeat first
    [ assumption | tidy_step
    | apply (always_put handler_restored handler_restored_nil) ].
Qed.

(** ** Win32: process handles *)

Lemma handles_closed_nil : handles_closed [].
Proof. reflexivity. Qed.

Lemma handles_closed_app l1 l2 :
  handles_closed l1 -> handles_closed l2 -> handles_closed (l1 ++ l2).
Proof.
  unfold handles_closed, open_process_handles. intros H1 H2.
  rewrite fold_left_app, H1. exact H2.
Qed.

Lemma closed_GetProcessNameFromPid pid :
  always handles_closed (Win32.GetProcessNameFromPid pid).
Proof.
  intros W h w s. unfold handles_closed, open_process_handles.
  unfold Win32.GetProcessNameFromPid, Win32.call. unfold_monad. simpl.
  destruct (h (Win32.Api.OpenProcess Win32.PROCESS_QUERY_LIMITED_INFORMATION
                                     pid) w) as [hProcess w1].
  simpl. destruct (hProcess =? 0) eqn:Hz; simpl; rewrite ?Hz;
    [reflexivity |].
  destruct (h (Win32.Api.QueryFullProcessImageNameW hProcess Win32.MAX_PATH)
              w1) as [[[|] path] w2]; simpl.
  - match goal with
    | |- context [h ?c w2] => destruct (h c w2) as [[sz conv] w3]
    end. simpl.
    destruct (0 <? sz); simpl; rewrite Z.eqb_refl; reflexivity.
  - rewrite Z.eqb_refl. reflexivity.
Qed.

Lemma closed_ForceCloseWindow hwnd :
  always handles_closed (Win32.ForceCloseWindow hwnd).
Proof.
  intros W h w s. unfold handles_closed, open_process_handles.
  unfold Win32.ForceCloseWindow, Win32.guarded, Win32.call.
  unfold_monad. simpl.
  destruct (m_initialized s); simpl; [| reflexivity].
  destruct (h (Win32.Api.IsWindow hwnd) w) as [[|] w1]; simpl;
    [| reflexivity].
  destruct (h (Win32.Api.GetWindowThreadProcessId hwnd) w1) as [pid w2].
  simpl.
  destruct (h (Win32.Api.OpenProcess Win32.PROCESS_TERMINATE pid) w2)
    as [hProcess w3].
  simpl. destruct (hProcess =? 0) eqn:Hz; simpl; rewrite ?Hz;
    [reflexivity |].
  rewrite Z.eqb_refl. reflexivity.
Qed.

Lemma closed_SetLastError e : always handles_closed (Win32.SetLastError e).
Proof. intros W h w s. reflexivity. Qed.

Ltac closed_step :=
  first
    [ apply (always_ret handles_closed handles_closed_nil)
    | apply (always_get handles_closed handles_closed_nil)
    | apply closed_GetProcessNameFromPid
    | apply closed_ForceCloseWindow
    | apply closed_SetLastError
    | (apply (always_native handles_closed); intro; reflexivity)
    | (apply (always_mbind handles_closed handles_closed_app); [| intro])
    | match goal with
      | |- always _ (match ?x with _ => _ end) => destruct x
      | |- always _ (let (_, _) := ?x in _) => destruct x
      end ].

Ltac closed_tac := repeat first [ assumption | closed_step ].

Lemma closed_GetWindowInfo hwnd :
  always handles_closed (Win32.GetWindowInfo hwnd).
Proof.
  unfold Win32.GetWindowInfo, Win32.GetWindowTitleInternal,
    Win32.GetWindowClassInternal, Win32.call.
  closed_tac.
Qed.

Lemma closed_EnumWindowsProc {V} hwnd (data : Win32.EnumWindowsData V) :
  always handles_closed (Win32.EnumWindowsProc hwnd data).
Proof.
  unfold Win32.EnumWindowsProc, Win32.call.
  repeat first [ apply closed_GetWindowInfo | closed_step ].
Qed.

Lemma closed_EnumWindows_from {V} hwnds (data : Win32.EnumWindowsData V) :
  always handles_closed (Win32.EnumWindows_from hwnds data).
Proof.
  revert data. induction hwnds as [| hwnd rest IH]; intro data;
    cbn [Win32.EnumWindows_from]; [closed_tac |].
  apply (always_mbind handles_closed handles_closed_app);
    [apply closed_EnumWindowsProc | intro r].
  destruct (fst r); [apply IH | closed_tac].
Qed.

Lemma closed_EnumWindows {V} (data : Win32.EnumWindowsData V) :
  always handles_closed (Win32.EnumWindows data).
Proof.
  unfold Win32.EnumWindows, Win32.call.
  apply (always_mbind handles_closed handles_closed_app);
    [closed_tac | intro hwnds]. apply closed_EnumWindows_from.
Qed.

Lemma closed_GetAllWindows : always handles_closed Win32.GetAllWindows.
Proof.
  unfold Win32.GetAllWindows.
  repeat first [ apply closed_EnumWindows | closed_step ].
Qed.

Lemma closed_perform op hwnd :
  always handles_closed (Win32.perform op hwnd).
Proof.
  destruct op; cbn [Win32.perform]; unfold Win32.code;
    try apply closed_ForceCloseWindow;
    try (apply (always_mbind handles_closed handles_closed_app);
         [apply closed_GetWindowInfo | intro; closed_tac]);
    unfold Win32.GetWindowTitle, Win32.GetWindowRect, Win32.GetWindowState,
      Win32.GetWindowProcessId, Win32.CloseWindow,
      Win32.MinimizeWindow, Win32.MaximizeWindow, Win32.RestoreWindow,
      Win32.ShowWindow, Win32.HideWindow, Win32.FocusWindow,
      Win32.SetAlwaysOnTop, Win32.SetWindowRect, Win32.MoveWindow,
      Win32.ResizeWindow, Win32.SetWindowTitle, Win32.SetWindowOpacity,
      Win32.guarded, Win32.GetWindowTitleInternal, Win32.call;
    closed_tac.
Qed.

(** X24.  No method of the Win32 backend leaks a process handle: in the
    log of every method, whatever the system answers and on every path,
    each handle that [OpenProcess] handed out has been passed to
    [CloseHandle] by the time the method returns. *)
Theorem win32_process_handles_are_closed :
  forall (V : Type) (op : HandleOp) (hwnd : NativeHandle) (pid : Z)
         (cb : V -> WindowInfo -> bool * V) (v : V)
         (pattern name : string) (cs : bool),
    always handles_closed (Win32.perform op hwnd)
    /\ always handles_closed (Win32.GetProcessNameFromPid pid)
    /\ always handles_closed Win32.GetFocusedWindowInfo
    /\ always handles_closed Win32.GetAllWindows
    /\ always handles_closed (Win32.EnumerateWindows cb v)
    /\ always handles_closed (Win32.FindWindowsByTitle pattern cs)
    /\ always handles_closed (Win32.FindWindowsByProcess name).
Proof.
  intros V op hwnd pid cb v pattern name cs.
  split; [apply closed_perform |].
  split; [apply closed_GetProcessNameFromPid |].
  split.
  { unfold Win32.GetFocusedWindowInfo, Win32.GetFocusedWindow, Win32.call.
    apply (always_mbind handles_closed handles_closed_app);
      [closed_tac | intro focused].
    destruct (focused =? 0); [closed_tac | apply closed_GetWindowInfo]. }
  split; [apply closed_GetAllWindows |].
  split.
  { unfold Win32.EnumerateWindows.
    repeat first [ apply closed_EnumWindows | closed_step ]. }
  split.
  - unfold Win32.FindWindowsByTitle.
    repeat first [ apply closed_GetAllWindows | closed_step ].
  - unfold Win32.FindWindowsByProcess.
    repeat first [ apply closed_GetAllWindows | closed_step ].
Qed.

(* ================================================================== *)
(** * Further properties: the two predicates and the info *)
(* ================================================================== *)

Section Win32Predicates.
Context {W : Type}.
Variable h : Handler Win32.Api.Call Win32.Api.Answer W.
Variable w : W.
Variable s : Win32.St.
Hypothesis still : frozen Win32Query.query h w.

Ltac pure_step :=
  rewrite (reader_mbind_returned Win32Query.query h w s _ _ still)
    by reader_tac.

Lemma win32_valid_is_ok hwnd :
  returned (run h (Win32.IsValidWindow hwnd s) w)
  = ok (returned (run h (Win32.GetWindowInfo hwnd s) w)).
Proof.
  unfold Win32.IsValidWindow, Win32.GetWindowInfo, Win32.call.
  repeat pure_step. rewrite run_get. cbn [returned result fst].
  destruct (m_initialized s); cbn [negb]; [| reflexivity].
  repeat pure_step. rewrite ?run_native, ?run_ret.
  cbn [returned result fst].
  destruct (h (Win32.Api.IsWindow hwnd) w) as [[|] w'] eqn:E; cbn [negb fst].
  - repeat pure_step. rewrite ?run_ret. reflexivity.
  - reflexivity.
Qed.

Lemma win32_visible_is_info hwnd :
  Win32Query.visible_only_if_window h ->
  returned (run h (Win32.IsWindowVisible hwnd s) w)
  = ok (returned (run h (Win32.GetWindowInfo hwnd s) w))
    && isVisible (value (returned (run h (Win32.GetWindowInfo hwnd s) w))).
Proof.
  intro OS.
  unfold Win32.IsWindowVisible, Win32.GetWindowInfo, Win32.call.
  repeat pure_step. rewrite run_get. cbn [returned result fst].
  destruct (m_initialized s); cbn [negb]; [| reflexivity].
  repeat pure_step. rewrite ?run_native, ?run_ret.
  cbn [returned result fst].
  pose proof (OS hwnd w) as Hdead.
  destruct (h (Win32.Api.IsWindow hwnd) w) as [[|] w'] eqn:E; cbn [negb fst].
  - repeat pure_step. rewrite ?run_ret, ?run_native.
    cbn [returned result fst].
    match goal with
    | |- context [match ?x with Some _ => _ | None => _ end] => destruct x
    end; reflexivity.
  - cbn [fst] in Hdead. rewrite (Hdead eq_refl). reflexivity.
Qed.
End Win32Predicates.

Section X11Predicates.
Context {W : Type}.
Variable h : Handler X11.Api.Call X11.Api.Answer W.
Variable w : W.
Variable s : X11.St.
Hypothesis still : frozen X11Query.query h w.

Ltac pure_step :=
  rewrite (reader_mbind_returned X11Query.query h w s _ _ still)
    by (repeat first
          [ solve [ auto using x11_lookup_reader_query with readers ]
          | reader_step ]).

Lemma x11_valid_is_ok win :
  returned (run h (X11.IsValidWindow win s) w)
  = ok (returned (run h (X11.GetWindowInfo win s) w)).
Proof.
  unfold X11.GetWindowInfo. pure_step.
  rewrite run_get. cbn [returned result fst].
  rewrite (x11_valid_frozen h w s still).
  destruct (X11.initialized s) eqn:Hi; cbn [negb andb]; [| reflexivity].
  pure_step. rewrite (x11_valid_frozen h w s still), Hi. cbn [andb].
  destruct (h (X11.Api.XGetWindowAttributes (X11.m_display s) win) w)
    as [[a |] w'] eqn:Ha; cbn [negb fst]; [| reflexivity].
  repeat pure_step. unfold X11.call. rewrite ?run_ret, ?run_native.
  cbn [returned result fst]. rewrite ?Ha. cbn [fst].
  repeat pure_step. rewrite ?run_ret. reflexivity.
Qed.

Lemma x11_visible_is_info win :
  returned (run h (X11.IsWindowVisible win s) w)
  = ok (returned (run h (X11.GetWindowInfo win s) w))
    && isVisible (value (returned (run h (X11.GetWindowInfo win s) w))).
Proof.
  unfold X11.IsWindowVisible, X11.GetWindowInfo. repeat pure_step.
  rewrite run_get. cbn [returned result fst].
  destruct (X11.initialized s) eqn:Hi; cbn [negb andb]; [| reflexivity].
  repeat pure_step. rewrite (x11_valid_frozen h w s still), Hi. cbn [andb].
  destruct (h (X11.Api.XGetWindowAttributes (X11.m_display s) win) w)
    as [[a |] w'] eqn:Ha; cbn [negb fst]; [| reflexivity].
  repeat pure_step. unfold X11.call. rewrite ?run_ret, ?run_native.
  cbn [returned result fst]. rewrite ?Ha. cbn [fst].
  repeat pure_step. rewrite ?run_ret, ?run_native. reflexivity.
Qed.
End X11Predicates.

(** X25.  The two predicates agree with [GetWindowInfo] on a desktop
    that the queries leave unchanged: [IsValidWindow] holds exactly when
    [GetWindowInfo] succeeds on the handle, and [IsWindowVisible] holds
    exactly when it succeeds and the info says visible.  On Win32 the
    second part relies on the system answering that a handle that is not
    a window is not visible; on macOS both are so by construction. *)
Theorem predicates_agree_with_info :
  forall (W1 W2 W3 : Type)
         (h1 : Handler Win32.Api.Call Win32.Api.Answer W1) (w1 : W1)
         (h2 : Handler X11.Api.Call X11.Api.Answer W2) (w2 : W2)
         (h3 : Handler MacOS.Api.Call MacOS.Api.Answer W3) (w3 : W3)
         (s1 : Win32.St) (s2 : X11.St) (s3 : MacOS.St)
         (handle' : NativeHandle),
    frozen Win32Query.query h1 w1 -> Win32Query.visible_only_if_window h1 ->
    frozen X11Query.query h2 w2 ->
    (returned (run h1 (Win32.IsValidWindow handle' s1) w1)
     = ok (returned (run h1 (Win32.GetWindowInfo handle' s1) w1))
     /\ returned (run h1 (Win32.IsWindowVisible handle' s1) w1)
        = ok (returned (run h1 (Win32.GetWindowInfo handle' s1) w1))
          && isVisible (value (returned
                                 (run h1 (Win32.GetWindowInfo handle' s1)
                                      w1))))
    /\ (returned (run h2 (X11.IsValidWindow handle' s2) w2)
        = ok (returned (run h2 (X11.GetWindowInfo handle' s2) w2))
        /\ returned (run h2 (X11.IsWindowVisible handle' s2) w2)
           = ok (returned (run h2 (X11.GetWindowInfo handle' s2) w2))
             && isVisible (value (returned
                                    (run h2 (X11.GetWindowInfo handle' s2)
                                         w2))))
    /\ (returned (run h3 (MacOS.IsValidWindow handle' s3) w3)
        = ok (returned (run h3 (MacOS.GetWindowInfo handle' s3) w3))
        /\ returned (run h3 (MacOS.IsWindowVisible handle' s3) w3)
           = ok (returned (run h3 (MacOS.GetWindowInfo handle' s3) w3))
             && isVisible (value (returned
                                    (run h3 (MacOS.GetWindowInfo handle' s3)
                                         w3)))).
Proof.
  intros W1 W2 W3 h1 w1 h2 w2 h3 w3 s1 s2 s3 handle' F1 OS F2.
  split; [| split].
  - split; [apply (win32_valid_is_ok h1 w1 s1 F1) |].
    apply (win32_visible_is_info h1 w1 s1 F1). exact OS.
  - split; [apply (x11_valid_is_ok h2 w2 s2 F2) |].
    apply (x11_visible_is_info h2 w2 s2 F2).
  - split.
    + unfold MacOS.IsValidWindow. rewrite run_mbind, run_ret. reflexivity.
    + unfold MacOS.IsWindowVisible. rewrite run_mbind, run_ret. reflexivity.
Qed.

Lemma win32_desk_visible_only_if_window :
  Win32Query.visible_only_if_window Win32Desk.handler.
Proof. intros hwnd d H. exact H. Qed.

Lemma predicates_agree_with_info_witness :
  frozen Win32Query.query Win32Desk.handler Win32Desk.desk
  /\ Win32Query.visible_only_if_window Win32Desk.handler
  /\ frozen X11Query.query X11Desk.handler X11Desk.desk
  /\ returned (run X11Desk.handler (X11.IsWindowVisible 13 X11Desk.ready)
                   X11Desk.desk)
     = ok (returned (run X11Desk.handler (X11.GetWindowInfo 13 X11Desk.ready)
                         X11Desk.desk))
       && isVisible (value (returned
                              (run X11Desk.handler
                                   (X11.GetWindowInfo 13 X11Desk.ready)
                                   X11Desk.desk))).
Proof.
  split; [apply win32_desk_is_frozen |].
  split; [apply win32_desk_visible_only_if_window |].
  split; [apply x11_desk_is_frozen |].
  apply (predicates_agree_with_info
           Win32Desk.Desk X11Desk.Desk MacOSDesk.Desk
           Win32Desk.handler Win32Desk.desk X11Desk.handler X11Desk.desk
           MacOSDesk.handler MacOSDesk.desk
           Win32Desk.ready X11Desk.ready MacOSDesk.ready 13).
  - apply win32_desk_is_frozen.
  - apply win32_desk_visible_only_if_window.
  - apply x11_desk_is_frozen.
Defined.

(* ================================================================== *)
(** * Further properties: from the enumeration back to the window *)
(* ================================================================== *)

Section Win32RoundTrip.
Context {W : Type}.
Variable h : Handler Win32.Api.Call Win32.Api.Answer W.
Variable w : W.
Variable s : Win32.St.
Hypothesis still : frozen Win32Query.query h w.

Ltac pure_step :=
  rewrite (reader_mbind_returned Win32Query.query h w s _ _ still)
    by reader_tac.

Lemma win32_info_visible hwnd :
  ok (returned (run h (Win32.GetWindowInfo hwnd s) w)) = true ->
  isVisible (value (returned (run h (Win32.GetWindowInfo hwnd s) w)))
  = fst (h (Win32.Api.IsWindowVisible hwnd) w).
Proof.
  unfold Win32.GetWindowInfo, Win32.call. pure_step.
  rewrite run_get. cbn [returned result fst].
  destruct (m_initialized s); cbn [negb];
    [| intro H; cbv in H; discriminate H].
  pure_step. rewrite run_native. cbn [returned result fst].
  destruct (h (Win32.Api.IsWindow hwnd) w) as [[|] w'] eqn:E; cbn [negb fst];
    [| intro H; cbv in H; discriminate H].
  intros _.
  repeat pure_step. rewrite run_ret, !run_native.
  cbn [returned result fst].
  match goal with
  | |- context [match ?x with Some _ => _ | None => _ end] => destruct x
  end; reflexivity.
Qed.

Lemma win32_candidates_round_trip hwnds :
  Forall (fun info =>
            In (handle info) hwnds
            /\ isVisible info = true
            /\ ok (returned (run h (Win32.GetWindowInfo (handle info) s) w))
               = true
            /\ value (returned (run h (Win32.GetWindowInfo (handle info) s)
                                    w)) = info)
         (Win32Query.candidates h w s hwnds).
Proof.
  induction hwnds as [| hwnd rest IH]; [constructor |].
  assert (T : Forall (fun info =>
            In (handle info) (hwnd :: rest)
            /\ isVisible info = true
            /\ ok (returned (run h (Win32.GetWindowInfo (handle info) s) w))
               = true
            /\ value (returned (run h (Win32.GetWindowInfo (handle info) s)
                                    w)) = info)
         (Win32Query.candidates h w s rest)).
  { eapply Forall_impl; [| exact IH].
    intros info (Hin & Hrest). split; [right; exact Hin | exact Hrest]. }
  cbn [Win32Query.candidates]. unfold Win32Query.candidate.
  destruct (fst (h (Win32.Api.IsWindowVisible hwnd) w)) eqn:Hv; cbn [negb];
    [| exact T].
  destruct (negb (fst (h (Win32.Api.GetWindow hwnd Win32.GW_OWNER) w) =? 0));
    [exact T |].
  destruct (fst (h (Win32.Api.GetWindowTextLengthW hwnd) w) =? 0);
    [exact T |].
  destruct (ok (returned (run h (Win32.GetWindowInfo hwnd s) w))) eqn:Hok;
    [| exact T].
  constructor; [| exact T].
  destruct (win32_info_fields h w s still hwnd Hok) as (_ & _ & Hh & _).
  rewrite Hh. split; [left; reflexivity |].
  split; [rewrite (win32_info_visible hwnd Hok); exact Hv |].
  split; [exact Hok | reflexivity].
Qed.
End Win32RoundTrip.

Section X11RoundTrip.
Context {W : Type}.
Variable h : Handler X11.Api.Call X11.Api.Answer W.
Variable w : W.
Variable s : X11.St.
Hypothesis still : frozen X11Query.query h w.

Lemma x11_infos_round_trip windows :
  Forall (fun info =>
            In (handle info) windows
            /\ ok (returned (run h (X11.GetWindowInfo (handle info) s) w))
               = true
            /\ value (returned (run h (X11.GetWindowInfo (handle info) s) w))
               = info)
         (X11Query.infos h w s windows).
Proof.
  induction windows as [| win rest IH]; [constructor |].
  assert (T : Forall (fun info =>
            In (handle info) (win :: rest)
            /\ ok (returned (run h (X11.GetWindowInfo (handle info) s) w))
               = true
            /\ value (returned (run h (X11.GetWindowInfo (handle info) s) w))
               = info)
         (X11Query.infos h w s rest)).
  { eapply Forall_impl; [| exact IH].
    intros info (Hin & Hrest). split; [right; exact Hin | exact Hrest]. }
  cbn [X11Query.infos].
  destruct (ok (returned (run h (X11.GetWindowInfo win s) w))) eqn:Hok;
    [| exact T].
  constructor; [| exact T].
  destruct (x11_info_fields h w s still win Hok) as (_ & _ & Hh & _).
  rewrite Hh. split; [left; reflexivity |].
  split; [exact Hok | reflexivity].
Qed.
End X11RoundTrip.

(** X26.  From the enumeration back to the window, on a desktop that the
    queries leave unchanged.  Every window that the Win32 [GetAllWindows]
    returns is visible, its handle is one that [EnumWindows] presented,
    and [GetWindowInfo] on that handle succeeds and returns the same
    info.  Every window that the X11 [GetAllWindows] returns has a handle
    from the client list, and [GetWindowInfo] on that handle succeeds
    and returns the same info. *)
Theorem all_windows_round_trip :
  forall (W1 W2 : Type)
         (h1 : Handler Win32.Api.Call Win32.Api.Answer W1) (w1 : W1)
         (h2 : Handler X11.Api.Call X11.Api.Answer W2) (w2 : W2)
         (s1 : Win32.St) (s2 : X11.St),
    frozen Win32Query.query h1 w1 -> frozen X11Query.query h2 w2 ->
    Forall (fun info =>
              In (handle info) (fst (h1 Win32.Api.EnumWindows w1))
              /\ isVisible info = true
              /\ ok (returned (run h1 (Win32.GetWindowInfo (handle info) s1)
                                   w1)) = true
              /\ value (returned (run h1 (Win32.GetWindowInfo (handle info)
                                                              s1) w1))
                 = info)
           (returned (run h1 (Win32.GetAllWindows s1) w1))
    /\ Forall (fun info =>
                 In (handle info)
                    (returned (run h2 (X11.GetClientList s2) w2))
                 /\ ok (returned (run h2 (X11.GetWindowInfo (handle info) s2)
                                      w2)) = true
                 /\ value (returned (run h2 (X11.GetWindowInfo (handle info)
                                                               s2) w2))
                    = info)
              (returned (run h2 (X11.GetAllWindows s2) w2)).
Proof.
  intros W1 W2 h1 w1 h2 w2 s1 s2 F1 F2. split.
  - rewrite (win32_GetAllWindows_candidates h1 w1 s1 F1).
    destruct (m_initialized s1); [| constructor].
    apply win32_candidates_round_trip. exact F1.
  - rewrite (x11_GetAllWindows_infos h2 w2 s2 F2).
    destruct (X11.initialized s2); [| constructor].
    apply x11_infos_round_trip. exact F2.
Qed.

Lemma all_windows_round_trip_witness :
  frozen Win32Query.query Win32Desk.handler Win32Desk.desk
  /\ frozen X11Query.query X11Desk.handler X11Desk.desk
  /\ Forall (fun info =>
               In (handle info)
                  (returned (run X11Desk.handler
                                 (X11.GetClientList X11Desk.ready)
                                 X11Desk.desk))
               /\ ok (returned (run X11Desk.handler
                                    (X11.GetWindowInfo (handle info)
                                                       X11Desk.ready)
                                    X11Desk.desk)) = true
               /\ value (returned (run X11Desk.handler
                                       (X11.GetWindowInfo (handle info)
                                                          X11Desk.ready)
                                       X11Desk.desk))
                  = info)
            (returned (run X11Desk.handler (X11.GetAllWindows X11Desk.ready)
                           X11Desk.desk)).
Proof.
  split; [apply win32_desk_is_frozen |].
  split; [apply x11_desk_is_frozen |].
  apply (all_windows_round_trip
           Win32Desk.Desk X11Desk.Desk
           Win32Desk.handler Win32Desk.desk X11Desk.handler X11Desk.desk
           Win32Desk.ready X11Desk.ready).
  - apply win32_desk_is_frozen.
  - apply x11_desk_is_frozen.
Defined.

(* ================================================================== *)
(** * Further properties: macOS handles *)
(* ================================================================== *)

Lemma macos_read_dict_processId window info :
  processId (MacOS.read_dict window info)
  = MacOS.unsignedIntValue (MacOS.kCGWindowOwnerPID window).
Proof.
  unfold MacOS.read_dict.
  destruct (MacOS.kCGWindowName window), (MacOS.kCGWindowOwnerName window),
    (MacOS.kCGWindowBounds window); reflexivity.
Qed.

Lemma macos_guarded_alias {W}
      (h : Handler MacOS.Api.Call MacOS.Api.Answer W) (w : W) (s : MacOS.St)
      (handle1 handle2 : NativeHandle)
      (body1 body2 : WindowInfo -> MacOS.M ErrorCode) :
  MacOS.to_CGWindowID handle1 = MacOS.to_CGWindowID handle2 ->
  (forall i i', processId i = processId i' -> body1 i = body2 i') ->
  run h (MacOS.guarded handle1 body1 s) w
  = run h (MacOS.guarded handle2 body2 s) w.
Proof.
  intros H Hb.
  unfold MacOS.guarded, MacOS.GetWindowInfo, MacOS.call. unfold_monad.
  simpl. destruct (m_initialized s) eqn:Hi; simpl; [| reflexivity].
  rewrite ?Hi. simpl. rewrite H.
  destruct (h (MacOS.Api.CGWindowListCopyWindowInfo
                 MacOS.kCGWindowListOptionIncludingWindow
                 (MacOS.to_CGWindowID handle2)) w)
    as [[[| window l] |] w']; simpl; try reflexivity.
  match goal with
  | |- context [body1 ?i] =>
      match goal with
      | |- context [body2 ?i'] => rewrite (Hb i i')
      end
  end; [reflexivity |].
  destruct (MacOS.boolValue (MacOS.kCGWindowIsOnscreen window));
    cbn [negb value set_error set_value]; unfold with_state;
    cbn [processId]; rewrite !macos_read_dict_processId; reflexivity.
Qed.

(** X27.  The macOS backend identifies a window by the low 32 bits of the
    handle, the window number: on two handles that agree on these bits
    every handle operation issues the same native calls and gives the
    same answer, whatever the system answers. *)
Theorem macos_handle_is_window_number :
  forall (W : Type) (h : Handler MacOS.Api.Call MacOS.Api.Answer W) (w : W)
         (s : MacOS.St) (op : HandleOp) (handle1 handle2 : NativeHandle),
    handle1 mod 2 ^ 32 = handle2 mod 2 ^ 32 ->
    run h (MacOS.perform op handle1 s) w
    = run h (MacOS.perform op handle2 s) w.
Proof.
  intros W h w s op handle1 handle2 H.
  change (MacOS.to_CGWindowID handle1 = MacOS.to_CGWindowID handle2) in H.
  destruct op; cbn [MacOS.perform]; try reflexivity.
  1-5: unfold MacOS.code, MacOS.GetWindowTitle, MacOS.GetWindowRect,
         MacOS.GetWindowState, MacOS.GetWindowProcessId, MacOS.project,
         MacOS.GetWindowInfo, MacOS.call; unfold_monad; simpl;
       destruct (m_initialized s); simpl; try reflexivity;
       rewrite H;
       destruct (h (MacOS.Api.CGWindowListCopyWindowInfo
                      MacOS.kCGWindowListOptionIncludingWindow
                      (MacOS.to_CGWindowID handle2)) w)
         as [[[| window l] |] w']; simpl; try reflexivity;
       destruct (MacOS.boolValue (MacOS.kCGWindowIsOnscreen window));
       reflexivity.
  all: unfold MacOS.CloseWindow, MacOS.ForceCloseWindow,
         MacOS.MinimizeWindow, MacOS.MaximizeWindow, MacOS.RestoreWindow,
         MacOS.ShowWindow, MacOS.HideWindow, MacOS.FocusWindow,
         MacOS.SetWindowRect, MacOS.MoveWindow, MacOS.ResizeWindow,
         MacOS.MinimizeWindow, MacOS.RestoreWindow, MacOS.with_ax_window;
       apply macos_guarded_alias; [exact H |];
       intros i i' Hp; rewrite Hp, ?H; reflexivity.
Qed.

Lemma macos_handle_is_window_number_witness :
  21 mod 2 ^ 32 = (21 + 2 ^ 32) mod 2 ^ 32
  /\ run MacOSDesk.handler (MacOS.perform OpCloseWindow 21 MacOSDesk.ready)
         MacOSDesk.desk
     = run MacOSDesk.handler
           (MacOS.perform OpCloseWindow (21 + 2 ^ 32) MacOSDesk.ready)
           MacOSDesk.desk.
Proof.
  split; [reflexivity |].
  apply (macos_handle_is_window_number MacOSDesk.Desk MacOSDesk.handler
           MacOSDesk.desk MacOSDesk.ready OpCloseWindow 21 (21 + 2 ^ 32)).
  reflexivity.
Defined.

Lemma macos_read_dict_title window info :
  title (MacOS.read_dict window info)
  = match MacOS.kCGWindowName window with
    | Some ttl => MacOS.UTF8String ttl
    | None => title info
    end.
Proof.
  unfold MacOS.read_dict.
  destruct (MacOS.kCGWindowName window), (MacOS.kCGWindowOwnerName window),
    (MacOS.kCGWindowBounds window); reflexivity.
Qed.

Lemma macos_collect_keeps windows acc info :
  In info acc -> In info (MacOS.collect windows acc).
Proof.
  revert acc. induction windows as [| window rest IH]; intros acc Hin.
  - exact Hin.
  - cbn [MacOS.collect].
    destruct (negb (MacOS.is_empty (title _))); apply IH;
      [apply in_or_app; left; exact Hin | exact Hin].
Qed.

(** A name that is not empty and does not begin with NUL is not empty
    as a C string either. *)
Lemma macos_utf8_not_empty window ttl :
  no_leading_nul window ->
  MacOS.kCGWindowName window = Some ttl ->
  MacOS.is_empty ttl = false ->
  MacOS.is_empty (MacOS.UTF8String ttl) = false.
Proof.
  unfold no_leading_nul. intros Hn Hk He. rewrite Hk in Hn.
  destruct ttl as [| c rest]; [discriminate He |].
  cbn [MacOS.UTF8String].
  destruct (Ascii.eqb c zero) eqn:Hc; [| reflexivity].
  apply Ascii.eqb_eq in Hc. contradiction.
Qed.

Lemma macos_first_titled_collected pid windows acc :
  Forall no_leading_nul windows ->
  MacOS.first_titled pid windows <> 0 ->
  exists info,
    In info (MacOS.collect windows acc)
    /\ handle info = MacOS.first_titled pid windows
    /\ title info <> "".
Proof.
  intro Hall. revert acc.
  induction Hall as [| window rest Hw Hrest IH]; intros acc Hf.
  - exfalso. apply Hf. reflexivity.
  - cbn [MacOS.first_titled MacOS.collect] in *.
    rewrite macos_read_dict_title.
    destruct (MacOS.kCGWindowName window) as [ttl |] eqn:Hn.
    + destruct (MacOS.is_empty ttl) eqn:He.
      * assert (Hu : MacOS.is_empty (MacOS.UTF8String ttl) = true)
          by (destruct ttl; [reflexivity | discriminate He]).
        rewrite Hu. cbn [negb] in *.
        destruct (MacOS.intValue (MacOS.kCGWindowOwnerPID window) =? pid);
          apply IH; exact Hf.
      * rewrite (macos_utf8_not_empty window ttl Hw Hn He). cbn [negb] in *.
        destruct (MacOS.intValue (MacOS.kCGWindowOwnerPID window) =? pid).
        -- exists (MacOS.read_dict window
                     (with_handle WindowInfo_default
                        (MacOS.unsignedIntValue
                           (MacOS.kCGWindowNumber window)))).
           split; [| split].
           ++ apply macos_collect_keeps. apply in_or_app. right.
              left. reflexivity.
           ++ rewrite macos_read_dict_handle. reflexivity.
           ++ rewrite macos_read_dict_title, Hn.
              pose proof (macos_utf8_not_empty window ttl Hw Hn He) as Hu.
              destruct (MacOS.UTF8String ttl); [discriminate Hu | discriminate].
        -- destruct (IH (acc ++ [MacOS.read_dict window
                                   (with_handle WindowInfo_default
                                      (MacOS.unsignedIntValue
                                         (MacOS.kCGWindowNumber window)))])%list
                        Hf) as (info & Hin & Hh & Ht).
           exists info. repeat split; assumption.
    + cbn [title WindowInfo_default with_handle MacOS.is_empty negb].
      destruct (MacOS.intValue (MacOS.kCGWindowOwnerPID window) =? pid);
        apply IH; exact Hf.
Qed.

(** X28.  macOS, on a desktop that the queries leave unchanged and on
    which no window name begins with the NUL character: a window that
    [GetFocusedWindow] returns is one of the windows that [GetAllWindows]
    lists, under the same handle and with a title that is not empty.
    The condition on the names is needed: [GetFocusedWindow] tests the
    length of the name, [GetAllWindows] the C string copied from it. *)
Theorem macos_focused_window_is_listed :
  forall (W : Type) (h : Handler MacOS.Api.Call MacOS.Api.Answer W) (w : W)
         (s : MacOS.St),
    frozen macos_query h w ->
    (forall windows,
        fst (h (MacOS.Api.CGWindowListCopyWindowInfo
                  (Z.lor MacOS.kCGWindowListOptionOnScreenOnly
                         MacOS.kCGWindowListExcludeDesktopElements)
                  MacOS.kCGNullWindowID) w) = Some windows ->
        Forall no_leading_nul windows) ->
    returned (run h (MacOS.GetFocusedWindow s) w) <> 0 ->
    exists info,
      In info (returned (run h (MacOS.GetAllWindows s) w))
      /\ handle info = returned (run h (MacOS.GetFocusedWindow s) w)
      /\ title info <> "".
Proof.
  intros W h w s still Hnames.
  unfold MacOS.GetFocusedWindow, MacOS.GetAllWindows, MacOS.SetLastError,
    MacOS.call. unfold_monad. simpl.
  destruct (m_initialized s); simpl; [| intro H; exfalso; apply H; reflexivity].
  ask still. destruct a as [pid |]; simpl;
    [| intro H; exfalso; apply H; reflexivity].
  ask still. destruct a as [windows |]; simpl;
    [| intro H; exfalso; apply H; reflexivity].
  apply macos_first_titled_collected.
  apply Hnames.
  match goal with
  | E : h ?c w = (Some windows, w) |- _ =>
      change (fst (h c w) = Some windows); rewrite E; reflexivity
  end.
Qed.

Lemma macos_desk_names : Forall no_leading_nul (MacOSDesk.window_list MacOSDesk.desk).
Proof.
  repeat constructor; unfold no_leading_nul; cbn; discriminate.
Qed.

Lemma macos_focused_window_is_listed_witness :
  frozen macos_query MacOSDesk.handler MacOSDesk.desk
  /\ Forall no_leading_nul (MacOSDesk.window_list MacOSDesk.desk)
  /\ returned (run MacOSDesk.handler (MacOS.GetFocusedWindow MacOSDesk.ready)
                   MacOSDesk.desk) <> 0
  /\ exists info,
       In info (returned (run MacOSDesk.handler
                              (MacOS.GetAllWindows MacOSDesk.ready)
                              MacOSDesk.desk))
       /\ handle info
          = returned (run MacOSDesk.handler
                          (MacOS.GetFocusedWindow MacOSDesk.ready)
                          MacOSDesk.desk)
       /\ title info <> "".
Proof.
  split; [apply macos_desk_is_frozen |].
  split; [apply macos_desk_names |].
  split; [discriminate |].
  apply (macos_focused_window_is_listed MacOSDesk.Desk MacOSDesk.handler
           MacOSDesk.desk MacOSDesk.ready).
  - apply macos_desk_is_frozen.
  - intros windows H. injection H as <-. apply macos_desk_names.
  - discriminate.
Defined.

(** Without the condition the two disagree: the window named with a NUL
    in front is the focused window and is not listed. *)
Lemma macos_focused_window_unlisted :
  returned (run MacOSDesk.handler (MacOS.GetFocusedWindow MacOSDesk.ready)
                macos_nul_named) = 31
  /\ returned (run MacOSDesk.handler (MacOS.GetAllWindows MacOSDesk.ready)
                   macos_nul_named) = [].
Proof. split; reflexivity. Qed.

(** X29.  [GetFocusedWindowInfo] takes no handle and has no
    initialisation test of its own: on a backend that is not
    initialised it answers [WindowNotFound], not [NotInitialized], and
    asks the system nothing. *)
Theorem focused_info_before_initialize :
  forall (W1 W2 W3 : Type)
         (h1 : Handler Win32.Api.Call Win32.Api.Answer W1) (w1 : W1)
         (h2 : Handler X11.Api.Call X11.Api.Answer W2) (w2 : W2)
         (h3 : Handler MacOS.Api.Call MacOS.Api.Answer W3) (w3 : W3)
         (s1 : Win32.St) (s2 : X11.St) (s3 : MacOS.St),
    m_initialized s1 = false -> X11.initialized s2 = false ->
    m_initialized s3 = false ->
    run h1 (Win32.GetFocusedWindowInfo s1) w1
    = mkOutcome (mkResult WindowInfo_default WindowNotFound
                          "No focused window found", s1) w1 []
    /\ run h2 (X11.GetFocusedWindowInfo s2) w2
       = mkOutcome (mkResult WindowInfo_default WindowNotFound
                             "No focused window found", s2) w2 []
    /\ run h3 (MacOS.GetFocusedWindowInfo s3) w3
       = mkOutcome (mkResult WindowInfo_default WindowNotFound
                             "No focused window found", s3) w3 [].
Proof.
  intros W1 W2 W3 h1 w1 h2 w2 h3 w3 s1 s2 s3 H1 H2 H3.
  repeat split.
  all: unfold_win32; unfold_x11; unfold_macos; unfold_monad; simpl;
    rewrite ?H1, ?H2, ?H3; reflexivity.
Qed.

Lemma focused_info_before_initialize_witness :
  m_initialized ImplBase_new = false
  /\ X11.initialized X11.St_new = false
  /\ run X11Desk.handler (X11.GetFocusedWindowInfo X11.St_new) X11Desk.desk
     = mkOutcome (mkResult WindowInfo_default WindowNotFound
                           "No focused window found", X11.St_new)
                 X11Desk.desk [].
Proof.
  split; [reflexivity |]. split; [reflexivity |].
  apply (focused_info_before_initialize
           Win32Desk.Desk X11Desk.Desk MacOSDesk.Desk
           Win32Desk.handler Win32Desk.desk X11Desk.handler X11Desk.desk
           MacOSDesk.handler MacOSDesk.desk
           ImplBase_new X11.St_new ImplBase_new); reflexivity.
Defined.

Lemma clamp_opacity_total_witness :
  Float.ltb Float.zero Float.half = true
  /\ Float.ltb Float.half Float.one = true
  /\ clamp_opacity Float.half = Float.half.
Proof.
  split; [reflexivity |]. split; [reflexivity |].
  apply (clamp_opacity_total Float.half); reflexivity.
Defined.
